(** * nuBoard scenario tab and raster model: a shallow embedding

    The development follows
    [nuplan/planning/nuboard/tabs/scenario_tab.py] (class [ScenarioTab]) and
    [nuplan/planning/training/modeling/models/raster_model_our.py].

    Python objects are records, Python dictionaries that are only read by key
    are [gmap]s, dictionaries whose iteration order is observed are
    association lists in insertion order, and a method of [ScenarioTab] is a
    function from the tab (the object [self]) to the tab.  A method that can
    raise returns a [result].

    Two behaviours of Bokeh are part of the model.  An assignment to the
    [value] of a selector that changes it calls the handler registered with
    [on_change("value", ...)], with the old and the new value, before the
    assignment returns.  A callback given to [add_next_tick_callback] waits
    in a queue of the document and runs once, on a later iteration of the
    event loop. *)

From Stdlib Require Import PrimFloat ZArith.
From stdpp Require Import base option list strings pretty gmap sorting.

(* The solvers of stdpp clear hypotheses that are gone already. *)
Set Warnings "-clear-no-such-hyp".

Local Open Scope string_scope.
Local Open Scope list_scope.

(** ** Python exceptions *)

Inductive error := KeyError | TypeError | IndexError | RuntimeError.

Inductive result (A : Type) :=
  | Ok (a : A)
  | Raise (e : error).
Arguments Ok {A} a.
Arguments Raise {A} e.

#[global] Instance result_ret : MRet result := λ A a, Ok a.
#[global] Instance result_bind : MBind result := λ A B f m,
  match m with
  | Ok a => f a
  | Raise e => Raise e
  end.
#[global] Instance result_fmap : FMap result := λ A B f m,
  match m with
  | Ok a => Ok (f a)
  | Raise e => Raise e
  end.

(** A [for] loop whose body threads a state and may raise. *)
Fixpoint for_each {A S : Type} (body : A → S → result S) (l : list A) (s : S)
  : result S :=
  match l with
  | [] => Ok s
  | x :: l => s' ← body x s; for_each body l s'
  end.

(** [enumerate(l)]. *)
Definition enumerate {A : Type} (l : list A) : list (nat * A) :=
  zip (seq 0 (length l)) l.

(** [sorted(list(set(l)))] on strings: Python compares strings by code
    point, [String.le] compares them byte by byte. *)
Definition sorted_set (s : gset string) : list string :=
  merge_sort String.le (elements s).

(** ** Cells of a pandas table *)

(** A cell holds [None], a float64 (with [nan] among them) or a string. *)
Inductive cell :=
  | CNone
  | CFloat (f : float)
  | CStr (s : string).

(** [np.isnan(x)]: defined on floats, a [TypeError] on [None] and on
    strings. *)
Definition np_isnan (x : cell) : result bool :=
  match x with
  | CFloat f => Ok (PrimFloat.is_nan f)
  | _ => Raise TypeError
  end.

(** [x is not None]. *)
Definition is_not_None (x : cell) : bool :=
  match x with
  | CNone => false
  | _ => true
  end.

(** A row of [iterrows()], read by column name. *)
Definition row_get (row_data : gmap string cell) (column : string) : result cell :=
  match row_data !! column with
  | Some x => Ok x
  | None => Raise KeyError
  end.

(** The identifying columns are stored in [str] fields and used as keys of
    [Dict[str, ...]]: they are read as strings, and a cell of another type
    there, which the annotations of the module exclude, stops the model with
    a [TypeError]. *)
Definition row_str (row_data : gmap string cell) (column : string) : result string :=
  x ← row_get row_data column;
  match x with
  | CStr s => Ok s
  | _ => Raise TypeError
  end.

Module DataFrame.
Record t := mk {
  columns : list string;
  iterrows : list (gmap string cell);
}.
End DataFrame.

(** ** The dataclasses of the module *)

Module ScenarioMetricScoreData.
Record t := mk {
  experiment_index : nat;
  metric_aggregator_file_name : string;
  metric_aggregator_file_index : nat;
  planner_name : string;
  metric_statistic_name : string;
  score : float;
}.
End ScenarioMetricScoreData.

Module ScenarioTimeSeriesData.
Record t := mk {
  experiment_index : nat;
  planner_name : string;
  time_series_values : list float;
  time_series_timestamps : list Z;
  (* the unit cell of the first row, [None] included *)
  time_series_unit : option string;
}.
End ScenarioTimeSeriesData.

(** [scenario_metric_score_dict_type]: log name, then scenario name, then
    the scores.  The value built by [_update_aggregation_metric] is a
    [defaultdict(lambda: defaultdict(list))]. *)
Abbreviation scenario_metric_score_dict_type :=
  (gmap string (gmap string (list ScenarioMetricScoreData.t))).

(** Reading [data[log_name][scenario_name]] in a nested [defaultdict]: the
    list found there, or the empty list. *)
Definition bucket (data : scenario_metric_score_dict_type)
    (log_name scenario_name : string) : list ScenarioMetricScoreData.t :=
  default [] (default ∅ (data !! log_name) !! scenario_name).

(** What the same read leaves behind: a missing key is created on the way,
    with its default value. *)
Definition touch (data : scenario_metric_score_dict_type)
    (log_name scenario_name : string) : scenario_metric_score_dict_type :=
  <[log_name := <[scenario_name := bucket data log_name scenario_name]>
                  (default ∅ (data !! log_name))]> data.

(** [data[log_name][scenario_name].append(x)]. *)
Definition bucket_append (log_name scenario_name : string)
    (x : ScenarioMetricScoreData.t) (data : scenario_metric_score_dict_type)
  : scenario_metric_score_dict_type :=
  <[log_name := <[scenario_name := bucket data log_name scenario_name ++ [x]]>
                  (default ∅ (data !! log_name))]> data.

(** ** The experiment file data, as far as the tab reads it *)

Module SimulationScenarioKey.
Record t := mk {
  nuboard_file_index : nat;
  log_name : string;
  planner_name : string;
  scenario_type : string;
  scenario_name : string;
}.
End SimulationScenarioKey.

(** Modelled from the spec: the class of the per-metric time-series tables
    is not in the sources.  Its rows are "queryable by scenario name/type/log
    name/planner name, exposing a value column, a timestamp column, and a
    unit column"; a cell of these columns may be [None]. *)
Module MetricStatisticsDataFrame.
Inductive column := time_series_unit_column
                  | time_series_timestamp_column
                  | time_series_values_column.
#[global] Instance column_eq_dec : EqDecision column.
Proof. solve_decision. Defined.

Record row := mk_row {
  scenario_name : string;
  scenario_type : string;
  log_name : string;
  planner_name : string;
  unit : option string;
  timestamps : option (list Z);
  values : option (list float);
}.

Record t := mk {
  metric_statistic_name : string;
  planner_names : list string;
  time_series_headers : list column;
  rows : list row;
}.

(** A filter that is [None] accepts every row. *)
Definition accepts (filter : option (list string)) (x : string) : bool :=
  match filter with
  | None => true
  | Some xs => bool_decide (x ∈ xs)
  end.

Definition query_scenarios (df : t)
    (scenario_names scenario_types planner_names log_names : option (list string))
  : list row :=
  filter (λ r, accepts scenario_names (scenario_name r)
               && accepts scenario_types (scenario_type r)
               && accepts planner_names (planner_name r)
               && accepts log_names (log_name r) = true) (rows df).

(** Whether the cell of row [r] under column [c] is [None]. *)
Definition cell_is_None (c : column) (r : row) : bool :=
  match c with
  | time_series_unit_column => bool_decide (unit r = None)
  | time_series_timestamp_column => bool_decide (timestamps r = None)
  | time_series_values_column =>
      match values r with None => true | Some _ => false end
  end.
End MetricStatisticsDataFrame.

Module ExperimentFileData.
Record t := mk {
  simulation_scenario_keys : list SimulationScenarioKey.t;
  (* one ordered dictionary of aggregator files per experiment *)
  metric_aggregator_dataframes : list (list (string * DataFrame.t));
  metric_statistics_dataframes : list (list MetricStatisticsDataFrame.t);
  available_scenario_types : list string;
  (* [file_path_colors[experiment_index][planner_name]] *)
  file_path_colors : nat → string → string;
}.
End ExperimentFileData.

(** ** Figures and layouts *)

(** The glyphs the tab draws: [figure.line(...)] over a time series and the
    scatter renderer over a [ScenarioMetricScoreDataSource]. *)
Inductive Glyph :=
  | Line (name color legend_label : string)
         (x : list nat) (y : list float) (time_us : list Z)
  | Scatter (marker : string) (xs : list string) (ys : list float)
            (planners experiments aggregators fill_colors : list string).

Module Figure.
Record t := mk {
  title : string;
  y_axis_label : option string;
  x_axis_label : option string;
  x_range : option (list string);
  tooltips : list (string * string);
  sizes : Z * Z;
  renderers : list Glyph;
}.

Definition add_glyph (g : Glyph) (f : t) : t :=
  mk (title f) (y_axis_label f) (x_axis_label f) (x_range f) (tooltips f)
     (sizes f) (renderers f ++ [g]).
End Figure.

Module SimulationFigureData.
Record t := mk {
  planner_name : string;
  plot : Figure.t;
}.
End SimulationFigureData.

Inductive Div := default_time_series_div
               | default_simulation_div
               | default_scenario_score_div.

Inductive LayoutDOM :=
  | column_div (d : Div)
  | gridplot (figures : list Figure.t) (ncols : Z)
             (toolbar_location : option string) (legend : bool)
  | column_of (child : LayoutDOM)
  | layout (child : LayoutDOM)
  | layout_None.

Module ScenarioMetricScoreDataSource.
Record t := mk {
  xs : list string;
  ys : list float;
  planners : list string;
  aggregators : list string;
  experiments : list string;
  fill_colors : list string;
  marker : string;
  legend_label : string;
}.
End ScenarioMetricScoreDataSource.

(** ** Ordered dictionaries *)

(** A [dict] whose iteration order is observed: keys in insertion order. *)
Section ordered_dict.
Context {V : Type}.

Fixpoint od_get (k : string) (d : list (string * V)) : option V :=
  match d with
  | [] => None
  | (k', v) :: d => if decide (k' = k) then Some v else od_get k d
  end.

Definition od_mem (k : string) (d : list (string * V)) : bool :=
  match od_get k d with Some _ => true | None => false end.

(** [d[k] = f(d[k])] on a key that is present. *)
Fixpoint od_alter (f : V → V) (k : string) (d : list (string * V))
  : list (string * V) :=
  match d with
  | [] => []
  | (k', v) :: d =>
      if decide (k' = k) then (k', f v) :: d else (k', v) :: od_alter f k d
  end.

(** [if k not in d: d[k] = v]. *)
Definition od_setdefault (k : string) (v : V) (d : list (string * V))
  : list (string * V) :=
  if od_mem k d then d else d ++ [(k, v)].
End ordered_dict.

(** [d[k].append(x)] in a [defaultdict(list)]. *)
Definition od_append {A : Type} (k : string) (x : A) (d : list (string * list A))
  : list (string * list A) :=
  od_alter (λ l, l ++ [x]) k (od_setdefault k [] d).

(** ** The widgets and the tab *)

Module Select.
Record t := mk {
  value : string;
  options : list string;
  tags : list Z;
}.
Definition set_value (v : string) (s : t) : t := mk v (options s) (tags s).
Definition set_options (o : list string) (s : t) : t := mk (value s) o (tags s).
End Select.

Module CheckboxGroup.
Record t := mk {
  labels : list string;
  active : list nat;
}.
End CheckboxGroup.

(** The callbacks the document holds for its next tick. *)
Inductive Callback := update_simulation_layouts_cb.

Module ScenarioTab.
Record t := mk {
  experiment_file_data : ExperimentFileData.t;
  experiment_file_active_index : list nat;
  scalar_scenario_type_select : Select.t;
  scalar_log_name_select : Select.t;
  scalar_scenario_name_select : Select.t;
  planner_checkbox_group : CheckboxGroup.t;
  scenario_metric_score_data : scenario_metric_score_dict_type;
  time_series_data : list (string * list ScenarioTimeSeriesData.t);
  simulation_figure_data : list SimulationFigureData.t;
  available_scenario_names : list string;
  simulation_plots : LayoutDOM;
  (* [children[0]] of the three layouts *)
  scenario_score_layout : LayoutDOM;
  time_series_layout : LayoutDOM;
  simulation_tile_layout : LayoutDOM;
  window_width : Z;
  window_height : Z;
  (* the next-tick callbacks of [self._doc], oldest first *)
  next_tick_callbacks : list Callback;
}.

Definition with_experiment_file_data x (s : t) : t :=
  mk x (experiment_file_active_index s) (scalar_scenario_type_select s)
     (scalar_log_name_select s) (scalar_scenario_name_select s)
     (planner_checkbox_group s) (scenario_metric_score_data s)
     (time_series_data s) (simulation_figure_data s)
     (available_scenario_names s) (simulation_plots s)
     (scenario_score_layout s) (time_series_layout s)
     (simulation_tile_layout s) (window_width s) (window_height s)
     (next_tick_callbacks s).
Definition with_experiment_file_active_index x (s : t) : t :=
  mk (experiment_file_data s) x (scalar_scenario_type_select s)
     (scalar_log_name_select s) (scalar_scenario_name_select s)
     (planner_checkbox_group s) (scenario_metric_score_data s)
     (time_series_data s) (simulation_figure_data s)
     (available_scenario_names s) (simulation_plots s)
     (scenario_score_layout s) (time_series_layout s)
     (simulation_tile_layout s) (window_width s) (window_height s)
     (next_tick_callbacks s).
Definition with_scalar_scenario_type_select x (s : t) : t :=
  mk (experiment_file_data s) (experiment_file_active_index s) x
     (scalar_log_name_select s) (scalar_scenario_name_select s)
     (planner_checkbox_group s) (scenario_metric_score_data s)
     (time_series_data s) (simulation_figure_data s)
     (available_scenario_names s) (simulation_plots s)
     (scenario_score_layout s) (time_series_layout s)
     (simulation_tile_layout s) (window_width s) (window_height s)
     (next_tick_callbacks s).
Definition with_scalar_log_name_select x (s : t) : t :=
  mk (experiment_file_data s) (experiment_file_active_index s)
     (scalar_scenario_type_select s) x (scalar_scenario_name_select s)
     (planner_checkbox_group s) (scenario_metric_score_data s)
     (time_series_data s) (simulation_figure_data s)
     (available_scenario_names s) (simulation_plots s)
     (scenario_score_layout s) (time_series_layout s)
     (simulation_tile_layout s) (window_width s) (window_height s)
     (next_tick_callbacks s).
Definition with_scalar_scenario_name_select x (s : t) : t :=
  mk (experiment_file_data s) (experiment_file_active_index s)
     (scalar_scenario_type_select s) (scalar_log_name_select s) x
     (planner_checkbox_group s) (scenario_metric_score_data s)
     (time_series_data s) (simulation_figure_data s)
     (available_scenario_names s) (simulation_plots s)
     (scenario_score_layout s) (time_series_layout s)
     (simulation_tile_layout s) (window_width s) (window_height s)
     (next_tick_callbacks s).
Definition with_planner_checkbox_group x (s : t) : t :=
  mk (experiment_file_data s) (experiment_file_active_index s)
     (scalar_scenario_type_select s) (scalar_log_name_select s)
     (scalar_scenario_name_select s) x (scenario_metric_score_data s)
     (time_series_data s) (simulation_figure_data s)
     (available_scenario_names s) (simulation_plots s)
     (scenario_score_layout s) (time_series_layout s)
     (simulation_tile_layout s) (window_width s) (window_height s)
     (next_tick_callbacks s).
Definition with_scenario_metric_score_data x (s : t) : t :=
  mk (experiment_file_data s) (experiment_file_active_index s)
     (scalar_scenario_type_select s) (scalar_log_name_select s)
     (scalar_scenario_name_select s) (planner_checkbox_group s) x
     (time_series_data s) (simulation_figure_data s)
     (available_scenario_names s) (simulation_plots s)
     (scenario_score_layout s) (time_series_layout s)
     (simulation_tile_layout s) (window_width s) (window_height s)
     (next_tick_callbacks s).
Definition with_time_series_data x (s : t) : t :=
  mk (experiment_file_data s) (experiment_file_active_index s)
     (scalar_scenario_type_select s) (scalar_log_name_select s)
     (scalar_scenario_name_select s) (planner_checkbox_group s)
     (scenario_metric_score_data s) x (simulation_figure_data s)
     (available_scenario_names s) (simulation_plots s)
     (scenario_score_layout s) (time_series_layout s)
     (simulation_tile_layout s) (window_width s) (window_height s)
     (next_tick_callbacks s).
Definition with_simulation_figure_data x (s : t) : t :=
  mk (experiment_file_data s) (experiment_file_active_index s)
     (scalar_scenario_type_select s) (scalar_log_name_select s)
     (scalar_scenario_name_select s) (planner_checkbox_group s)
     (scenario_metric_score_data s) (time_series_data s) x
     (available_scenario_names s) (simulation_plots s)
     (scenario_score_layout s) (time_series_layout s)
     (simulation_tile_layout s) (window_width s) (window_height s)
     (next_tick_callbacks s).
Definition with_available_scenario_names x (s : t) : t :=
  mk (experiment_file_data s) (experiment_file_active_index s)
     (scalar_scenario_type_select s) (scalar_log_name_select s)
     (scalar_scenario_name_select s) (planner_checkbox_group s)
     (scenario_metric_score_data s) (time_series_data s)
     (simulation_figure_data s) x (simulation_plots s)
     (scenario_score_layout s) (time_series_layout s)
     (simulation_tile_layout s) (window_width s) (window_height s)
     (next_tick_callbacks s).
Definition with_simulation_plots x (s : t) : t :=
  mk (experiment_file_data s) (experiment_file_active_index s)
     (scalar_scenario_type_select s) (scalar_log_name_select s)
     (scalar_scenario_name_select s) (planner_checkbox_group s)
     (scenario_metric_score_data s) (time_series_data s)
     (simulation_figure_data s) (available_scenario_names s) x
     (scenario_score_layout s) (time_series_layout s)
     (simulation_tile_layout s) (window_width s) (window_height s)
     (next_tick_callbacks s).
Definition with_scenario_score_layout x (s : t) : t :=
  mk (experiment_file_data s) (experiment_file_active_index s)
     (scalar_scenario_type_select s) (scalar_log_name_select s)
     (scalar_scenario_name_select s) (planner_checkbox_group s)
     (scenario_metric_score_data s) (time_series_data s)
     (simulation_figure_data s) (available_scenario_names s)
     (simulation_plots s) x (time_series_layout s)
     (simulation_tile_layout s) (window_width s) (window_height s)
     (next_tick_callbacks s).
Definition with_time_series_layout x (s : t) : t :=
  mk (experiment_file_data s) (experiment_file_active_index s)
     (scalar_scenario_type_select s) (scalar_log_name_select s)
     (scalar_scenario_name_select s) (planner_checkbox_group s)
     (scenario_metric_score_data s) (time_series_data s)
     (simulation_figure_data s) (available_scenario_names s)
     (simulation_plots s) (scenario_score_layout s) x
     (simulation_tile_layout s) (window_width s) (window_height s)
     (next_tick_callbacks s).
Definition with_simulation_tile_layout x (s : t) : t :=
  mk (experiment_file_data s) (experiment_file_active_index s)
     (scalar_scenario_type_select s) (scalar_log_name_select s)
     (scalar_scenario_name_select s) (planner_checkbox_group s)
     (scenario_metric_score_data s) (time_series_data s)
     (simulation_figure_data s) (available_scenario_names s)
     (simulation_plots s) (scenario_score_layout s) (time_series_layout s)
     x (window_width s) (window_height s) (next_tick_callbacks s).
Definition with_window x y (s : t) : t :=
  mk (experiment_file_data s) (experiment_file_active_index s)
     (scalar_scenario_type_select s) (scalar_log_name_select s)
     (scalar_scenario_name_select s) (planner_checkbox_group s)
     (scenario_metric_score_data s) (time_series_data s)
     (simulation_figure_data s) (available_scenario_names s)
     (simulation_plots s) (scenario_score_layout s) (time_series_layout s)
     (simulation_tile_layout s) x y (next_tick_callbacks s).
Definition with_next_tick_callbacks x (s : t) : t :=
  mk (experiment_file_data s) (experiment_file_active_index s)
     (scalar_scenario_type_select s) (scalar_log_name_select s)
     (scalar_scenario_name_select s) (planner_checkbox_group s)
     (scenario_metric_score_data s) (time_series_data s)
     (simulation_figure_data s) (available_scenario_names s)
     (simulation_plots s) (scenario_score_layout s) (time_series_layout s)
     (simulation_tile_layout s) (window_width s) (window_height s) x.
End ScenarioTab.

(** ** What the methods call outside the module *)

(** Numpy's rounding to four decimals, the services of [BaseTab] (file
    names, markers, sizes, the lists behind the selectors), the style
    constant of the score figures and the simulation tile. *)
Module Services.
Record t := mk {
  np_round4 : float → float;
  get_file_path_last_name : nat → string;
  get_scatter_sign : nat → string;
  get_plot_cols : Z → Z;
  (* [plot_sizes] and [simulation_figure_sizes] follow the window size *)
  plot_sizes : Z → Z → Z * Z;
  simulation_figure_sizes : Z → Z → Z * Z;
  scenario_metric_score_figure_sizes : Z * Z;
  load_log_name : ExperimentFileData.t → string → list string;
  load_scenario_names : ExperimentFileData.t → string → string → list string;
  render_simulation_tiles :
    list SimulationScenarioKey.t → Z * Z → list SimulationFigureData.t;
}.
End Services.

(** [ceil(n / d)] on natural numbers. *)
Definition ceil_div (n d : nat) : nat :=
  n `div` d + (if decide (n `mod` d = 0) then 0 else 1).

(** [l[start:stop]]. *)
Definition slice {A : Type} (l : list A) (start stop : nat) : list A :=
  take (stop - start) (drop start l).

(** [l.remove(x)]: the first occurrence goes. *)
Fixpoint list_remove (x : string) (l : list string) : list string :=
  match l with
  | [] => []
  | y :: l => if decide (y = x) then l else y :: list_remove x l
  end.

(** [chain.from_iterable] over a column whose cells are sequences; iterating
    a [None] cell is a [TypeError]. *)
Fixpoint chain_from_iterable {A : Type} (cells : list (option (list A)))
  : result (list A) :=
  match cells with
  | [] => Ok []
  | None :: _ => Raise TypeError
  | Some xs :: cells => ys ← chain_from_iterable cells; Ok (xs ++ ys)
  end.

(** ** The methods of [ScenarioTab] *)

Section scenario_tab.
Import ScenarioTab.

Variable env : Services.t.

Local Abbreviation np_round4 := (Services.np_round4 env).
Local Abbreviation get_file_path_last_name := (Services.get_file_path_last_name env).
Local Abbreviation get_scatter_sign := (Services.get_scatter_sign env).
Local Abbreviation get_plot_cols := (Services.get_plot_cols env).
Local Abbreviation plot_sizes := (Services.plot_sizes env).
Local Abbreviation simulation_figure_sizes := (Services.simulation_figure_sizes env).
Local Abbreviation scenario_metric_score_figure_sizes :=
  (Services.scenario_metric_score_figure_sizes env).
Local Abbreviation load_log_name := (Services.load_log_name env).
Local Abbreviation load_scenario_names := (Services.load_scenario_names env).
Local Abbreviation render_simulation_tiles := (Services.render_simulation_tiles env).

Definition _number_metrics_per_figure : nat := 4.

(** Modelled from the spec: [enable_planner_names] is a property of
    [BaseTab]; it is "the set of enabled planner names", the labels of the
    checkbox group at its active positions. *)
Definition enable_planner_names (self : t) : list string :=
  omap (λ index, CheckboxGroup.labels (planner_checkbox_group self) !! index)
       (CheckboxGroup.active (planner_checkbox_group self)).

(** *** [_update_aggregation_metric] *)

Definition non_metric_columns : gset string :=
  list_to_set ["scenario"; "log_name"; "scenario_type"; "num_scenarios";
               "planner_name"; "aggregator_type"].

Definition metric_columns_of (df : DataFrame.t) : list string :=
  sorted_set (list_to_set (DataFrame.columns df) ∖ non_metric_columns).

(** [np.round(score, 4)] on a cell that is not [None]. *)
Definition np_round_cell (score : cell) : result float :=
  match score with
  | CFloat f => Ok (np_round4 f)
  | _ => Raise TypeError
  end.

(** The body of [for metric_column in metric_columns]. *)
Definition scan_metric_column (index file_index : nat)
    (metric_aggregator_filename planner_name scenario_name log_name : string)
    (row_data : gmap string cell) (metric_column : string)
    (data : scenario_metric_score_dict_type)
  : result scenario_metric_score_dict_type :=
  score ← row_get row_data metric_column;
  if is_not_None score then
    rounded ← np_round_cell score;
    Ok (bucket_append log_name scenario_name
          (ScenarioMetricScoreData.mk index metric_aggregator_filename
             file_index planner_name metric_column rounded) data)
  else Ok data.

(** The body of [for _, row_data in metric_aggregator_dataframe.iterrows()]. *)
Definition scan_row (index file_index : nat)
    (metric_aggregator_filename : string) (metric_columns : list string)
    (row_data : gmap string cell) (data : scenario_metric_score_dict_type)
  : result scenario_metric_score_dict_type :=
  num_scenarios ← row_get row_data "num_scenarios";
  nan ← np_isnan num_scenarios;
  if negb nan then Ok data
  else
    planner_name ← row_str row_data "planner_name";
    scenario_name ← row_str row_data "scenario";
    log_name ← row_str row_data "log_name";
    for_each (scan_metric_column index file_index metric_aggregator_filename
                planner_name scenario_name log_name row_data)
             metric_columns data.

(** The body of the loop over the aggregator files of one experiment. *)
Definition scan_file (index : nat)
    (file : nat * (string * DataFrame.t))
    (data : scenario_metric_score_dict_type)
  : result scenario_metric_score_dict_type :=
  let '(file_index, (metric_aggregator_filename, metric_aggregator_dataframe)) := file in
  let metric_columns := metric_columns_of metric_aggregator_dataframe in
  for_each (scan_row index file_index metric_aggregator_filename metric_columns)
           (DataFrame.iterrows metric_aggregator_dataframe) data.

(** The body of the loop over the experiments. *)
Definition scan_experiment (active_index : list nat)
    (experiment : nat * list (string * DataFrame.t))
    (data : scenario_metric_score_dict_type)
  : result scenario_metric_score_dict_type :=
  let '(index, metric_aggregator_dataframes) := experiment in
  if bool_decide (index ∈ active_index) then
    for_each (scan_file index) (enumerate metric_aggregator_dataframes) data
  else Ok data.

Definition _update_aggregation_metric (self : t)
  : result scenario_metric_score_dict_type :=
  for_each (scan_experiment (experiment_file_active_index self))
    (enumerate (ExperimentFileData.metric_aggregator_dataframes
                  (experiment_file_data self)))
    ∅.

(** *** [_aggregate_time_series_data] *)

(** [data_frame[time_series_headers][column]]: the column has to be among
    the selected headers. *)
Definition select_column {A : Type}
    (headers : list MetricStatisticsDataFrame.column)
    (column : MetricStatisticsDataFrame.column)
    (cell_of : MetricStatisticsDataFrame.row → A)
    (data_frame : list MetricStatisticsDataFrame.row) : result (list A) :=
  if bool_decide (column ∈ headers) then Ok (cell_of <$> data_frame)
  else Raise KeyError.

(** The body of [for planner_name in planner_names]. *)
Definition aggregate_planner (self : t) (index : nat)
    (scenario_types log_names : option (list string))
    (metric_statistics_dataframe : MetricStatisticsDataFrame.t)
    (planner_name : string)
    (aggregated : list (string * list ScenarioTimeSeriesData.t))
  : result (list (string * list ScenarioTimeSeriesData.t)) :=
  let data_frame :=
    MetricStatisticsDataFrame.query_scenarios metric_statistics_dataframe
      (Some [Select.value (scalar_scenario_name_select self)])
      scenario_types (Some [planner_name]) log_names in
  match data_frame with
  | [] => Ok aggregated
  | first_row :: _ =>
      let time_series_headers :=
        MetricStatisticsDataFrame.time_series_headers
          metric_statistics_dataframe in
      match time_series_headers !! 0 with
      | None => Raise IndexError
      | Some header =>
          if MetricStatisticsDataFrame.cell_is_None header first_row
          then Ok aggregated
          else
            values ← select_column time_series_headers
                       MetricStatisticsDataFrame.time_series_values_column
                       MetricStatisticsDataFrame.values data_frame;
            time_series_values ← chain_from_iterable values;
            timestamps ← select_column time_series_headers
                       MetricStatisticsDataFrame.time_series_timestamp_column
                       MetricStatisticsDataFrame.timestamps data_frame;
            time_series_timestamps ← chain_from_iterable timestamps;
            units ← select_column time_series_headers
                       MetricStatisticsDataFrame.time_series_unit_column
                       MetricStatisticsDataFrame.unit data_frame;
            match units with
            | [] => Raise IndexError
            | time_series_unit :: _ =>
                Ok (od_append
                      (MetricStatisticsDataFrame.metric_statistic_name
                         metric_statistics_dataframe)
                      (ScenarioTimeSeriesData.mk index planner_name
                         (np_round4 <$> time_series_values)
                         time_series_timestamps time_series_unit)
                      aggregated)
            end
      end
  end.

(** The body of [for metric_statistics_dataframe in ...]. *)
Definition aggregate_dataframe (self : t) (index : nat)
    (scenario_types log_names : option (list string))
    (metric_statistics_dataframe : MetricStatisticsDataFrame.t)
    (aggregated : list (string * list ScenarioTimeSeriesData.t))
  : result (list (string * list ScenarioTimeSeriesData.t)) :=
  for_each
    (aggregate_planner self index scenario_types log_names
       metric_statistics_dataframe)
    (MetricStatisticsDataFrame.planner_names metric_statistics_dataframe)
    (od_setdefault
       (MetricStatisticsDataFrame.metric_statistic_name
          metric_statistics_dataframe) [] aggregated).

(** The body of the loop over the experiments. *)
Definition aggregate_experiment (self : t)
    (scenario_types log_names : option (list string))
    (experiment : nat * list MetricStatisticsDataFrame.t)
    (aggregated : list (string * list ScenarioTimeSeriesData.t))
  : result (list (string * list ScenarioTimeSeriesData.t)) :=
  let '(index, metric_statistics_dataframes) := experiment in
  if bool_decide (index ∈ experiment_file_active_index self) then
    for_each (aggregate_dataframe self index scenario_types log_names)
             metric_statistics_dataframes aggregated
  else Ok aggregated.

Definition _aggregate_time_series_data (self : t)
  : result (list (string * list ScenarioTimeSeriesData.t)) :=
  let aggregated_time_series_data := [] in
  let scenario_types :=
    if decide (Select.value (scalar_scenario_type_select self) = "") then None
    else Some [Select.value (scalar_scenario_type_select self)] in
  let log_names :=
    if decide (Select.value (scalar_log_name_select self) = "") then None
    else Some [Select.value (scalar_log_name_select self)] in
  if decide (String.length (Select.value (scalar_scenario_name_select self)) = 0)
  then Ok aggregated_time_series_data
  else
    for_each (aggregate_experiment self scenario_types log_names)
      (enumerate (ExperimentFileData.metric_statistics_dataframes
                    (experiment_file_data self)))
      aggregated_time_series_data.

(** *** [_render_scalar_figure], [_render_time_series] *)

Definition _render_scalar_figure (title : string)
    (y_axis_label : option string)
    (hover : list (string * string)) (sizes : Z * Z)
    (x_axis_label : option string) (x_range : option (list string))
  : Figure.t :=
  Figure.mk title y_axis_label x_axis_label x_range hover sizes [].

Definition time_series_hover : list (string * string) :=
  [("Frame", "@x"); ("Value", "@y{0.0000}"); ("Time_us", "@time_us");
   ("Planner", "$name")].

(** The line drawn for one [ScenarioTimeSeriesData]. *)
Definition time_series_line (self : t) (data : ScenarioTimeSeriesData.t)
  : Glyph :=
  let planner_name :=
    ScenarioTimeSeriesData.planner_name data +:+ " (" +:+
    get_file_path_last_name (ScenarioTimeSeriesData.experiment_index data)
    +:+ ")" in
  let color :=
    ExperimentFileData.file_path_colors (experiment_file_data self)
      (ScenarioTimeSeriesData.experiment_index data)
      (ScenarioTimeSeriesData.planner_name data) in
  Line planner_name color planner_name
       (seq 0 (length (ScenarioTimeSeriesData.time_series_values data)))
       (ScenarioTimeSeriesData.time_series_values data)
       (ScenarioTimeSeriesData.time_series_timestamps data).

(** The body of [for data in scenario_time_series_data]. *)
Definition render_time_series_data (self : t) (metric_statistic_name : string)
    (time_series_figures : list (string * Figure.t))
    (data : ScenarioTimeSeriesData.t) : list (string * Figure.t) :=
  match ScenarioTimeSeriesData.time_series_values data with
  | [] => time_series_figures
  | _ :: _ =>
      od_alter (Figure.add_glyph (time_series_line self data))
        metric_statistic_name
        (od_setdefault metric_statistic_name
           (_render_scalar_figure metric_statistic_name
              (ScenarioTimeSeriesData.time_series_unit data)
              time_series_hover
              (plot_sizes (window_width self) (window_height self))
              (Some "frame") None)
           time_series_figures)
  end.

Definition _render_time_series (self : t)
    (aggregated_time_series_data : list (string * list ScenarioTimeSeriesData.t))
  : list (string * Figure.t) :=
  foldl (λ time_series_figures item,
           foldl (render_time_series_data self item.1)
                 time_series_figures item.2)
        [] aggregated_time_series_data.

(** *** [_render_scenario_metric_score_scatter] *)

(** The body of [for index, score_data in enumerate(metric_score_data)]. *)
Definition scatter_add (self : t)
    (data_sources : list (string * ScenarioMetricScoreDataSource.t))
    (score_data : ScenarioMetricScoreData.t)
  : list (string * ScenarioMetricScoreDataSource.t) :=
  let experiment_name :=
    get_file_path_last_name
      (ScenarioMetricScoreData.experiment_index score_data) in
  let legend_label :=
    ScenarioMetricScoreData.planner_name score_data +:+ " (" +:+
    experiment_name +:+ ")" in
  let data_source_index :=
    legend_label +:+ " - " +:+
    pretty (ScenarioMetricScoreData.metric_aggregator_file_index score_data)
    +:+ ")" in
  let fill_color :=
    ExperimentFileData.file_path_colors (experiment_file_data self)
      (ScenarioMetricScoreData.experiment_index score_data)
      (ScenarioMetricScoreData.planner_name score_data) in
  od_alter
    (λ s, ScenarioMetricScoreDataSource.mk
            (ScenarioMetricScoreDataSource.xs s ++
               [ScenarioMetricScoreData.metric_statistic_name score_data])
            (ScenarioMetricScoreDataSource.ys s ++
               [ScenarioMetricScoreData.score score_data])
            (ScenarioMetricScoreDataSource.planners s ++
               [ScenarioMetricScoreData.planner_name score_data])
            (ScenarioMetricScoreDataSource.aggregators s ++
               [ScenarioMetricScoreData.metric_aggregator_file_name score_data])
            (ScenarioMetricScoreDataSource.experiments s ++ [experiment_name])
            (ScenarioMetricScoreDataSource.fill_colors s ++ [fill_color])
            (ScenarioMetricScoreDataSource.marker s)
            (ScenarioMetricScoreDataSource.legend_label s))
    data_source_index
    (od_setdefault data_source_index
       (ScenarioMetricScoreDataSource.mk [] [] [] [] [] []
          (get_scatter_sign
             (ScenarioMetricScoreData.metric_aggregator_file_index score_data))
          legend_label)
       data_sources).

Definition scatter_glyph (data_source : ScenarioMetricScoreDataSource.t)
  : Glyph :=
  Scatter (ScenarioMetricScoreDataSource.marker data_source)
          (ScenarioMetricScoreDataSource.xs data_source)
          (ScenarioMetricScoreDataSource.ys data_source)
          (ScenarioMetricScoreDataSource.planners data_source)
          (ScenarioMetricScoreDataSource.experiments data_source)
          (ScenarioMetricScoreDataSource.aggregators data_source)
          (ScenarioMetricScoreDataSource.fill_colors data_source).

Definition scatter_data_sources (self : t)
    (scenario_metric_score_data : list (string * list ScenarioMetricScoreData.t))
  : list (string * ScenarioMetricScoreDataSource.t) :=
  foldl (λ data_sources item, foldl (scatter_add self) data_sources item.2)
        [] scenario_metric_score_data.

Definition _render_scenario_metric_score_scatter (self : t)
    (scatter_figure : Figure.t)
    (scenario_metric_score_data : list (string * list ScenarioMetricScoreData.t))
  : Figure.t :=
  foldl (λ figure item, Figure.add_glyph (scatter_glyph item.2) figure)
        scatter_figure
        (scatter_data_sources self scenario_metric_score_data).

(** *** [_render_scenario_metric_score] *)

(** The loop that rearranges the selected scores by metric name, keeping
    the enabled planners. *)
Definition group_by_metric (enabled : list string)
    (selected_scenario_metric_score : list ScenarioMetricScoreData.t)
  : list (string * list ScenarioMetricScoreData.t) :=
  foldl (λ data scenario_metric_score_data,
           if bool_decide
                (ScenarioMetricScoreData.planner_name scenario_metric_score_data
                 ∈ enabled)
           then od_append
                  (ScenarioMetricScoreData.metric_statistic_name
                     scenario_metric_score_data)
                  scenario_metric_score_data data
           else data)
        [] selected_scenario_metric_score.

(** [sorted(list(set(data.keys())))], then the final score goes last. *)
Definition ordered_metric_names
    (data : list (string * list ScenarioMetricScoreData.t)) : list string :=
  let metric_statistic_names := sorted_set (list_to_set data.*1) in
  if bool_decide ("score" ∈ metric_statistic_names)
  then list_remove "score" metric_statistic_names ++ ["score"]
  else metric_statistic_names.

Definition score_hover : list (string * string) :=
  [("Metric", "@xs"); ("Score", "@ys"); ("Planner", "@planners");
   ("Experiment", "@experiments"); ("Aggregator", "@aggregators")].

(** The body of [for index in range(number_of_figures)]. *)
Definition score_figure (self : t)
    (data : list (string * list ScenarioMetricScoreData.t))
    (metric_statistic_names : list string) (index : nat)
  : string * Figure.t :=
  let starting_index := index * _number_metrics_per_figure in
  let ending_index := starting_index + _number_metrics_per_figure in
  let selected_metric_names :=
    slice metric_statistic_names starting_index ending_index in
  let scenario_metric_score_figure :=
    _render_scalar_figure "" (Some "score") score_hover
      scenario_metric_score_figure_sizes None (Some selected_metric_names) in
  let metric_score_data :=
    (λ metric_name, (metric_name, default [] (od_get metric_name data)))
      <$> selected_metric_names in
  (pretty index,
   _render_scenario_metric_score_scatter self scenario_metric_score_figure
     metric_score_data).

(** Reading [self._scenario_metric_score_data[log][scenario]] creates the
    keys that are missing, so the method returns the tab as well. *)
Definition _render_scenario_metric_score (self : t)
  : list (string * Figure.t) * t :=
  let log_name := Select.value (scalar_log_name_select self) in
  let scenario_name := Select.value (scalar_scenario_name_select self) in
  if bool_decide (log_name = "") || bool_decide (scenario_name = "")
     || bool_decide (scenario_metric_score_data self = ∅)
  then ([], self)
  else
    let selected_scenario_metric_score :=
      bucket (scenario_metric_score_data self) log_name scenario_name in
    let self' :=
      with_scenario_metric_score_data
        (touch (scenario_metric_score_data self) log_name scenario_name)
        self in
    let data :=
      group_by_metric (enable_planner_names self)
                      selected_scenario_metric_score in
    let metric_statistic_names := ordered_metric_names data in
    let number_of_figures :=
      ceil_div (length metric_statistic_names) _number_metrics_per_figure in
    (score_figure self data metric_statistic_names
       <$> seq 0 number_of_figures,
     self').

(** *** Layouts *)

Definition _render_grid_plot (figures : list (string * Figure.t))
    (plot_width : Z) (legend : bool) : LayoutDOM :=
  gridplot figures.*2 (get_plot_cols plot_width) (Some "left") legend.

(** The method takes [default_div] and shows
    [self._default_time_series_div]. *)
Definition _render_scenario_metric_layout
    (figure_data : list (string * Figure.t)) (default_div : Div)
    (plot_width : Z) (legend : bool) : LayoutDOM :=
  match figure_data with
  | [] => column_div default_time_series_div
  | _ :: _ => column_of (_render_grid_plot figure_data plot_width legend)
  end.

Definition _render_simulations (self : t) : LayoutDOM * t :=
  let selected_keys :=
    filter (λ key,
              SimulationScenarioKey.scenario_type key
                = Select.value (scalar_scenario_type_select self)
              ∧ SimulationScenarioKey.log_name key
                = Select.value (scalar_log_name_select self)
              ∧ SimulationScenarioKey.scenario_name key
                = Select.value (scalar_scenario_name_select self)
              ∧ SimulationScenarioKey.nuboard_file_index key
                ∈ experiment_file_active_index self)
           (ExperimentFileData.simulation_scenario_keys
              (experiment_file_data self)) in
  match selected_keys with
  | [] => (column_div default_simulation_div, self)
  | _ :: _ =>
      let sizes :=
        simulation_figure_sizes (window_width self) (window_height self) in
      let simulation_figure_data :=
        render_simulation_tiles selected_keys sizes in
      (gridplot (SimulationFigureData.plot <$> simulation_figure_data)
                (get_plot_cols sizes.1) None false,
       with_simulation_figure_data simulation_figure_data self)
  end.

(** *** [_click_planner_checkbox_group] *)

(** The loop that keeps the time series of the enabled planners. *)
Definition filter_time_series (enabled : list string)
    (time_series_data : list (string * list ScenarioTimeSeriesData.t))
  : list (string * list ScenarioTimeSeriesData.t) :=
  foldl (λ filtered_time_series_data item,
           foldl (λ filtered data,
                    if bool_decide
                         (ScenarioTimeSeriesData.planner_name data ∈ enabled)
                    then od_append item.1 data filtered
                    else filtered)
                 filtered_time_series_data item.2)
        [] time_series_data.

Definition _click_planner_checkbox_group (self : t) : t :=
  (* Render scenario metric figures *)
  let '(scenario_metric_score_figure_data, self) :=
    _render_scenario_metric_score self in
  let scenario_metric_score_layout :=
    _render_scenario_metric_layout scenario_metric_score_figure_data
      default_scenario_score_div scenario_metric_score_figure_sizes.1 false in
  let self :=
    with_scenario_score_layout (layout scenario_metric_score_layout) self in
  (* Filter time series data *)
  let filtered_time_series_data :=
    filter_time_series (enable_planner_names self) (time_series_data self) in
  let time_series_figure_data :=
    _render_time_series self filtered_time_series_data in
  let time_series_figures :=
    _render_scenario_metric_layout time_series_figure_data
      default_time_series_div
      (plot_sizes (window_width self) (window_height self)).1 true in
  let self := with_time_series_layout (layout time_series_figures) self in
  (* Render simulation *)
  let filtered_simulation_figures :=
    SimulationFigureData.plot <$>
      filter (λ data, SimulationFigureData.planner_name data
                      ∈ enable_planner_names self)
             (simulation_figure_data self) in
  let simulation_layouts :=
    match filtered_simulation_figures with
    | [] => column_div default_simulation_div
    | _ :: _ =>
        gridplot filtered_simulation_figures
          (get_plot_cols
             (simulation_figure_sizes (window_width self) (window_height self)).1)
          None false
    end in
  with_simulation_tile_layout (layout simulation_layouts) self.

(** *** [_update_simulation_layouts], [_update_scenario_plot] *)

Definition _update_simulation_layouts (self : t) : t :=
  with_simulation_tile_layout (layout (simulation_plots self)) self.

Definition _update_scenario_plot (self : t) : result t :=
  (* Render scenario metric score figure data and layout *)
  let '(scenario_metric_score_figure_data, self) :=
    _render_scenario_metric_score self in
  let scenario_metric_score_layout :=
    _render_scenario_metric_layout scenario_metric_score_figure_data
      default_scenario_score_div scenario_metric_score_figure_sizes.1 false in
  let self :=
    with_scenario_score_layout (layout scenario_metric_score_layout) self in
  (* Aggregate time series data *)
  aggregated ← _aggregate_time_series_data self;
  let self := with_time_series_data aggregated self in
  (* Render time series figure data and layout *)
  let time_series_figure_data :=
    _render_time_series self (time_series_data self) in
  let time_series_figures :=
    _render_scenario_metric_layout time_series_figure_data
      default_time_series_div
      (plot_sizes (window_width self) (window_height self)).1 true in
  let self := with_time_series_layout (layout time_series_figures) self in
  (* Render simulations *)
  let '(simulation_plots, self) := _render_simulations self in
  let self := with_simulation_plots simulation_plots self in
  (* Make sure the simulation plot upgrades at the last *)
  Ok (with_next_tick_callbacks
        (next_tick_callbacks self ++ [update_simulation_layouts_cb]) self).

(** One iteration of the event loop of the document: the oldest next-tick
    callback runs, once. *)
Definition run_callback (cb : Callback) (self : t) : t :=
  match cb with
  | update_simulation_layouts_cb => _update_simulation_layouts self
  end.

Definition next_tick (self : t) : t :=
  match next_tick_callbacks self with
  | [] => self
  | cb :: rest => run_callback cb (with_next_tick_callbacks rest self)
  end.

(** *** [_update_planner_names] *)

(** The module registers no Python callback on the checkbox group (only the
    loading script): the assignments to [labels] and [active] below call
    nothing of this module. *)

Definition _update_planner_names (self : t) : t :=
  let self := with_planner_checkbox_group (CheckboxGroup.mk [] []) self in
  let selected_keys :=
    filter (λ key,
              SimulationScenarioKey.scenario_type key
                = Select.value (scalar_scenario_type_select self)
              ∧ SimulationScenarioKey.scenario_name key
                = Select.value (scalar_scenario_name_select self))
           (ExperimentFileData.simulation_scenario_keys
              (experiment_file_data self)) in
  let sorted_planner_names :=
    sorted_set (list_to_set (SimulationScenarioKey.planner_name <$> selected_keys)) in
  with_planner_checkbox_group
    (CheckboxGroup.mk sorted_planner_names
       (seq 0 (length sorted_planner_names)))
    self.

(** *** The selection handlers *)

(** The three handlers are registered with [on_change("value", ...)]: an
    assignment to [value] that changes it calls the handler of that
    widget, with the old and the new value, before the assignment
    returns. *)

Definition _scalar_scenario_name_select_on_change
    (attr old new : string) (self : t) : result t :=
  self ← match Select.tags (scalar_scenario_name_select self) with
         | [] => Ok self
         | [_] => Raise IndexError
         | width :: height :: _ => Ok (with_window width height self)
         end;
  let self := _update_planner_names self in
  _update_scenario_plot self.

Definition assign_scenario_name_value (v : string) (self : t) : result t :=
  let old := Select.value (scalar_scenario_name_select self) in
  if decide (old = v) then Ok self
  else _scalar_scenario_name_select_on_change "value" old v
         (with_scalar_scenario_name_select
            (Select.set_value v (scalar_scenario_name_select self)) self).

Definition _scalar_log_name_select_on_change
    (attr old new : string) (self : t) : result t :=
  if decide (new = "") then Ok self
  else
    let available_scenario_names :=
      load_scenario_names (experiment_file_data self)
        (Select.value (scalar_scenario_type_select self))
        (Select.value (scalar_log_name_select self)) in
    let self :=
      with_scalar_scenario_name_select
        (Select.set_options ("" :: available_scenario_names)
           (scalar_scenario_name_select self)) self in
    assign_scenario_name_value "" self.

Definition assign_log_name_value (v : string) (self : t) : result t :=
  let old := Select.value (scalar_log_name_select self) in
  if decide (old = v) then Ok self
  else _scalar_log_name_select_on_change "value" old v
         (with_scalar_log_name_select
            (Select.set_value v (scalar_log_name_select self)) self).

Definition _scalar_scenario_type_select_on_change
    (attr old new : string) (self : t) : result t :=
  if decide (new = "") then Ok self
  else
    let available_log_names :=
      load_log_name (experiment_file_data self)
        (Select.value (scalar_scenario_type_select self)) in
    let self :=
      with_scalar_log_name_select
        (Select.set_options ("" :: available_log_names)
           (scalar_log_name_select self)) self in
    assign_log_name_value "" self.

Definition assign_scenario_type_value (v : string) (self : t) : result t :=
  let old := Select.value (scalar_scenario_type_select self) in
  if decide (old = v) then Ok self
  else _scalar_scenario_type_select_on_change "value" old v
         (with_scalar_scenario_type_select
            (Select.set_value v (scalar_scenario_type_select self)) self).

(** *** [_init_selection], [file_paths_on_change] *)

Definition _init_selection (self : t) : result t :=
  self ← assign_scenario_type_value "" self;
  let self :=
    with_scalar_scenario_type_select
      (Select.set_options [] (scalar_scenario_type_select self)) self in
  self ← assign_log_name_value "" self;
  let self :=
    with_scalar_log_name_select
      (Select.set_options [] (scalar_log_name_select self)) self in
  self ← assign_scenario_name_value "" self;
  let self :=
    with_scalar_scenario_name_select
      (Select.set_options [] (scalar_scenario_name_select self)) self in
  let self := with_available_scenario_names [] self in
  let self :=
    match Select.options (scalar_scenario_type_select self) with
    | [] =>
        with_scalar_scenario_type_select
          (Select.set_options
             ("" :: ExperimentFileData.available_scenario_types
                      (experiment_file_data self))
             (scalar_scenario_type_select self)) self
    | _ :: _ => self
    end in
  self ← match Select.options (scalar_scenario_type_select self) with
         | [] => Ok self
         | first :: _ => assign_scenario_type_value first self
         end;
  Ok (_update_planner_names self).

Definition file_paths_on_change
    (experiment_file_data : ExperimentFileData.t)
    (experiment_file_active_index : list nat) (self : t) : result t :=
  let self := with_experiment_file_data experiment_file_data self in
  let self :=
    with_experiment_file_active_index experiment_file_active_index self in
  self ← _init_selection self;
  data ← _update_aggregation_metric self;
  let self := with_scenario_metric_score_data data self in
  _update_scenario_plot self.

End scenario_tab.

(** ** The raster model *)

(** A tensor is its shape, its strides and its elements in the order of
    their indices (row-major over the shape).  The strides say how the
    elements lie in storage: a view keeps the storage, so whether a view
    exists depends on them.  The layers of the network are followed on
    shapes and strides; the numbers they compute are the framework's. *)
Module Tensor.
Record t := mk {
  shape : list N;
  strides : list N;
  data : list float;
}.

Definition numel (shape : list N) : N := foldr N.mul 1%N shape.

(** The strides of a freshly allocated tensor: the last dimension has stride
    1 and each other one the stride of its right neighbour times the size of
    that neighbour, a size 0 counting as 1. *)
Fixpoint contiguous_strides (shape : list N) : list N :=
  match shape with
  | [] => []
  | _ :: rest =>
      foldr (λ d acc, (N.max d 1 * acc)%N) 1%N rest :: contiguous_strides rest
  end.

(** [t.view(d0, -1, d2)] and [t.reshape(d0, -1)]: the size of the
    unspecified dimension is inferred from the number of elements.  The
    request fails when the elements do not divide evenly, and when the known
    sizes multiply to zero (any size would then fit). *)
Definition infer_size (numel newsize : N) : result N :=
  if (numel =? newsize)%N || ((0 <? newsize)%N && (numel `mod` newsize =? 0)%N)
  then if (newsize =? 0)%N then Raise RuntimeError
       else Ok (numel `div` newsize)%N
  else Raise RuntimeError.

(** The inner loop of the stride computation of a view: the dimensions of
    the view, from the last one on, take their strides inside the current
    chunk of the tensor while the chunk has room, or while they have size 1.
    The lists of dimensions are reversed: their heads are the last
    dimensions. *)
Fixpoint fill_chunk (chunk_base_stride tensor_numel view_numel : N)
    (view : list N) (newstride : list N) : N * list N * list N :=
  match view with
  | [] => (view_numel, [], newstride)
  | d :: rest =>
      if (view_numel <? tensor_numel)%N || (d =? 1)%N
      then fill_chunk chunk_base_stride tensor_numel (view_numel * d)%N rest
             ((view_numel * chunk_base_stride)%N :: newstride)
      else (view_numel, view, newstride)
  end.

(** The outer loop: the dimensions of the tensor, from the last one on, are
    gathered into chunks that lie evenly in storage; at the end of a chunk
    the view has to split it exactly. *)
Fixpoint view_chunks (old : list (N * N))
    (chunk_base_stride tensor_numel view_numel : N)
    (view : list N) (newstride : list N) : option (list N * list N) :=
  match old with
  | [] => Some (view, newstride)
  | (size, _) :: rest =>
      let tensor_numel := (tensor_numel * size)%N in
      match rest with
      | [] =>
          let '(view_numel, view, newstride) :=
            fill_chunk chunk_base_stride tensor_numel view_numel view
              newstride in
          if (view_numel =? tensor_numel)%N then Some (view, newstride)
          else None
      | (previous_size, previous_stride) :: _ =>
          if negb (previous_size =? 1)%N
             && negb (previous_stride =? tensor_numel * chunk_base_stride)%N
          then
            let '(view_numel, view, newstride) :=
              fill_chunk chunk_base_stride tensor_numel view_numel view
                newstride in
            if (view_numel =? tensor_numel)%N
            then view_chunks rest previous_stride 1%N 1%N view newstride
            else None
          else
            view_chunks rest chunk_base_stride tensor_numel view_numel view
              newstride
      end
  end.

(** The strides of a view of the given shape over a tensor of the given
    shape and strides, when there is one; the two shapes have the same
    number of elements. *)
Definition compute_stride (oldshape oldstride newshape : list N)
  : option (list N) :=
  match oldshape with
  | [] => Some (repeat 1%N (length newshape))
  | _ :: _ =>
      if (numel oldshape =? 0)%N then
        if decide (oldshape = newshape) then Some oldstride
        else Some (contiguous_strides newshape)
      else
        match view_chunks (reverse (zip oldshape oldstride))
                (default 1%N (last oldstride)) 1%N 1%N (reverse newshape) []
        with
        | Some ([], newstride) => Some newstride
        | _ => None
        end
  end.

(** [t.view(...)]: the same storage under another shape, or a
    [RuntimeError] when the strides do not allow it. *)
Definition view (x : t) (newshape : list N) : result t :=
  match compute_stride (shape x) (strides x) newshape with
  | Some newstride => Ok (mk newshape newstride (data x))
  | None => Raise RuntimeError
  end.

(** [t.reshape(...)]: a view when there is one, a fresh copy otherwise. *)
Definition reshape (x : t) (newshape : list N) : t :=
  match compute_stride (shape x) (strides x) newshape with
  | Some newstride => mk newshape newstride (data x)
  | None => mk newshape (contiguous_strides newshape) (data x)
  end.

Definition view3 (x : t) (d0 d2 : N) : result t :=
  d1 ← infer_size (numel (shape x)) (d0 * d2)%N;
  view x [d0; d1; d2].

Definition reshape2 (x : t) (d0 : N) : result t :=
  d1 ← infer_size (numel (shape x)) d0;
  Ok (reshape x [d0; d1]).

(** [x.shape[0]] and [x.size(0)]. *)
Definition size0 (x : t) : result N :=
  match shape x with
  | [] => Raise IndexError
  | d0 :: _ => Ok d0
  end.
End Tensor.

Section raster_model.
(** [Trajectory.state_size()]: the class is not in the sources. *)
Variable state_size : N.

(** The numbers computed by [self.layer] and by [self.fc2]. *)
Variable layer_values : list float → list float.
Variable fc2_values : list float → list float.

(** The strides [self.layer] gives its output of the given shape: the
    framework chooses the memory format by the one of the input. *)
Variable layer_strides : Tensor.t → list N → list N.

Definition convert_predictions_to_trajectory (predictions : Tensor.t)
  : result Tensor.t :=
  num_batches ← Tensor.size0 predictions;
  Tensor.view3 predictions num_batches state_size.

(** What [__init__] keeps: the output width of [fc2]. *)
Record RasterModelOur := {
  num_output_features : N;
}.

Definition __init__ (num_features_per_pose num_poses : N) : RasterModelOur :=
  {| num_output_features := (num_poses * num_features_per_pose)%N |}.

(** [Conv2d(4, 32, kernel_size=5, stride=1, padding=2)] on the two spatial
    sizes: the padded input has to hold the kernel. *)
Definition conv_out (size : N) : result N :=
  if (5 <=? size + 2 * 2)%N then Ok ((size + 2 * 2 - 5) `div` 1 + 1)%N
  else Raise RuntimeError.

(** [MaxPool2d(kernel_size=2, stride=2)] on a spatial size: the output
    has to be non-empty. *)
Definition pool_out (size : N) : result N :=
  if (2 <=? size)%N then Ok ((size - 2) `div` 2 + 1)%N
  else Raise RuntimeError.

(** [self.layer]: convolution over 4 channels, ReLU, pooling; the input
    is a batch [(n, 4, h, w)] or a single raster [(4, h, w)]. *)
Definition layer (x : Tensor.t) : result Tensor.t :=
  match Tensor.shape x with
  | [n; c; h; w] =>
      if (c =? 4)%N then
        h ← conv_out h; w ← conv_out w;
        h ← pool_out h; w ← pool_out w;
        Ok (Tensor.mk [n; 32%N; h; w] (layer_strides x [n; 32%N; h; w])
                      (layer_values (Tensor.data x)))
      else Raise RuntimeError
  | [c; h; w] =>
      if (c =? 4)%N then
        h ← conv_out h; w ← conv_out w;
        h ← pool_out h; w ← pool_out w;
        Ok (Tensor.mk [32%N; h; w] (layer_strides x [32%N; h; w])
                      (layer_values (Tensor.data x)))
      else Raise RuntimeError
  | _ => Raise RuntimeError
  end.

(** [self.fc2 = nn.Linear(112*112*32, num_output_features)] on a matrix:
    the output is a fresh tensor. *)
Definition fc2 (self : RasterModelOur) (x : Tensor.t) : result Tensor.t :=
  match Tensor.shape x with
  | [n; in_features] =>
      if (in_features =? 112 * 112 * 32)%N
      then Ok (Tensor.mk [n; num_output_features self]
                 (Tensor.contiguous_strides [n; num_output_features self])
                 (fc2_values (Tensor.data x)))
      else Raise RuntimeError
  | _ => Raise RuntimeError
  end.

(** [forward]: the data of the trajectory it returns. *)
Definition forward (self : RasterModelOur) (features : gmap string Tensor.t)
  : result Tensor.t :=
  match features !! "raster" with
  | None => Raise KeyError
  | Some raster =>
      out ← layer raster;
      n ← Tensor.size0 out;
      out ← Tensor.reshape2 out n;
      predictions ← fc2 self out;
      convert_predictions_to_trajectory predictions
  end.
End raster_model.

(** ** Vocabulary of the statements *)

(** A summary row: its [num_scenarios] is present, a float that is not
    [nan]. *)
Definition is_summary_row (row_data : gmap string cell) : bool :=
  match row_data !! "num_scenarios" with
  | Some (CFloat f) => negb (PrimFloat.is_nan f)
  | _ => false
  end.

(** The experiment file data with the summary rows taken out of every
    aggregator table. *)
Definition without_summary_rows (data : ExperimentFileData.t)
  : ExperimentFileData.t :=
  ExperimentFileData.mk
    (ExperimentFileData.simulation_scenario_keys data)
    ((λ files : list (string * DataFrame.t),
        (λ file, (file.1,
                  DataFrame.mk (DataFrame.columns file.2)
                    (filter (λ row_data, is_summary_row row_data = false)
                            (DataFrame.iterrows file.2)))) <$> files)
       <$> ExperimentFileData.metric_aggregator_dataframes data)
    (ExperimentFileData.metric_statistics_dataframes data)
    (ExperimentFileData.available_scenario_types data)
    (ExperimentFileData.file_path_colors data).

(** The experiment file data with other raw tables. *)
Definition with_raw_dataframes
    (aggregators : list (list (string * DataFrame.t)))
    (statistics : list (list MetricStatisticsDataFrame.t))
    (data : ExperimentFileData.t) : ExperimentFileData.t :=
  ExperimentFileData.mk
    (ExperimentFileData.simulation_scenario_keys data)
    aggregators statistics
    (ExperimentFileData.available_scenario_types data)
    (ExperimentFileData.file_path_colors data).

(** A metric cell as the aggregator tables hold them: [None] or a float. *)
Definition score_cell (x : option cell) : Prop :=
  x = Some CNone ∨ ∃ f, x = Some (CFloat f).

(** The entry [e] was built from the row [row_data] of the file
    [file_index] of the experiment [index], for the metric column it names. *)
Definition entry_of_row (env : Services.t) (index file_index : nat)
    (filename planner : string) (row_data : gmap string cell)
    (e : ScenarioMetricScoreData.t) : Prop :=
  ScenarioMetricScoreData.experiment_index e = index
  ∧ ScenarioMetricScoreData.metric_aggregator_file_name e = filename
  ∧ ScenarioMetricScoreData.metric_aggregator_file_index e = file_index
  ∧ ScenarioMetricScoreData.planner_name e = planner
  ∧ ∃ f, row_data !! ScenarioMetricScoreData.metric_statistic_name e
         = Some (CFloat f)
         ∧ ScenarioMetricScoreData.score e = Services.np_round4 env f.

(** The planners a glyph carries in its data source. *)
Definition glyph_planners (g : Glyph) : list string :=
  match g with
  | Scatter _ _ _ planners _ _ _ => planners
  | Line _ _ _ _ _ _ => []
  end.

(** ** A small experiment *)

Definition sample_figure (title : string) : Figure.t :=
  Figure.mk title None None None [] (300, 200)%Z [].

(** The sample scores have at most four decimals: rounding keeps them. *)
Definition sample_services : Services.t :=
  Services.mk
    (λ f, f)
    (λ index, "experiment_" +:+ pretty index)
    (λ file_index, if Nat.even file_index then "circle" else "square")
    (λ plot_width, 2%Z)
    (λ width height, (400, 300)%Z)
    (λ width height, (500, 500)%Z)
    (300, 200)%Z
    (λ data scenario_type,
       sorted_set (list_to_set
         (SimulationScenarioKey.log_name <$>
            filter (λ key, SimulationScenarioKey.scenario_type key = scenario_type)
                   (ExperimentFileData.simulation_scenario_keys data))))
    (λ data scenario_type log_name,
       sorted_set (list_to_set
         (SimulationScenarioKey.scenario_name <$>
            filter (λ key, SimulationScenarioKey.scenario_type key = scenario_type
                           ∧ SimulationScenarioKey.log_name key = log_name)
                   (ExperimentFileData.simulation_scenario_keys data))))
    (λ keys sizes,
       (λ key, SimulationFigureData.mk (SimulationScenarioKey.planner_name key)
                 (sample_figure (SimulationScenarioKey.scenario_name key)))
         <$> keys).

Definition sample_row (planner : string) (num_scenarios : cell)
    (scores : list (string * cell)) : gmap string cell :=
  list_to_map
    ([("scenario", CStr "scenario_1"); ("log_name", CStr "log_a");
      ("scenario_type", CStr "following"); ("num_scenarios", num_scenarios);
      ("planner_name", CStr planner); ("aggregator_type", CStr "weighted")]
     ++ scores).

Definition sample_aggregator : DataFrame.t :=
  DataFrame.mk
    ["scenario"; "log_name"; "scenario_type"; "num_scenarios"; "planner_name";
     "aggregator_type"; "score"; "comfort"; "progress"]
    [sample_row "planner_b" (CFloat nan)
       [("score", CFloat 0.5); ("comfort", CNone); ("progress", CFloat 1)];
     sample_row "planner_a" (CFloat nan)
       [("score", CFloat 0.25); ("comfort", CFloat 1); ("progress", CFloat 0)];
     sample_row "planner_a" (CFloat 1)
       [("score", CFloat 0.25); ("comfort", CFloat 1); ("progress", CFloat 0)]].

Definition sample_statistics : MetricStatisticsDataFrame.t :=
  MetricStatisticsDataFrame.mk "ego_speed" ["planner_a"; "planner_b"]
    [MetricStatisticsDataFrame.time_series_unit_column;
     MetricStatisticsDataFrame.time_series_timestamp_column;
     MetricStatisticsDataFrame.time_series_values_column]
    [MetricStatisticsDataFrame.mk_row "scenario_1" "following" "log_a"
       "planner_a" (Some "m/s") (Some [0; 100]%Z) (Some [1; 2]%float);
     MetricStatisticsDataFrame.mk_row "scenario_1" "following" "log_a"
       "planner_b" None None None].

Definition sample_experiment : ExperimentFileData.t :=
  ExperimentFileData.mk
    [SimulationScenarioKey.mk 0 "log_a" "planner_b" "following" "scenario_1";
     SimulationScenarioKey.mk 0 "log_a" "planner_a" "following" "scenario_1";
     SimulationScenarioKey.mk 0 "log_b" "planner_a" "following" "scenario_2"]
    [[("aggregator.parquet", sample_aggregator)]]
    [[sample_statistics]]
    ["following"]
    (λ index planner, "#1f77b4").

Definition sample_select (value : string) : Select.t := Select.mk value [] [].

(** A tab that shows [scenario_1] of [log_a], with every planner enabled,
    before the scores are stored. *)
Definition sample_tab_loading : ScenarioTab.t :=
  ScenarioTab.mk sample_experiment [0]
    (sample_select "following") (sample_select "log_a")
    (sample_select "scenario_1")
    (CheckboxGroup.mk ["planner_a"; "planner_b"] [0; 1])
    ∅ [] [] [] layout_None
    (column_div default_scenario_score_div)
    (column_div default_time_series_div)
    (column_div default_simulation_div)
    1200 800 [].

(** The scores [_update_aggregation_metric] builds from the sample table. *)
Definition sample_scores : scenario_metric_score_dict_type :=
  match _update_aggregation_metric sample_services sample_tab_loading with
  | Ok data => data
  | Raise _ => ∅
  end.

(** The tab with its scores stored, as [file_paths_on_change] stores them. *)
Definition sample_tab : ScenarioTab.t :=
  ScenarioTab.with_scenario_metric_score_data sample_scores sample_tab_loading.

(** The same tab after the user has moved to [scenario_2] of [log_b], which
    has simulations and no scores. *)
Definition sample_tab_other_log : ScenarioTab.t :=
  ScenarioTab.with_scalar_scenario_name_select (sample_select "scenario_2")
    (ScenarioTab.with_scalar_log_name_select (sample_select "log_b") sample_tab).

(** The same tab with no scenario chosen. *)
Definition sample_tab_no_scenario : ScenarioTab.t :=
  ScenarioTab.with_scalar_scenario_name_select (sample_select "") sample_tab.

(** Nine metrics of one planner in one bucket, the final score among them. *)
Definition sample_nine_scores : list ScenarioMetricScoreData.t :=
  (λ metric, ScenarioMetricScoreData.mk 0 "aggregator.parquet" 0 "planner_a"
               metric 1)
    <$> ["score"; "comfort"; "progress"; "speed_limit"; "collisions";
         "drivable_area"; "direction"; "time_to_collision"; "lane_change"].

Definition sample_tab_nine_metrics : ScenarioTab.t :=
  ScenarioTab.with_scenario_metric_score_data
    (<["log_a" := <["scenario_1" := sample_nine_scores]> ∅]> ∅) sample_tab.

(** A per-scenario row and a summary row of [sample_aggregator]. *)
Definition sample_scenario_row : gmap string cell :=
  sample_row "planner_b" (CFloat nan)
    [("score", CFloat 0.5); ("comfort", CNone); ("progress", CFloat 1)].

Definition sample_summary_row : gmap string cell :=
  sample_row "planner_a" (CFloat 1)
    [("score", CFloat 0.25); ("comfort", CFloat 1); ("progress", CFloat 0)].

(** A raster batch of one image, and toy numbers for the two layers that
    keep the number of elements right. *)
Definition zeros (n : N) : list float := repeat 0%float (N.to_nat n).

Definition sample_features : gmap string Tensor.t :=
  {[ "raster" := Tensor.mk [1; 4; 224; 224]%N [200704; 50176; 224; 1]%N
                   (zeros 200704) ]}.

Definition sample_layer_values (data : list float) : list float := data ++ data.

Definition sample_fc2_values (width : nat) (data : list float) : list float :=
  take width data.

(** The sample layer keeps the default memory format. *)
Definition sample_layer_strides (x : Tensor.t) (shape : list N) : list N :=
  Tensor.contiguous_strides shape.

(** ** Vocabulary of the further statements *)

(** The entry [e], stored under [log_name] and [scenario_name], was read from
    a per-scenario row of a table of an active experiment. *)
Definition stored_from (env : Services.t) (data : ExperimentFileData.t)
    (active_index : list nat) (log_name scenario_name : string)
    (e : ScenarioMetricScoreData.t) : Prop :=
  ∃ files df row_data nan,
    ScenarioMetricScoreData.experiment_index e ∈ active_index
    ∧ (ExperimentFileData.metric_aggregator_dataframes data)
        !! (ScenarioMetricScoreData.experiment_index e) = Some files
    ∧ files !! (ScenarioMetricScoreData.metric_aggregator_file_index e)
      = Some (ScenarioMetricScoreData.metric_aggregator_file_name e, df)
    ∧ row_data ∈ DataFrame.iterrows df
    ∧ row_data !! "num_scenarios" = Some (CFloat nan)
    ∧ PrimFloat.is_nan nan = true
    ∧ row_data !! "log_name" = Some (CStr log_name)
    ∧ row_data !! "scenario" = Some (CStr scenario_name)
    ∧ ScenarioMetricScoreData.metric_statistic_name e ∈ DataFrame.columns df
    ∧ (ScenarioMetricScoreData.metric_statistic_name e ∉ non_metric_columns)
    ∧ entry_of_row env (ScenarioMetricScoreData.experiment_index e)
        (ScenarioMetricScoreData.metric_aggregator_file_index e)
        (ScenarioMetricScoreData.metric_aggregator_file_name e)
        (ScenarioMetricScoreData.planner_name e) row_data e
    ∧ row_data !! "planner_name"
      = Some (CStr (ScenarioMetricScoreData.planner_name e)).

(** A row the rebuild reads without an exception: [num_scenarios] is a
    float, and where it is [nan] the three identifying columns hold strings
    and each metric column holds [None] or a float. *)
Definition row_well_formed (metric_columns : list string)
    (row_data : gmap string cell) : Prop :=
  ∃ f, row_data !! "num_scenarios" = Some (CFloat f)
       ∧ (PrimFloat.is_nan f = true →
          (∃ s, row_data !! "planner_name" = Some (CStr s))
          ∧ (∃ s, row_data !! "scenario" = Some (CStr s))
          ∧ (∃ s, row_data !! "log_name" = Some (CStr s))
          ∧ Forall (λ c, score_cell (row_data !! c)) metric_columns).

(** Every stored list of scores is not empty and holds entries read from
    the tables. *)
Definition all_stored_from (env : Services.t) (data : ExperimentFileData.t)
    (active_index : list nat) (scores : scenario_metric_score_dict_type)
  : Prop :=
  ∀ l s entries,
    default ∅ (scores !! l) !! s = Some entries →
    entries ≠ [] ∧ Forall (stored_from env data active_index l s) entries.

(** Every row of every table of an active experiment is well formed. *)
Definition tables_well_formed (data : ExperimentFileData.t)
    (active_index : list nat) : Prop :=
  ∀ index files file_index fname df row_data,
    index ∈ active_index →
    ExperimentFileData.metric_aggregator_dataframes data !! index = Some files →
    files !! file_index = Some (fname, df) →
    row_data ∈ DataFrame.iterrows df →
    row_well_formed (metric_columns_of df) row_data.

(** The values a dictionary of lists holds under [key], in the order of
    [items()]. *)
Definition series_of {A : Type} (key : string) (data : list (string * list A))
  : list A :=
  concat (snd <$> filter (λ item, item.1 = key) data).

(** A list as the value of a dictionary that holds no empty list. *)
Definition nonempty {A : Type} (l : list A) : option (list A) :=
  match l with
  | [] => None
  | _ :: _ => Some l
  end.

(** Whether a time series has a value to draw. *)
Definition has_values (data : ScenarioTimeSeriesData.t) : Prop :=
  ScenarioTimeSeriesData.time_series_values data ≠ [].

(** The time series [d], stored under the metric [key], was read from the
    rows of a statistics table of an active experiment: the rows of the
    selected scenario and of the planner of [d], under the selected scenario
    type and log name when there is one. *)
Definition series_from (env : Services.t) (self : ScenarioTab.t)
    (key : string) (d : ScenarioTimeSeriesData.t) : Prop :=
  ∃ dfs df first rest values,
    ScenarioTimeSeriesData.experiment_index d
      ∈ ScenarioTab.experiment_file_active_index self
    ∧ ExperimentFileData.metric_statistics_dataframes
        (ScenarioTab.experiment_file_data self)
        !! ScenarioTimeSeriesData.experiment_index d = Some dfs
    ∧ df ∈ dfs
    ∧ MetricStatisticsDataFrame.metric_statistic_name df = key
    ∧ ScenarioTimeSeriesData.planner_name d
        ∈ MetricStatisticsDataFrame.planner_names df
    ∧ MetricStatisticsDataFrame.query_scenarios df
        (Some [Select.value (ScenarioTab.scalar_scenario_name_select self)])
        (if decide (Select.value (ScenarioTab.scalar_scenario_type_select self)
                    = "")
         then None
         else Some [Select.value (ScenarioTab.scalar_scenario_type_select self)])
        (Some [ScenarioTimeSeriesData.planner_name d])
        (if decide (Select.value (ScenarioTab.scalar_log_name_select self) = "")
         then None
         else Some [Select.value (ScenarioTab.scalar_log_name_select self)])
      = first :: rest
    ∧ chain_from_iterable
        (MetricStatisticsDataFrame.values <$> first :: rest) = Ok values
    ∧ ScenarioTimeSeriesData.time_series_values d
      = Services.np_round4 env <$> values
    ∧ chain_from_iterable
        (MetricStatisticsDataFrame.timestamps <$> first :: rest)
      = Ok (ScenarioTimeSeriesData.time_series_timestamps d)
    ∧ ScenarioTimeSeriesData.time_series_unit d
      = MetricStatisticsDataFrame.unit first.

(** The invariant of the three loops of [_aggregate_time_series_data]. *)
Definition aggregated_from (env : Services.t) (self : ScenarioTab.t)
    (aggregated : list (string * list ScenarioTimeSeriesData.t)) : Prop :=
  NoDup aggregated.*1
  ∧ ∀ key series,
      od_get key aggregated = Some series →
      (∃ index dfs df,
         index ∈ ScenarioTab.experiment_file_active_index self
         ∧ ExperimentFileData.metric_statistics_dataframes
             (ScenarioTab.experiment_file_data self) !! index = Some dfs
         ∧ df ∈ dfs
         ∧ MetricStatisticsDataFrame.metric_statistic_name df = key)
      ∧ Forall (series_from env self key) series.

(** The legend label and the key of the data source of a score, as
    [_render_scenario_metric_score_scatter] builds them. *)
Definition scatter_legend_label (env : Services.t)
    (score_data : ScenarioMetricScoreData.t) : string :=
  ScenarioMetricScoreData.planner_name score_data +:+ " (" +:+
  Services.get_file_path_last_name env
    (ScenarioMetricScoreData.experiment_index score_data) +:+ ")".

Definition scatter_source_index (env : Services.t)
    (score_data : ScenarioMetricScoreData.t) : string :=
  scatter_legend_label env score_data +:+ " - " +:+
  pretty (ScenarioMetricScoreData.metric_aggregator_file_index score_data)
  +:+ ")".

(** The data source that holds the scores [points], opened for the score
    [first]. *)
Definition scatter_source (env : Services.t) (self : ScenarioTab.t)
    (points : list ScenarioMetricScoreData.t)
    (first : ScenarioMetricScoreData.t) : ScenarioMetricScoreDataSource.t :=
  ScenarioMetricScoreDataSource.mk
    (ScenarioMetricScoreData.metric_statistic_name <$> points)
    (ScenarioMetricScoreData.score <$> points)
    (ScenarioMetricScoreData.planner_name <$> points)
    (ScenarioMetricScoreData.metric_aggregator_file_name <$> points)
    ((λ x, Services.get_file_path_last_name env
             (ScenarioMetricScoreData.experiment_index x)) <$> points)
    ((λ x, ExperimentFileData.file_path_colors
             (ScenarioTab.experiment_file_data self)
             (ScenarioMetricScoreData.experiment_index x)
             (ScenarioMetricScoreData.planner_name x)) <$> points)
    (Services.get_scatter_sign env
       (ScenarioMetricScoreData.metric_aggregator_file_index first))
    (scatter_legend_label env first).

(** ** More of the small experiment *)

(** The sample tab after its only experiment file was switched off, still
    holding the simulation tile drawn before. *)
Definition sample_tab_inactive : ScenarioTab.t :=
  ScenarioTab.with_simulation_figure_data
    [SimulationFigureData.mk "planner_a" (sample_figure "scenario_1")]
    (ScenarioTab.with_experiment_file_active_index [] sample_tab).

(** The entry the rebuild stores for the [progress] of [planner_b]. *)
Definition sample_entry : ScenarioMetricScoreData.t :=
  ScenarioMetricScoreData.mk 0 "aggregator.parquet" 0 "planner_b" "progress" 1.

(** * Facts *)

(** ** The score dictionary *)

Lemma bucket_bucket_append_eq data log_name scenario_name x :
  bucket (bucket_append log_name scenario_name x data) log_name scenario_name
  = bucket data log_name scenario_name ++ [x].
Proof.
  unfold bucket_append. unfold bucket at 1.
  rewrite lookup_insert_eq. simpl. by rewrite lookup_insert_eq.
Qed.

Lemma bucket_bucket_append_ne data log_name scenario_name x l s :
  (l, s) ≠ (log_name, scenario_name) →
  bucket (bucket_append log_name scenario_name x data) l s = bucket data l s.
Proof.
  intros Hne. unfold bucket_append. unfold bucket at 1.
  destruct (decide (log_name = l)) as [->|Hl].
  - rewrite lookup_insert_eq. simpl.
    rewrite lookup_insert_ne by congruence. done.
  - rewrite lookup_insert_ne by done. done.
Qed.

Lemma bucket_touch data log_name scenario_name l s :
  bucket (touch data log_name scenario_name) l s = bucket data l s.
Proof.
  unfold touch. unfold bucket at 1.
  destruct (decide (log_name = l)) as [->|Hl].
  - rewrite lookup_insert_eq. simpl.
    destruct (decide (scenario_name = s)) as [->|Hs].
    + by rewrite lookup_insert_eq.
    + by rewrite lookup_insert_ne.
  - by rewrite lookup_insert_ne.
Qed.

Lemma touch_id data log_name scenario_name inner b :
  data !! log_name = Some inner → inner !! scenario_name = Some b →
  touch data log_name scenario_name = data.
Proof.
  intros H1 H2. unfold touch, bucket. rewrite H1. simpl. rewrite H2. simpl.
  rewrite (insert_id inner) by done. by apply insert_id.
Qed.

(** ** [_update_aggregation_metric] *)

Section aggregation_facts.
Variable env : Services.t.

Lemma scan_metric_column_None index file_index fname planner scen log row c data :
  row !! c = Some CNone →
  scan_metric_column env index file_index fname planner scen log row c data
  = Ok data.
Proof. intros H. unfold scan_metric_column, row_get. by rewrite H. Qed.

Lemma scan_metric_column_float index file_index fname planner scen log row c f data :
  row !! c = Some (CFloat f) →
  scan_metric_column env index file_index fname planner scen log row c data
  = Ok (bucket_append log scen
          (ScenarioMetricScoreData.mk index fname file_index planner c
             (Services.np_round4 env f)) data).
Proof. intros H. unfold scan_metric_column, row_get. by rewrite H. Qed.

Lemma scan_metric_columns_spec index file_index fname planner scen log row cols :
  Forall (λ c, score_cell (row !! c)) cols →
  ∀ data, ∃ data' new,
    for_each (scan_metric_column env index file_index fname planner scen log row)
             cols data = Ok data'
    ∧ bucket data' log scen = bucket data log scen ++ new
    ∧ (∀ l s, (l, s) ≠ (log, scen) → bucket data' l s = bucket data l s)
    ∧ ScenarioMetricScoreData.metric_statistic_name <$> new
      = filter (λ c, is_not_None (default CNone (row !! c)) = true) cols
    ∧ Forall (entry_of_row env index file_index fname planner row) new.
Proof.
  induction 1 as [|c cols Hc _ IH]; intros data.
  - exists data, []. rewrite app_nil_r. done.
  - cbn [for_each].
    destruct Hc as [Hc|[f Hc]].
    + rewrite scan_metric_column_None by done. cbn [mbind result_bind].
      destruct (IH data) as (data' & new & -> & Hb & Hother & Hnames & Hall).
      exists data', new. split_and!; try done.
      rewrite filter_cons_False; [done|]. cbn. by rewrite Hc.
    + rewrite (scan_metric_column_float _ _ _ _ _ _ _ _ f) by done.
      cbn [mbind result_bind].
      destruct (IH (bucket_append log scen
                      (ScenarioMetricScoreData.mk index fname file_index planner c
                         (Services.np_round4 env f)) data))
        as (data' & new & -> & Hb & Hother & Hnames & Hall).
      eexists data', (_ :: new). split_and!; try done.
      * rewrite Hb, bucket_bucket_append_eq, <-app_assoc. done.
      * intros l s Hne. rewrite Hother by done.
        by apply bucket_bucket_append_ne.
      * rewrite filter_cons_True by (cbn; rewrite Hc; done).
        cbn. by rewrite Hnames.
      * constructor; [|done]. repeat split; cbn. by exists f.
Qed.

(** C1.  A per-scenario row (its [num_scenarios] is [nan]) appends, to the
    bucket of its log name and scenario, one entry for each metric column
    whose value is not [None], in the order of the columns, and nothing for
    a column whose value is [None]; every other bucket stays as it was. *)
Theorem update_aggregation_metric_skips_null_scores
    index file_index fname metric_columns row_data nan planner scen log data :
  row_data !! "num_scenarios" = Some (CFloat nan) →
  PrimFloat.is_nan nan = true →
  row_data !! "planner_name" = Some (CStr planner) →
  row_data !! "scenario" = Some (CStr scen) →
  row_data !! "log_name" = Some (CStr log) →
  Forall (λ c, score_cell (row_data !! c)) metric_columns →
  ∃ data' new,
    scan_row env index file_index fname metric_columns row_data data = Ok data'
    ∧ bucket data' log scen = bucket data log scen ++ new
    ∧ (∀ l s, (l, s) ≠ (log, scen) → bucket data' l s = bucket data l s)
    ∧ ScenarioMetricScoreData.metric_statistic_name <$> new
      = filter (λ c, is_not_None (default CNone (row_data !! c)) = true) metric_columns
    ∧ Forall (entry_of_row env index file_index fname planner row_data) new.
Proof.
  intros Hnum Hnan Hp Hs Hl Hcols.
  unfold scan_row, row_str, row_get. rewrite Hnum, Hp, Hs, Hl. cbn.
  rewrite Hnan. cbn.
  by apply scan_metric_columns_spec.
Qed.
End aggregation_facts.

(** Two loops over [enumerate] whose bodies agree entry by entry. *)
Lemma for_each_zip_ext {A S : Type} (g : A → A)
    (body : nat * A → S → result S) (l : list A) :
  (∀ i x s, body (i, g x) s = body (i, x) s) →
  ∀ (ns : list nat) s,
    for_each body (zip ns (g <$> l)) s = for_each body (zip ns l) s.
Proof.
  intros Hbody. induction l as [|x l IH]; intros [|i ns] s; cbn; try done.
  rewrite Hbody. destruct (body (i, x) s); cbn; [apply IH|done].
Qed.

Lemma for_each_enumerate_ext {A S : Type} (g : A → A)
    (body : nat * A → S → result S) (l : list A) s :
  (∀ i x s, body (i, g x) s = body (i, x) s) →
  for_each body (enumerate (g <$> l)) s = for_each body (enumerate l) s.
Proof.
  intros Hbody. unfold enumerate. rewrite length_fmap.
  by apply for_each_zip_ext.
Qed.

Section summary_rows.
Variable env : Services.t.

Lemma scan_row_summary index file_index fname cols row_data data :
  is_summary_row row_data = true →
  scan_row env index file_index fname cols row_data data = Ok data.
Proof.
  unfold is_summary_row, scan_row, row_get.
  destruct (row_data !! "num_scenarios") as [[|f|]|]; try done.
  cbn. by intros ->.
Qed.

Lemma scan_rows_without_summary index file_index fname cols rows data :
  for_each (scan_row env index file_index fname cols)
           (filter (λ row_data, is_summary_row row_data = false) rows) data
  = for_each (scan_row env index file_index fname cols) rows data.
Proof.
  revert data. induction rows as [|row_data rows IH]; intros data; [done|].
  destruct (is_summary_row row_data) eqn:Hrow.
  - rewrite filter_cons_False by (rewrite Hrow; done).
    cbn [for_each]. rewrite scan_row_summary by done. apply IH.
  - rewrite filter_cons_True by done. cbn [for_each].
    destruct (scan_row _ _ _ _ _ _ _); cbn; [apply IH|done].
Qed.

(** C2.  A row whose [num_scenarios] is present leaves the dictionary as it
    is; a row that changes the dictionary has a [nan] there; and the whole
    rebuild gives the same result with the summary rows taken out of every
    table. *)
Theorem update_aggregation_metric_skips_summary_rows :
  (∀ index file_index fname cols row_data data,
     is_summary_row row_data = true →
     scan_row env index file_index fname cols row_data data = Ok data)
  ∧ (∀ index file_index fname cols row_data data data',
       scan_row env index file_index fname cols row_data data = Ok data' →
       data' ≠ data →
       ∃ f, row_data !! "num_scenarios" = Some (CFloat f)
            ∧ PrimFloat.is_nan f = true)
  ∧ (∀ self,
       _update_aggregation_metric env
         (ScenarioTab.with_experiment_file_data
            (without_summary_rows (ScenarioTab.experiment_file_data self)) self)
       = _update_aggregation_metric env self).
Proof.
  split_and!.
  - apply scan_row_summary.
  - intros index file_index fname cols row_data data data' Hscan Hne.
    unfold scan_row, row_get in Hscan.
    destruct (row_data !! "num_scenarios") as [[|f|]|]; try done.
    cbn in Hscan. destruct (PrimFloat.is_nan f) eqn:Hnan; [by exists f|].
    cbn in Hscan. congruence.
  - intros self. unfold _update_aggregation_metric. cbn.
    apply for_each_enumerate_ext. intros index files data.
    unfold scan_experiment. case_bool_decide; [|done].
    apply for_each_enumerate_ext. intros file_index [fname df] data0.
    cbn. apply scan_rows_without_summary.
Qed.
End summary_rows.

(** ** Sorting a set of strings *)

Lemma sorted_set_Permutation (s : gset string) : sorted_set s ≡ₚ elements s.
Proof. apply merge_sort_Permutation. Qed.

Lemma sorted_set_Sorted (s : gset string) : Sorted String.le (sorted_set s).
Proof. apply (Sorted_merge_sort String.le). Qed.

Lemma sorted_set_NoDup (s : gset string) : NoDup (sorted_set s).
Proof. rewrite sorted_set_Permutation. apply NoDup_elements. Qed.

Lemma elem_of_sorted_set (s : gset string) x : x ∈ sorted_set s ↔ x ∈ s.
Proof. rewrite sorted_set_Permutation. apply elem_of_elements. Qed.

Lemma sorted_set_unique (s : gset string) (l : list string) :
  Sorted String.le l → NoDup l → (∀ x, x ∈ l ↔ x ∈ s) → l = sorted_set s.
Proof.
  intros Hsorted Hnodup Hmem.
  apply (Sorted_unique String.le); [done|apply sorted_set_Sorted|].
  apply NoDup_Permutation; [done|apply sorted_set_NoDup|].
  intros x. by rewrite Hmem, elem_of_sorted_set.
Qed.

(** ** [list.remove] *)

Lemma list_remove_sublist x l : list_remove x l `sublist_of` l.
Proof.
  induction l as [|y l IH]; [done|]. cbn [list_remove].
  destruct (decide (y = x)); [by apply sublist_cons|by apply sublist_skip].
Qed.

Lemma elem_of_list_remove x l y :
  NoDup l → y ∈ list_remove x l ↔ y ∈ l ∧ y ≠ x.
Proof.
  induction 1 as [|z l Hz Hnd IH]; cbn [list_remove].
  - set_solver.
  - destruct (decide (z = x)) as [->|Hne]; [|set_solver].
    rewrite elem_of_cons. split; [|naive_solver].
    intros Hy. split; [by right|]. by intros ->.
Qed.

Lemma list_remove_app_Permutation x l :
  x ∈ l → list_remove x l ++ [x] ≡ₚ l.
Proof.
  induction l as [|y l IH]; [by intros ?%elem_of_nil|].
  intros Hx. cbn [list_remove]. destruct (decide (y = x)) as [->|Hne].
  - by rewrite Permutation_app_comm.
  - cbn. f_equiv. apply IH. set_solver.
Qed.

Lemma Sorted_le_sublist (l k : list string) :
  l `sublist_of` k → Sorted String.le k → Sorted String.le l.
Proof.
  intros Hsub Hk. apply Sorted_StronglySorted in Hk; [|apply _].
  apply StronglySorted_Sorted.
  induction Hsub as [|x l k Hsub IH|x l k Hsub IH]; [done|..].
  - apply StronglySorted_cons in Hk as [Hx Hk].
    apply StronglySorted_cons. split; [|by apply IH].
    rewrite Forall_forall in Hx |- *. intros y Hy. apply Hx.
    by apply (sublist_subseteq _ _ Hsub).
  - apply StronglySorted_cons in Hk as [_ Hk]. by apply IH.
Qed.

(** ** Ordered dictionaries *)

Section ordered_dict_facts.
Context {V : Type}.
Implicit Types (d : list (string * V)) (k : string).

Lemma od_mem_true k d : od_mem k d = true ↔ k ∈ d.*1.
Proof.
  unfold od_mem. induction d as [|[k' v] d IH]; cbn.
  - split; [done|by intros ?%elem_of_nil].
  - destruct (decide (k' = k)) as [->|Hne].
    + split; [intros _; by left|done].
    + rewrite IH, elem_of_cons. naive_solver.
Qed.

Lemma od_alter_keys f k d : (od_alter f k d).*1 = d.*1.
Proof.
  induction d as [|[k' v] d IH]; [done|]. cbn.
  destruct (decide (k' = k)); cbn; [done|by rewrite IH].
Qed.

Lemma elem_of_od_setdefault_keys k v d k' :
  k' ∈ (od_setdefault k v d).*1 ↔ k' = k ∨ k' ∈ d.*1.
Proof.
  unfold od_setdefault. destruct (od_mem k d) eqn:Hmem.
  - apply od_mem_true in Hmem. naive_solver.
  - rewrite fmap_app, elem_of_app. cbn. rewrite list_elem_of_singleton.
    naive_solver.
Qed.

Lemma od_alter_Forall (Q : V → Prop) f k d :
  (∀ v, Q v → Q (f v)) →
  Forall (λ kv, Q kv.2) d → Forall (λ kv, Q kv.2) (od_alter f k d).
Proof.
  intros Hf. induction 1 as [|[k' v] d Hv Hd IH]; cbn; [done|].
  destruct (decide (k' = k)); constructor; cbn; auto.
Qed.

Lemma od_setdefault_Forall (Q : V → Prop) k v d :
  Q v → Forall (λ kv, Q kv.2) d → Forall (λ kv, Q kv.2) (od_setdefault k v d).
Proof.
  intros Hv Hd. unfold od_setdefault. destruct (od_mem k d); [done|].
  apply Forall_app. split; [done|]. by constructor.
Qed.

Lemma od_get_Some_elem k d v : od_get k d = Some v → (k, v) ∈ d.
Proof.
  induction d as [|[k' v'] d IH]; cbn; [done|].
  destruct (decide (k' = k)) as [->|Hne].
  - intros [= ->]. by left.
  - intros H. right. by apply IH.
Qed.
End ordered_dict_facts.

Lemma elem_of_od_append_keys {A} k (x : A) d k' :
  k' ∈ (od_append k x d).*1 ↔ k' = k ∨ k' ∈ d.*1.
Proof. unfold od_append. by rewrite od_alter_keys, elem_of_od_setdefault_keys. Qed.

Lemma od_append_Forall {A} (P : A → Prop) k x (d : list (string * list A)) :
  P x → Forall (λ kv, Forall P kv.2) d →
  Forall (λ kv, Forall P kv.2) (od_append k x d).
Proof.
  intros Hx Hd. unfold od_append.
  apply (od_alter_Forall (Forall P)).
  - intros l Hl. apply Forall_app. split; [done|by constructor].
  - by apply (od_setdefault_Forall (Forall P)).
Qed.

(** ** [group_by_metric] *)

Lemma elem_of_group_by_metric_keys enabled selected m :
  m ∈ (group_by_metric enabled selected).*1 ↔
  ∃ x, x ∈ selected ∧ ScenarioMetricScoreData.planner_name x ∈ enabled
       ∧ ScenarioMetricScoreData.metric_statistic_name x = m.
Proof.
  unfold group_by_metric.
  enough (∀ acc,
    m ∈ (foldl (λ data x,
                  if bool_decide (ScenarioMetricScoreData.planner_name x ∈ enabled)
                  then od_append (ScenarioMetricScoreData.metric_statistic_name x) x data
                  else data) acc selected).*1 ↔
    m ∈ acc.*1 ∨ ∃ x, x ∈ selected
                      ∧ ScenarioMetricScoreData.planner_name x ∈ enabled
                      ∧ ScenarioMetricScoreData.metric_statistic_name x = m) as H.
  { rewrite H. cbn. rewrite elem_of_nil. naive_solver. }
  induction selected as [|y selected IH]; intros acc; cbn [foldl].
  - setoid_rewrite elem_of_nil. naive_solver.
  - rewrite IH. setoid_rewrite elem_of_cons. case_bool_decide as Hy.
    + rewrite elem_of_od_append_keys. naive_solver.
    + naive_solver.
Qed.

Lemma group_by_metric_enabled enabled selected :
  Forall (λ kv, Forall (λ x, ScenarioMetricScoreData.planner_name x ∈ enabled) kv.2)
         (group_by_metric enabled selected).
Proof.
  unfold group_by_metric.
  enough (∀ acc,
    Forall (λ kv, Forall (λ x, ScenarioMetricScoreData.planner_name x ∈ enabled) kv.2) acc →
    Forall (λ kv, Forall (λ x, ScenarioMetricScoreData.planner_name x ∈ enabled) kv.2)
      (foldl (λ data x,
                  if bool_decide (ScenarioMetricScoreData.planner_name x ∈ enabled)
                  then od_append (ScenarioMetricScoreData.metric_statistic_name x) x data
                  else data) acc selected)) as H.
  { by apply H. }
  induction selected as [|y selected IH]; intros acc Hacc; cbn [foldl]; [done|].
  apply IH. case_bool_decide; [|done]. by apply od_append_Forall.
Qed.

(** C5.  The ordered metric names of [_render_scenario_metric_score] are a
    permutation of the sorted distinct metric names of the enabled planners,
    with the same members and no repetition: the sorted list itself when
    there is no ["score"], and otherwise the sorted list of the other names
    followed by ["score"]. *)
Theorem render_scenario_metric_score_orders_metric_names
    (enabled : list string) (selected : list ScenarioMetricScoreData.t) :
  let names := ordered_metric_names (group_by_metric enabled selected) in
  let distinct : gset string :=
    list_to_set (ScenarioMetricScoreData.metric_statistic_name <$>
                   filter (λ x, ScenarioMetricScoreData.planner_name x ∈ enabled)
                          selected) in
  Sorted String.le (sorted_set distinct)
  ∧ names ≡ₚ sorted_set distinct
  ∧ (∀ m, m ∈ names ↔ m ∈ distinct)
  ∧ NoDup names
  ∧ ("score" ∉ distinct → names = sorted_set distinct)
  ∧ ("score" ∈ distinct →
       names = sorted_set (distinct ∖ {["score"]}) ++ ["score"]).
Proof.
  intros names distinct.
  assert (list_to_set (group_by_metric enabled selected).*1 = distinct) as Hkeys.
  { apply set_eq. intros m. subst distinct.
    rewrite !elem_of_list_to_set, elem_of_group_by_metric_keys, list_elem_of_fmap.
    setoid_rewrite list_elem_of_filter. naive_solver. }
  assert (names ≡ₚ sorted_set distinct) as Hperm.
  { subst names. unfold ordered_metric_names. rewrite Hkeys.
    case_bool_decide as Hscore; [|done].
    by apply list_remove_app_Permutation. }
  split_and!.
  - apply sorted_set_Sorted.
  - done.
  - intros m. by rewrite Hperm, elem_of_sorted_set.
  - rewrite Hperm. apply sorted_set_NoDup.
  - intros Hscore. subst names. unfold ordered_metric_names. rewrite Hkeys.
    rewrite bool_decide_eq_false_2; [done|]. by rewrite elem_of_sorted_set.
  - intros Hscore. subst names. unfold ordered_metric_names. rewrite Hkeys.
    rewrite bool_decide_eq_true_2 by (by rewrite elem_of_sorted_set).
    f_equal. apply sorted_set_unique.
    + eapply Sorted_le_sublist; [apply list_remove_sublist|apply sorted_set_Sorted].
    + eapply sublist_NoDup; [apply sorted_set_NoDup|apply list_remove_sublist].
    + intros m. rewrite elem_of_list_remove by apply sorted_set_NoDup.
      rewrite elem_of_sorted_set. set_solver.
Qed.

(** ** Chunks *)

Lemma ceil_div_4 n : ceil_div n 4 = (n + 3) `div` 4.
Proof.
  unfold ceil_div. case_decide as Hmod.
  - pose proof (Nat.div_mod_eq n 4). pose proof (Nat.div_mod_eq (n + 3) 4).
    pose proof (Nat.mod_upper_bound (n + 3) 4). lia.
  - pose proof (Nat.div_mod_eq n 4). pose proof (Nat.div_mod_eq (n + 3) 4).
    pose proof (Nat.mod_upper_bound (n + 3) 4).
    pose proof (Nat.mod_upper_bound n 4). lia.
Qed.

Lemma slice_chunk {A} (l : list A) i k :
  slice l (i * k) (i * k + k) = take k (drop (i * k) l).
Proof. unfold slice. f_equal. lia. Qed.

Lemma chunks_concat {A} (k : nat) (m : nat) :
  ∀ l : list A, (length l ≤ m * k)%nat →
  mjoin ((λ i, take k (drop (i * k) l)) <$> seq 0 m) = l.
Proof.
  induction m as [|m IH]; intros l Hlen.
  - cbn. destruct l; [done|cbn in Hlen; lia].
  - cbn [seq]. rewrite <-fmap_S_seq. cbn [fmap list_fmap mjoin list_join].
    rewrite <-list_fmap_compose. cbn [Nat.mul drop].
    transitivity (take k l ++ drop k l); [|apply take_drop]. f_equal.
    etransitivity; [|apply (IH (drop k l)); rewrite length_drop; lia].
    f_equal. apply list_fmap_ext. intros ? i _. cbn.
    rewrite drop_drop. do 2 f_equal; lia.
Qed.

Lemma lookup_chunks {B} (f : nat → B) (m i : nat) :
  (f <$> seq 0 m) !! i = if decide (i < m)%nat then Some (f i) else None.
Proof.
  rewrite list_lookup_fmap. case_decide.
  - by rewrite lookup_seq_lt.
  - by rewrite lookup_seq_ge by lia.
Qed.

Section score_figures.
Variable env : Services.t.

Lemma foldl_add_glyph_x_range {A} (g : A → Glyph) (l : list A) (f : Figure.t) :
  Figure.x_range (foldl (λ figure item, Figure.add_glyph (g item) figure) f l)
  = Figure.x_range f.
Proof. revert f. induction l as [|x l IH]; intros f; cbn; [done|by rewrite IH]. Qed.

Lemma score_figure_x_range self data names index :
  Figure.x_range (score_figure env self data names index).2
  = Some (take 4 (drop (index * 4) names)).
Proof.
  unfold score_figure, _render_scenario_metric_score_scatter. cbn [snd].
  rewrite foldl_add_glyph_x_range. cbn. by rewrite slice_chunk.
Qed.

Lemma render_scenario_metric_score_unfold self :
  Select.value (ScenarioTab.scalar_log_name_select self) ≠ "" →
  Select.value (ScenarioTab.scalar_scenario_name_select self) ≠ "" →
  ScenarioTab.scenario_metric_score_data self ≠ ∅ →
  let log_name := Select.value (ScenarioTab.scalar_log_name_select self) in
  let scenario_name := Select.value (ScenarioTab.scalar_scenario_name_select self) in
  let data :=
    group_by_metric (enable_planner_names self)
      (bucket (ScenarioTab.scenario_metric_score_data self) log_name scenario_name) in
  _render_scenario_metric_score env self
  = (score_figure env self data (ordered_metric_names data)
       <$> seq 0 (ceil_div (length (ordered_metric_names data)) 4),
     ScenarioTab.with_scenario_metric_score_data
       (touch (ScenarioTab.scenario_metric_score_data self) log_name scenario_name)
       self).
Proof.
  intros Hlog Hscen Hdata. unfold _render_scenario_metric_score.
  rewrite !bool_decide_eq_false_2 by done. done.
Qed.

(** C6.  With a log and a scenario chosen and scores stored,
    [_render_scenario_metric_score] makes [ceil(n / 4)] figures for [n]
    metric names; figure [i] is keyed [str(i)] and ranges over the names
    [4 * i, 4 * i + 4); the ranges, in order, give back the list of names, each
    holds between one and four names, and nine names give ranges of sizes
    4, 4 and 1. *)
Theorem render_scenario_metric_score_chunks self :
  Select.value (ScenarioTab.scalar_log_name_select self) ≠ "" →
  Select.value (ScenarioTab.scalar_scenario_name_select self) ≠ "" →
  ScenarioTab.scenario_metric_score_data self ≠ ∅ →
  let names :=
    ordered_metric_names
      (group_by_metric (enable_planner_names self)
         (bucket (ScenarioTab.scenario_metric_score_data self)
            (Select.value (ScenarioTab.scalar_log_name_select self))
            (Select.value (ScenarioTab.scalar_scenario_name_select self)))) in
  let figures := (_render_scenario_metric_score env self).1 in
  let x_ranges := (λ figure, default [] (Figure.x_range figure.2)) <$> figures in
  length figures = ceil_div (length names) _number_metrics_per_figure
  ∧ ceil_div (length names) _number_metrics_per_figure
    = ((length names + 3) `div` 4)%nat
  ∧ mjoin x_ranges = names
  ∧ (∀ i, (i < length figures)%nat →
       figures.*1 !! i = Some (pretty i)
       ∧ x_ranges !! i = Some (take 4 (drop (4 * i) names)))
  ∧ Forall (λ r, (1 ≤ length r ≤ 4)%nat) x_ranges
  ∧ (length names = 9%nat → length <$> x_ranges = [4; 4; 1]%nat).
Proof.
  intros Hlog Hscen Hdata names figures x_ranges.
  subst figures x_ranges. rewrite render_scenario_metric_score_unfold by done.
  cbn [fst]. fold names. unfold _number_metrics_per_figure.
  set (data := group_by_metric _ _) in *.
  assert (((λ figure : string * Figure.t, default [] (Figure.x_range figure.2))
             <$> (score_figure env self data names
                    <$> seq 0 (ceil_div (length names) 4)))
          = (λ i, take 4 (drop (i * 4) names))
              <$> seq 0 (ceil_div (length names) 4)) as Hranges.
  { rewrite <-list_fmap_compose. apply list_fmap_ext. intros _ i _. unfold compose.
    by rewrite score_figure_x_range. }
  rewrite Hranges. pose proof (ceil_div_4 (length names)) as Hceil.
  split_and!.
  - by rewrite length_fmap, length_seq.
  - done.
  - apply chunks_concat. rewrite Hceil.
    pose proof (Nat.div_mod_eq (length names + 3) 4).
    pose proof (Nat.mod_upper_bound (length names + 3) 4). lia.
  - intros i. rewrite length_fmap, length_seq. intros Hi.
    rewrite <-list_fmap_compose, !lookup_chunks, !decide_True by done.
    cbn. split; [done|]. do 3 f_equal. lia.
  - apply Forall_fmap, Forall_forall. intros i [_ Hi]%elem_of_seq. cbn.
    rewrite length_take, length_drop. rewrite Hceil in Hi.
    pose proof (Nat.div_mod_eq (length names + 3) 4).
    pose proof (Nat.mod_upper_bound (length names + 3) 4). lia.
  - intros Hnine. rewrite Hnine.
    do 10 (destruct names as [|? names]; try done).
Qed.
End score_figures.

(** ** [_aggregate_time_series_data], and what the methods read *)

Section plot_facts.
Variable env : Services.t.
Import ScenarioTab.

(** C7.  With no scenario name selected, [_aggregate_time_series_data]
    returns the empty mapping, whatever the tables and the other selectors
    hold. *)
Theorem aggregate_time_series_data_without_scenario_name self :
  Select.value (scalar_scenario_name_select self) = "" →
  _aggregate_time_series_data env self = Ok [].
Proof. intros Hname. unfold _aggregate_time_series_data. by rewrite Hname. Qed.

Lemma aggregate_time_series_data_frame s1 s2 :
  experiment_file_data s1 = experiment_file_data s2 →
  experiment_file_active_index s1 = experiment_file_active_index s2 →
  scalar_scenario_type_select s1 = scalar_scenario_type_select s2 →
  scalar_log_name_select s1 = scalar_log_name_select s2 →
  scalar_scenario_name_select s1 = scalar_scenario_name_select s2 →
  _aggregate_time_series_data env s1 = _aggregate_time_series_data env s2.
Proof. destruct s1, s2; simpl; intros; by subst. Qed.

Lemma render_time_series_frame s1 s2 data :
  experiment_file_data s1 = experiment_file_data s2 →
  window_width s1 = window_width s2 →
  window_height s1 = window_height s2 →
  _render_time_series env s1 data = _render_time_series env s2 data.
Proof. destruct s1, s2; simpl; intros; by subst. Qed.

Lemma render_simulations_frame s1 s2 :
  experiment_file_data s1 = experiment_file_data s2 →
  experiment_file_active_index s1 = experiment_file_active_index s2 →
  scalar_scenario_type_select s1 = scalar_scenario_type_select s2 →
  scalar_log_name_select s1 = scalar_log_name_select s2 →
  scalar_scenario_name_select s1 = scalar_scenario_name_select s2 →
  window_width s1 = window_width s2 →
  window_height s1 = window_height s2 →
  (_render_simulations env s1).1 = (_render_simulations env s2).1.
Proof.
  destruct s1, s2; simpl; intros; subst. unfold _render_simulations. simpl.
  by destruct (filter _ _).
Qed.

(** [_render_scenario_metric_score] leaves the tab as it is, up to the
    keys its read of the score dictionary creates. *)
Lemma render_scenario_metric_score_tab self :
  ∃ data,
    (_render_scenario_metric_score env self).2
    = with_scenario_metric_score_data data self
    ∧ (data = scenario_metric_score_data self
       ∨ Select.value (scalar_log_name_select self) ≠ ""
         ∧ Select.value (scalar_scenario_name_select self) ≠ ""
         ∧ scenario_metric_score_data self ≠ ∅
         ∧ data = touch (scenario_metric_score_data self)
                    (Select.value (scalar_log_name_select self))
                    (Select.value (scalar_scenario_name_select self))).
Proof.
  unfold _render_scenario_metric_score.
  repeat case_bool_decide; cbn [orb fst snd];
    try (exists (scenario_metric_score_data self);
         split; [by destruct self|by left]).
  eexists; split; [done|]. by right.
Qed.
End plot_facts.

(** Reducing the field updates of a tab. *)
Ltac tab_simpl :=
  lazy beta iota delta [
    ScenarioTab.with_experiment_file_data
    ScenarioTab.with_experiment_file_active_index
    ScenarioTab.with_scalar_scenario_type_select
    ScenarioTab.with_scalar_log_name_select
    ScenarioTab.with_scalar_scenario_name_select
    ScenarioTab.with_planner_checkbox_group
    ScenarioTab.with_scenario_metric_score_data
    ScenarioTab.with_time_series_data ScenarioTab.with_simulation_figure_data
    ScenarioTab.with_available_scenario_names
    ScenarioTab.with_simulation_plots ScenarioTab.with_scenario_score_layout
    ScenarioTab.with_time_series_layout
    ScenarioTab.with_simulation_tile_layout ScenarioTab.with_window
    ScenarioTab.with_next_tick_callbacks ScenarioTab.experiment_file_data
    ScenarioTab.experiment_file_active_index
    ScenarioTab.scalar_scenario_type_select
    ScenarioTab.scalar_log_name_select
    ScenarioTab.scalar_scenario_name_select
    ScenarioTab.planner_checkbox_group ScenarioTab.scenario_metric_score_data
    ScenarioTab.time_series_data ScenarioTab.simulation_figure_data
    ScenarioTab.available_scenario_names ScenarioTab.simulation_plots
    ScenarioTab.scenario_score_layout ScenarioTab.time_series_layout
    ScenarioTab.simulation_tile_layout ScenarioTab.window_width
    ScenarioTab.window_height ScenarioTab.next_tick_callbacks] in *.

(** ** The plot update and the handler of the scenario name *)

Lemma omap_lookup_seq {A} (l pre : list A) :
  omap (λ i, (pre ++ l) !! i) (seq (length pre) (length l)) = l.
Proof.
  revert pre. induction l as [|x l IH]; intros pre; [done|].
  cbn [length seq omap list_omap].
  rewrite (lookup_app_r pre) by lia. rewrite Nat.sub_diag. cbn.
  f_equal. specialize (IH (pre ++ [x])).
  rewrite length_app, <-app_assoc in IH. cbn in IH.
  by rewrite Nat.add_1_r in IH.
Qed.

Section handler_facts.
Variable env : Services.t.
Import ScenarioTab.

Lemma render_simulations_tab self :
  ∃ data,
    (_render_simulations env self).2 = with_simulation_figure_data data self.
Proof.
  unfold _render_simulations. destruct (filter _ _); cbn [snd].
  - exists (simulation_figure_data self). by destruct self.
  - by eexists.
Qed.

Lemma update_scenario_plot_Ok self aggregated :
  _aggregate_time_series_data env self = Ok aggregated →
  ∃ data sims,
    _update_scenario_plot env self
    = Ok (with_next_tick_callbacks
            (next_tick_callbacks self ++ [update_simulation_layouts_cb])
            (with_simulation_plots (_render_simulations env self).1
               (with_simulation_figure_data sims
                  (with_time_series_layout
                     (layout (_render_scenario_metric_layout env
                                (_render_time_series env self aggregated)
                                default_time_series_div
                                (Services.plot_sizes env (window_width self)
                                   (window_height self)).1 true))
                     (with_time_series_data aggregated
                        (with_scenario_score_layout
                           (layout (_render_scenario_metric_layout env
                                      (_render_scenario_metric_score env self).1
                                      default_scenario_score_div
                                      (Services.scenario_metric_score_figure_sizes env).1
                                      false))
                           (with_scenario_metric_score_data data self))))))).
Proof.
  intros Hagg. unfold _update_scenario_plot.
  destruct (render_scenario_metric_score_tab env self) as (data & Hsnd & _).
  destruct (_render_scenario_metric_score env self) as [figures s1].
  cbn [fst snd] in *. subst s1.
  rewrite (aggregate_time_series_data_frame env _ self) by (by destruct self).
  rewrite Hagg. cbn [mbind result_bind].
  match goal with
  | |- context [_render_simulations env ?s] =>
      destruct (render_simulations_tab s) as (sims & Hsims);
      pose proof (render_simulations_frame env s self) as Hplots;
      destruct (_render_simulations env s) as [plots s2]
  end.
  cbn [fst snd] in Hsims, Hplots. subst s2.
  assert (plots = (_render_simulations env self).1) as ->
    by (apply Hplots; by destruct self).
  exists data, sims. by destruct self.
Qed.

Lemma update_planner_names_eq self :
  _update_planner_names self
  = with_planner_checkbox_group
      (let labels :=
         sorted_set (list_to_set
           (SimulationScenarioKey.planner_name <$>
              filter (λ key,
                        SimulationScenarioKey.scenario_type key
                          = Select.value (scalar_scenario_type_select self)
                        ∧ SimulationScenarioKey.scenario_name key
                          = Select.value (scalar_scenario_name_select self))
                     (ExperimentFileData.simulation_scenario_keys
                        (experiment_file_data self)))) in
       CheckboxGroup.mk labels (seq 0 (length labels)))
      self.
Proof. by destruct self. Qed.

(** C9.  A scenario-plot update places the score layout and the time-series
    layout before it returns, leaves the simulation-tile layout as it was, and
    puts [_update_simulation_layouts] behind the callbacks waiting for the
    next tick; the tick that follows installs the rendered simulation plots
    and keeps the two metric layouts. *)
Theorem update_scenario_plot_defers_simulation_layout self aggregated :
  _aggregate_time_series_data env self = Ok aggregated →
  ∃ self',
    _update_scenario_plot env self = Ok self'
    ∧ scenario_score_layout self'
      = layout (_render_scenario_metric_layout env
                  (_render_scenario_metric_score env self).1
                  default_scenario_score_div
                  (Services.scenario_metric_score_figure_sizes env).1 false)
    ∧ time_series_layout self'
      = layout (_render_scenario_metric_layout env
                  (_render_time_series env self aggregated)
                  default_time_series_div
                  (Services.plot_sizes env (window_width self)
                     (window_height self)).1 true)
    ∧ simulation_tile_layout self' = simulation_tile_layout self
    ∧ simulation_plots self' = (_render_simulations env self).1
    ∧ next_tick_callbacks self'
      = next_tick_callbacks self ++ [update_simulation_layouts_cb]
    ∧ simulation_tile_layout (next_tick self') = layout (simulation_plots self')
    ∧ scenario_score_layout (next_tick self') = scenario_score_layout self'
    ∧ time_series_layout (next_tick self') = time_series_layout self'.
Proof.
  intros Hagg.
  destruct (update_scenario_plot_Ok self aggregated Hagg) as (data & sims & ->).
  eexists. split; [done|].
  destruct self as [? ? ? ? ? ? ? ? ? ? ? ? ? ? ? ? q].
  split_and!; try done;
    unfold next_tick, run_callback, _update_simulation_layouts;
    tab_simpl; by destruct q as [|[] q].
Qed.

(** C4.  When the handler of the scenario name runs (the tags hold a window
    size or nothing, and the aggregation of the time series succeeds), the
    labels of the checkbox group become the sorted, distinct planner names of
    the simulation keys that match the selected scenario type and scenario
    name, and every label is active, so every one of them is enabled. *)
Theorem scenario_name_change_enables_all_planners attr old new self aggregated :
  length (Select.tags (scalar_scenario_name_select self)) ≠ 1%nat →
  _aggregate_time_series_data env self = Ok aggregated →
  ∃ self',
    _scalar_scenario_name_select_on_change env attr old new self = Ok self'
    ∧ let labels := CheckboxGroup.labels (planner_checkbox_group self') in
      CheckboxGroup.active (planner_checkbox_group self')
      = seq 0 (length labels)
      ∧ enable_planner_names self' = labels
      ∧ Sorted String.le labels
      ∧ NoDup labels
      ∧ ∀ planner,
          planner ∈ labels ↔
          ∃ key,
            key ∈ ExperimentFileData.simulation_scenario_keys
                    (experiment_file_data self)
            ∧ SimulationScenarioKey.scenario_type key
              = Select.value (scalar_scenario_type_select self)
            ∧ SimulationScenarioKey.scenario_name key
              = Select.value (scalar_scenario_name_select self)
            ∧ SimulationScenarioKey.planner_name key = planner.
Proof.
  intros Htags Hagg. unfold _scalar_scenario_name_select_on_change.
  assert (∃ s, match Select.tags (scalar_scenario_name_select self) with
               | [] => Ok self
               | [_] => Raise IndexError
               | width :: height :: _ => Ok (with_window width height self)
               end = Ok s
               ∧ ∃ w h, s = with_window w h self) as (s & -> & w & h & ->).
  { destruct (Select.tags _) as [|w [|h ?]]; [|done|].
    - exists self. split; [done|].
      exists (window_width self), (window_height self). by destruct self.
    - eexists. split; [done|]. by eexists _, _. }
  cbn [mbind result_bind].
  rewrite update_planner_names_eq.
  match goal with
  | |- context [_update_scenario_plot env ?s] =>
      destruct (update_scenario_plot_Ok s aggregated) as (data & sims & ->)
  end.
  { rewrite <-Hagg. apply aggregate_time_series_data_frame; by destruct self. }
  eexists. split; [done|].
  destruct self as [? ? ? ? ? ? ? ? ? ? ? ? ? ? ? ? ?]. tab_simpl.
  unfold enable_planner_names. tab_simpl.
  cbn [CheckboxGroup.labels CheckboxGroup.active].
  split_and!.
  - done.
  - apply (omap_lookup_seq _ []).
  - apply sorted_set_Sorted.
  - apply sorted_set_NoDup.
  - intros planner.
    rewrite elem_of_sorted_set, elem_of_list_to_set, list_elem_of_fmap.
    setoid_rewrite list_elem_of_filter. naive_solver.
Qed.
End handler_facts.

(** ** What the figures hold *)

Lemma foldl_invariant {A B} (I : B → Prop) (P : A → Prop) (f : B → A → B) l b :
  (∀ b x, I b → P x → I (f b x)) → I b → Forall P l → I (foldl f b l).
Proof.
  intros Hf Hb Hl. revert b Hb.
  induction Hl as [|x l Hx _ IH]; intros b Hb; cbn; auto.
Qed.

Section render_facts.
Variable env : Services.t.
Import ScenarioTab.

(** *** Scatter figures *)

Lemma scatter_data_sources_planners (P : string → Prop) self data :
  Forall (λ kv : string * list ScenarioMetricScoreData.t,
            Forall (λ x, P (ScenarioMetricScoreData.planner_name x)) kv.2) data →
  Forall (λ kv : string * ScenarioMetricScoreDataSource.t,
            Forall P (ScenarioMetricScoreDataSource.planners kv.2))
         (scatter_data_sources env self data).
Proof.
  intros Hdata. unfold scatter_data_sources.
  apply (foldl_invariant _
           (λ item : string * list ScenarioMetricScoreData.t,
              Forall (λ x, P (ScenarioMetricScoreData.planner_name x)) item.2));
    [|done|exact Hdata].
  intros sources0 item Hs0 Hitem.
  apply (foldl_invariant _
           (λ x, P (ScenarioMetricScoreData.planner_name x)));
    [|done|exact Hitem].
  intros sources x Hs Hx. unfold scatter_add.
  apply (od_alter_Forall (λ s, Forall P (ScenarioMetricScoreDataSource.planners s))).
  - intros s Hsrc. cbn. apply Forall_app. split; [done|by constructor].
  - by apply (od_setdefault_Forall
                (λ s, Forall P (ScenarioMetricScoreDataSource.planners s))).
Qed.

Lemma foldl_add_glyph_renderers {A} (g : A → Glyph) (l : list A) (f : Figure.t) :
  Figure.renderers (foldl (λ figure item, Figure.add_glyph (g item) figure) f l)
  = Figure.renderers f ++ (g <$> l).
Proof.
  revert f. induction l as [|x l IH]; intros f; cbn.
  - by rewrite app_nil_r.
  - rewrite IH. cbn. by rewrite <-app_assoc.
Qed.

Lemma score_figure_planners enabled self selected names index :
  Forall (λ g, Forall (λ p, p ∈ enabled) (glyph_planners g))
    (Figure.renderers
       (score_figure env self (group_by_metric enabled selected) names index).2).
Proof.
  unfold score_figure, _render_scenario_metric_score_scatter. cbn [snd].
  rewrite foldl_add_glyph_renderers. cbn [_render_scalar_figure Figure.renderers app].
  apply Forall_fmap.
  eapply Forall_impl;
    [apply (scatter_data_sources_planners (λ p, p ∈ enabled))|by intros [k s]].
  apply Forall_fmap, Forall_forall. intros m _. cbn.
  destruct (od_get m _) as [xs|] eqn:Hget; cbn; [|done].
  apply od_get_Some_elem in Hget.
  pose proof (group_by_metric_enabled enabled selected) as Hall.
  rewrite Forall_forall in Hall. by apply (Hall _ Hget).
Qed.

Lemma render_scenario_metric_score_planners self :
  Forall (λ figure : string * Figure.t,
            Forall (λ g, Forall (λ p, p ∈ enable_planner_names self)
                           (glyph_planners g))
                   (Figure.renderers figure.2))
         (_render_scenario_metric_score env self).1.
Proof.
  unfold _render_scenario_metric_score.
  destruct (_ || _); cbn [fst]; [done|].
  apply Forall_fmap, Forall_forall. intros index _.
  apply score_figure_planners.
Qed.

(** *** Time series figures *)

Lemma filter_time_series_spec enabled
    (time_series_data : list (string * list ScenarioTimeSeriesData.t)) :
  Forall (λ kv : string * list ScenarioTimeSeriesData.t,
            Forall (λ data, ScenarioTimeSeriesData.planner_name data ∈ enabled
                            ∧ ∃ item, item ∈ time_series_data ∧ data ∈ item.2)
                   kv.2)
         (filter_time_series enabled time_series_data).
Proof.
  unfold filter_time_series.
  apply (foldl_invariant _ (λ item, item ∈ time_series_data)); [|done|].
  - intros filtered item Hf Hitem.
    apply (foldl_invariant _ (λ data, data ∈ item.2)); [|done|].
    + intros acc data Hacc Hdata. case_bool_decide; [|done].
      apply od_append_Forall; [|done]. split; [done|]. by exists item.
    + by apply Forall_forall.
  - by apply Forall_forall.
Qed.

Lemma render_time_series_lines (P : ScenarioTimeSeriesData.t → Prop) self data :
  Forall (λ kv : string * list ScenarioTimeSeriesData.t, Forall P kv.2) data →
  Forall (λ figure : string * Figure.t,
            Forall (λ g, ∃ d, P d ∧ g = time_series_line env self d)
                   (Figure.renderers figure.2))
         (_render_time_series env self data).
Proof.
  intros Hdata. unfold _render_time_series.
  apply (foldl_invariant _
           (λ item : string * list ScenarioTimeSeriesData.t, Forall P item.2));
    [|done|exact Hdata].
  intros figures0 item Hf0 Hitem.
  apply (foldl_invariant _ P); [|done|exact Hitem].
  intros figures d Hf Hd. unfold render_time_series_data.
  destruct (ScenarioTimeSeriesData.time_series_values d); [done|].
  apply (od_alter_Forall
           (λ f, Forall (λ g, ∃ d, P d ∧ g = time_series_line env self d)
                        (Figure.renderers f))).
  - intros fig Hfig. cbn. apply Forall_app. split; [done|].
    constructor; [|done]. by exists d.
  - by apply (od_setdefault_Forall
           (λ f, Forall (λ g, ∃ d, P d ∧ g = time_series_line env self d)
                        (Figure.renderers f))).
Qed.
End render_facts.

(** ** [_click_planner_checkbox_group] *)

Section click_facts.
Variable env : Services.t.
Import ScenarioTab.

(** C8, amended.  The handler of the planner checkboxes keeps
    [_time_series_data] and [_simulation_figure_data]; every bucket of
    [_scenario_metric_score_data] reads as before, the dictionary itself being
    unchanged or extended by the entry the read of the selected bucket
    creates, and unchanged when that bucket exists; the handler does not read
    the raw tables; the three layouts show the stored data filtered to the
    enabled planners, and no glyph of the new figures comes from a planner
    that is not enabled. *)
Theorem click_planner_checkbox_group_refilters self :
  let self' := _click_planner_checkbox_group env self in
  let enabled := enable_planner_names self in
  let log_name := Select.value (scalar_log_name_select self) in
  let scenario_name := Select.value (scalar_scenario_name_select self) in
  let score_figures := (_render_scenario_metric_score env self).1 in
  let time_series_figures :=
    _render_time_series env self
      (filter_time_series enabled (time_series_data self)) in
  let simulations :=
    filter (λ data, SimulationFigureData.planner_name data ∈ enabled)
           (simulation_figure_data self) in
  (* the stored data *)
  time_series_data self' = time_series_data self
  ∧ simulation_figure_data self' = simulation_figure_data self
  ∧ (∀ l s, bucket (scenario_metric_score_data self') l s
            = bucket (scenario_metric_score_data self) l s)
  ∧ (scenario_metric_score_data self' = scenario_metric_score_data self
     ∨ scenario_metric_score_data self'
       = touch (scenario_metric_score_data self) log_name scenario_name)
  ∧ (∀ inner b,
       scenario_metric_score_data self !! log_name = Some inner →
       inner !! scenario_name = Some b →
       scenario_metric_score_data self' = scenario_metric_score_data self)
  (* the raw tables are not read *)
  ∧ (∀ aggregators statistics,
       _click_planner_checkbox_group env
         (with_experiment_file_data
            (with_raw_dataframes aggregators statistics
               (experiment_file_data self)) self)
       = with_experiment_file_data
           (with_raw_dataframes aggregators statistics
              (experiment_file_data self)) self')
  (* the layouts show the stored data of the enabled planners *)
  ∧ scenario_score_layout self'
    = layout (_render_scenario_metric_layout env score_figures
                default_scenario_score_div
                (Services.scenario_metric_score_figure_sizes env).1 false)
  ∧ time_series_layout self'
    = layout (_render_scenario_metric_layout env time_series_figures
                default_time_series_div
                (Services.plot_sizes env (window_width self)
                   (window_height self)).1 true)
  ∧ simulation_tile_layout self'
    = layout (match SimulationFigureData.plot <$> simulations with
              | [] => column_div default_simulation_div
              | _ :: _ =>
                  gridplot (SimulationFigureData.plot <$> simulations)
                    (Services.get_plot_cols env
                       (Services.simulation_figure_sizes env
                          (window_width self) (window_height self)).1)
                    None false
              end)
  (* no series of a disabled planner *)
  ∧ Forall (λ figure : string * Figure.t,
              Forall (λ g, Forall (λ p, p ∈ enabled) (glyph_planners g))
                     (Figure.renderers figure.2)) score_figures
  ∧ Forall (λ figure : string * Figure.t,
              Forall (λ g, ∃ data,
                        (ScenarioTimeSeriesData.planner_name data ∈ enabled
                         ∧ ∃ item, item ∈ time_series_data self
                                   ∧ data ∈ item.2)
                        ∧ g = time_series_line env self data)
                     (Figure.renderers figure.2)) time_series_figures
  ∧ Forall (λ data, SimulationFigureData.planner_name data ∈ enabled)
           simulations.
Proof.
  intros self' enabled log_name scenario_name score_figures
    time_series_figures simulations.
  destruct (render_scenario_metric_score_tab env self) as (data & Hsnd & Hdata).
  assert (self' =
    with_simulation_tile_layout
      (layout (match SimulationFigureData.plot <$> simulations with
               | [] => column_div default_simulation_div
               | _ :: _ =>
                   gridplot (SimulationFigureData.plot <$> simulations)
                     (Services.get_plot_cols env
                        (Services.simulation_figure_sizes env
                           (window_width self) (window_height self)).1)
                     None false
               end))
      (with_time_series_layout
         (layout (_render_scenario_metric_layout env time_series_figures
                    default_time_series_div
                    (Services.plot_sizes env (window_width self)
                       (window_height self)).1 true))
         (with_scenario_score_layout
            (layout (_render_scenario_metric_layout env score_figures
                       default_scenario_score_div
                       (Services.scenario_metric_score_figure_sizes env).1
                       false))
            (with_scenario_metric_score_data data self)))) as Hself'.
  { subst self' score_figures time_series_figures simulations enabled.
    unfold _click_planner_checkbox_group.
    destruct (_render_scenario_metric_score env self) as [figures s1].
    cbn [fst snd] in *. subst s1. by destruct self. }
  assert (∀ l s, bucket data l s = bucket (scenario_metric_score_data self) l s)
    as Hbucket.
  { intros l s. destruct Hdata as [->|(_ & _ & _ & ->)]; [done|].
    apply bucket_touch. }
  split_and!.
  - rewrite Hself'. by destruct self.
  - rewrite Hself'. by destruct self.
  - rewrite Hself'. by destruct self.
  - rewrite Hself'. destruct Hdata as [->|(_ & _ & _ & ->)];
      [left|right]; by destruct self.
  - intros inner b Hinner Hb. rewrite Hself'.
    destruct Hdata as [->|(_ & _ & _ & ->)]; [by destruct self|].
    rewrite (touch_id _ _ _ inner b) by done. by destruct self.
  - intros aggregators statistics. subst self'.
    destruct self as [[] ? ? ? ? ? ? ? ? ? ? ? ? ? ? ? ?].
    unfold _click_planner_checkbox_group, _render_scenario_metric_score,
      with_raw_dataframes.
    tab_simpl. destruct (_ || _); reflexivity.
  - rewrite Hself'. by destruct self.
  - rewrite Hself'. by destruct self.
  - rewrite Hself'. by destruct self.
  - apply render_scenario_metric_score_planners.
  - apply render_time_series_lines, filter_time_series_spec.
  - apply Forall_forall. by intros d [Hd _]%list_elem_of_filter.
Qed.
End click_facts.

(** ** The selection cascade *)

Section cascade_facts.
Variable env : Services.t.
Import ScenarioTab.

(** The handler of the scenario name, run on an empty name: only the
    planner names, the stored series, the layouts and the pending callbacks
    change. *)
Lemma scenario_name_on_change_empty attr old new self :
  length (Select.tags (scalar_scenario_name_select self)) ≠ 1%nat →
  Select.value (scalar_scenario_name_select self) = "" →
  ∃ self',
    _scalar_scenario_name_select_on_change env attr old new self = Ok self'
    ∧ scalar_scenario_type_select self' = scalar_scenario_type_select self
    ∧ scalar_log_name_select self' = scalar_log_name_select self
    ∧ scalar_scenario_name_select self' = scalar_scenario_name_select self.
Proof.
  intros Htags Hname. unfold _scalar_scenario_name_select_on_change.
  assert (∃ s, match Select.tags (scalar_scenario_name_select self) with
               | [] => Ok self
               | [_] => Raise IndexError
               | width :: height :: _ => Ok (with_window width height self)
               end = Ok s
               ∧ ∃ w h, s = with_window w h self) as (s & -> & w & h & ->).
  { destruct (Select.tags _) as [|w [|h ?]]; [|done|].
    - exists self. split; [done|].
      exists (window_width self), (window_height self). by destruct self.
    - eexists. split; [done|]. by eexists _, _. }
  cbn [mbind result_bind].
  rewrite update_planner_names_eq.
  match goal with
  | |- context [_update_scenario_plot env ?s] =>
      destruct (update_scenario_plot_Ok env s []) as (data & sims & ->)
  end.
  { unfold _aggregate_time_series_data.
    rewrite decide_True; [done|]. destruct self; cbn in *. by rewrite Hname. }
  eexists. split; [done|]. by destruct self.
Qed.

(** C3, amended.  A change of the scenario type to a non-empty value resets
    the log name to unset, with the log names of that type as its options,
    and leaves the scenario-name selector as it was; a change of the log name
    to a non-empty value resets the scenario name to unset, with the scenario
    names of that log as its options. *)
Theorem selection_cascade_clears_next_selector attr old new self :
  new ≠ "" →
  (∃ self',
     _scalar_scenario_type_select_on_change env attr old new self = Ok self'
     ∧ Select.value (scalar_log_name_select self') = ""
     ∧ Select.options (scalar_log_name_select self')
       = "" :: Services.load_log_name env (experiment_file_data self)
                 (Select.value (scalar_scenario_type_select self))
     ∧ scalar_scenario_name_select self' = scalar_scenario_name_select self
     ∧ scalar_scenario_type_select self' = scalar_scenario_type_select self)
  ∧ (length (Select.tags (scalar_scenario_name_select self)) ≠ 1%nat →
     ∃ self',
       _scalar_log_name_select_on_change env attr old new self = Ok self'
       ∧ Select.value (scalar_scenario_name_select self') = ""
       ∧ Select.options (scalar_scenario_name_select self')
         = "" :: Services.load_scenario_names env (experiment_file_data self)
                   (Select.value (scalar_scenario_type_select self))
                   (Select.value (scalar_log_name_select self))
       ∧ scalar_log_name_select self' = scalar_log_name_select self
       ∧ scalar_scenario_type_select self' = scalar_scenario_type_select self).
Proof.
  intros Hnew. split.
  - unfold _scalar_scenario_type_select_on_change.
    rewrite decide_False by done.
    unfold assign_log_name_value. case_decide as Hold.
    + eexists. split; [done|].
      destruct self as [? ? ? [] ? ? ? ? ? ? ? ? ? ? ? ? ?].
      by tab_simpl.
    + unfold _scalar_log_name_select_on_change. rewrite decide_True by done.
      eexists. split; [done|]. by destruct self.
  - intros Htags. unfold _scalar_log_name_select_on_change.
    rewrite decide_False by done.
    unfold assign_scenario_name_value. case_decide as Hold.
    + eexists. split; [done|].
      destruct self as [? ? ? ? [] ? ? ? ? ? ? ? ? ? ? ? ?].
      by tab_simpl.
    + match goal with
      | |- context [_scalar_scenario_name_select_on_change env ?a ?o ?n ?s] =>
          destruct (scenario_name_on_change_empty a o n s)
            as (self' & -> & Htype & Hlog & Hscen)
      end.
      { by destruct self. }
      { by destruct self. }
      exists self'. split; [done|].
      rewrite Htype, Hlog, Hscen. by destruct self.
Qed.
End cascade_facts.

(** ** The raster model *)

(** *** Views of freshly allocated tensors *)

Lemma numel_app (l k : list N) :
  Tensor.numel (l ++ k) = (Tensor.numel l * Tensor.numel k)%N.
Proof.
  unfold Tensor.numel. induction l as [|d l IH]; cbn [foldr app]; [lia|].
  rewrite IH. lia.
Qed.

Lemma numel_reverse (l : list N) : Tensor.numel (reverse l) = Tensor.numel l.
Proof.
  induction l as [|d l IH]; [done|].
  rewrite reverse_cons, numel_app, IH. unfold Tensor.numel. cbn [foldr]. lia.
Qed.

Lemma contiguous_stride_init (l : list N) (a : N) :
  foldr (λ d acc, (N.max d 1 * acc)%N) a l
  = (foldr (λ d acc, (N.max d 1 * acc)%N) 1 l * a)%N.
Proof. induction l as [|d l IH]; cbn [foldr]; [lia|]. rewrite IH. lia. Qed.

Lemma length_contiguous_strides (shape : list N) :
  length (Tensor.contiguous_strides shape) = length shape.
Proof. induction shape as [|d l IH]; cbn; [done|by rewrite IH]. Qed.

Lemma contiguous_strides_snoc (l : list N) (d : N) :
  Tensor.contiguous_strides (l ++ [d])
  = ((λ s, s * N.max d 1)%N <$> Tensor.contiguous_strides l) ++ [1%N].
Proof.
  induction l as [|x l IH]; [done|].
  cbn [app Tensor.contiguous_strides fmap list_fmap]. rewrite IH. f_equal.
  rewrite foldr_app. cbn [foldr]. rewrite contiguous_stride_init. lia.
Qed.

Lemma fill_chunk_contiguous (view : list N) :
  ∀ (view_numel tensor_numel : N) (newstride : list N),
    tensor_numel ≠ 0%N →
    (view_numel * Tensor.numel view)%N = tensor_numel →
    Tensor.fill_chunk 1 tensor_numel view_numel view newstride
    = (tensor_numel, [],
       ((λ s, s * view_numel)%N <$> Tensor.contiguous_strides (reverse view))
         ++ newstride).
Proof.
  induction view as [|d view IH]; intros vn tn acc Htn Hnumel.
  - change (Tensor.numel []) with 1%N in Hnumel. cbn. f_equal. f_equal. lia.
  - change (Tensor.numel (d :: view)) with (d * Tensor.numel view)%N in Hnumel.
    cbn [Tensor.fill_chunk].
    assert (d ≠ 0%N) as Hd by (intros ->; lia).
    assert ((vn <? tn)%N || (d =? 1)%N = true) as ->.
    { destruct (vn <? tn)%N eqn:Hlt; [done|]. apply N.ltb_ge in Hlt.
      cbn [orb]. apply N.eqb_eq.
      assert (d * Tensor.numel view = 1)%N as Hone.
      { destruct (N.lt_trichotomy (d * Tensor.numel view) 1) as [?|[?|?]];
          [|done|]; nia. }
      by apply N.eq_mul_1 in Hone as [? _]. }
    rewrite IH by (done || lia).
    rewrite reverse_cons, contiguous_strides_snoc, fmap_app, <-list_fmap_compose.
    rewrite <-app_assoc. cbn [fmap list_fmap app]. f_equal. f_equal.
    + apply list_fmap_ext. intros _ s _. cbn. rewrite N.max_l by lia. lia.
    + f_equal. lia.
Qed.

Lemma view_chunks_contiguous (l : list N) :
  ∀ (size stride tensor_numel m : N) (view : list N),
    (tensor_numel * size)%N = m →
    (m * Tensor.numel l)%N ≠ 0%N →
    Tensor.numel view = (m * Tensor.numel l)%N →
    Tensor.view_chunks
      ((size, stride)
         :: reverse (zip l ((λ s, s * m)%N <$> Tensor.contiguous_strides l)))
      1 tensor_numel 1 view []
    = Some ([], Tensor.contiguous_strides (reverse view)).
Proof.
  induction l as [|d l IH] using rev_ind;
    intros size stride tn m view Hm Hne Hview.
  - cbn [zip zip_with reverse Tensor.view_chunks]. rewrite Hm.
    change (Tensor.numel []) with 1%N in *.
    rewrite (fill_chunk_contiguous view 1 m []) by lia.
    rewrite N.eqb_refl, app_nil_r. f_equal. f_equal.
    rewrite <-(list_fmap_id (Tensor.contiguous_strides (reverse view))) at 2.
    apply list_fmap_ext. intros _ s _. cbn. lia.
  - rewrite numel_app in Hne, Hview.
    change (Tensor.numel [d]) with (d * 1)%N in *.
    assert (d ≠ 0%N) as Hd by (intros ->; lia).
    rewrite contiguous_strides_snoc, fmap_app, <-list_fmap_compose.
    cbn [fmap list_fmap].
    rewrite zip_with_app
      by (by rewrite length_fmap, length_contiguous_strides).
    cbn [zip_with]. rewrite reverse_app. cbn [reverse app].
    change (reverse [(d, (1 * m)%N)]) with [(d, (1 * m)%N)]. cbn [app].
    cbn [Tensor.view_chunks]. rewrite Hm.
    assert ((1 * m =? m * 1)%N = true) as -> by (apply N.eqb_eq; lia).
    rewrite andb_false_r.
    replace (zip_with pair l
               ((λ s, s * m)%N ∘ (λ s, s * N.max d 1)%N
                  <$> Tensor.contiguous_strides l))
      with (zip l ((λ s, s * (m * d))%N <$> Tensor.contiguous_strides l)).
    2:{ unfold zip. f_equal. apply list_fmap_ext. intros _ s _. cbn.
        rewrite N.max_l by lia. lia. }
    apply (IH d (1 * m)%N m (m * d)%N view); [done|lia|lia].
Qed.

Lemma compute_stride_contiguous (oldshape newshape : list N) :
  oldshape ≠ [] →
  Tensor.numel newshape = Tensor.numel oldshape →
  Tensor.compute_stride oldshape (Tensor.contiguous_strides oldshape) newshape
  = Some (Tensor.contiguous_strides newshape).
Proof.
  intros Hne Hnumel. unfold Tensor.compute_stride.
  destruct oldshape as [|d0 rest0] eqn:Hold; [done|]. rewrite <-Hold in *.
  destruct (Tensor.numel oldshape =? 0)%N eqn:Hzero.
  - case_decide as Heq; [by rewrite Heq|done].
  - apply N.eqb_neq in Hzero. clear d0 rest0 Hold.
    destruct oldshape as [|d l _] using rev_ind; [done|].
    rewrite numel_app in Hzero, Hnumel.
    change (Tensor.numel [d]) with (d * 1)%N in *.
    assert (d ≠ 0%N) as Hd by (intros ->; lia).
    rewrite contiguous_strides_snoc, last_snoc. cbn [default].
    rewrite zip_with_app
      by (by rewrite length_fmap, length_contiguous_strides).
    cbn [zip_with]. rewrite reverse_app. cbn [app].
    change (reverse [(d, 1%N)]) with [(d, 1%N)]. cbn [app].
    replace (zip_with pair l
               ((λ s, s * N.max d 1)%N <$> Tensor.contiguous_strides l))
      with (zip l ((λ s, s * d)%N <$> Tensor.contiguous_strides l)).
    2:{ unfold zip. f_equal. apply list_fmap_ext. intros _ s _. cbn.
        by rewrite N.max_l by lia. }
    change (id 1%N) with 1%N.
    rewrite (view_chunks_contiguous l d 1 1 d (reverse newshape));
      [by rewrite reverse_involutive|lia|lia|rewrite numel_reverse; lia].
Qed.

Section raster_facts.
Variable state_size : N.
Variable layer_values fc2_values : list float → list float.
Variable layer_strides : Tensor.t → list N → list N.

Lemma infer_size_divides (d0 rest d : N) :
  (0 < d0)%N → (0 < d)%N → (rest `mod` d = 0)%N →
  Tensor.infer_size (d0 * rest) (d0 * d) = Ok (rest `div` d)%N.
Proof.
  intros Hd0 Hd Hmod. unfold Tensor.infer_size.
  assert ((d0 * rest) `mod` (d0 * d) = 0)%N as Hm.
  { rewrite N.Div0.mul_mod_distr_l. rewrite Hmod. lia. }
  rewrite Hm.
  assert ((0 <? d0 * d)%N = true) as -> by (apply N.ltb_lt; lia).
  rewrite N.eqb_refl, orb_true_r.
  assert ((d0 * d =? 0)%N = false) as -> by (apply N.eqb_neq; lia).
  f_equal. apply N.Div0.div_mul_cancel_l. lia.
Qed.

Lemma convert_predictions_to_trajectory_Ok predictions n rest :
  Tensor.shape predictions = n :: rest →
  Tensor.strides predictions
  = Tensor.contiguous_strides (Tensor.shape predictions) →
  (0 < n)%N → (0 < state_size)%N →
  (Tensor.numel rest `mod` state_size = 0)%N →
  convert_predictions_to_trajectory state_size predictions
  = Ok (Tensor.mk [n; (Tensor.numel rest `div` state_size)%N; state_size]
          (Tensor.contiguous_strides
             [n; (Tensor.numel rest `div` state_size)%N; state_size])
          (Tensor.data predictions)).
Proof.
  intros Hshape Hstrides Hn Hs Hmod.
  unfold convert_predictions_to_trajectory, Tensor.size0, Tensor.view3.
  rewrite Hshape. cbn [mbind result_bind].
  change (Tensor.numel (n :: rest)) with (n * Tensor.numel rest)%N.
  rewrite infer_size_divides by done. cbn [mbind result_bind].
  unfold Tensor.view. rewrite Hstrides, Hshape.
  rewrite compute_stride_contiguous; [done|done|].
  change (Tensor.numel (n :: rest)) with (n * Tensor.numel rest)%N.
  change (Tensor.numel [n; (Tensor.numel rest `div` state_size)%N; state_size])
    with (n * ((Tensor.numel rest `div` state_size) * (state_size * 1)))%N.
  pose proof (N.Div0.div_mod (Tensor.numel rest) state_size) as Hdiv.
  rewrite Hmod in Hdiv. rewrite Hdiv at 2. lia.
Qed.

Lemma spatial_out (size : N) :
  (2 <= size)%N →
  conv_out size ≫= pool_out = Ok (size `div` 2)%N.
Proof.
  intros Hsize. unfold conv_out.
  assert ((5 <=? size + 2 * 2)%N = true) as -> by (apply N.leb_le; lia).
  cbn [mbind result_bind]. unfold pool_out.
  rewrite N.div_1_r.
  assert ((2 <=? size + 2 * 2 - 5 + 1)%N = true) as -> by (apply N.leb_le; lia).
  f_equal. replace (size + 2 * 2 - 5 + 1 - 2)%N with (size - 2)%N by lia.
  replace size with (size - 2 + 1 * 2)%N at 2 by lia.
  rewrite N.div_add by done. lia.
Qed.

Lemma layer_batch raster n h w :
  Tensor.shape raster = [n; 4%N; h; w] → (2 <= h)%N → (2 <= w)%N →
  layer layer_values layer_strides raster
  = Ok (Tensor.mk [n; 32%N; (h `div` 2)%N; (w `div` 2)%N]
          (layer_strides raster [n; 32%N; (h `div` 2)%N; (w `div` 2)%N])
          (layer_values (Tensor.data raster))).
Proof.
  intros Hshape Hh Hw. unfold layer. rewrite Hshape. cbn [N.eqb Pos.eqb].
  pose proof (spatial_out h Hh) as Hh'. pose proof (spatial_out w Hw) as Hw'.
  unfold conv_out in *.
  destruct (5 <=? h + 2 * 2)%N; [|done].
  destruct (5 <=? w + 2 * 2)%N; [|done].
  cbn [mbind result_bind] in *.
  destruct (pool_out _) as [h'|]; [|done]. injection Hh' as ->.
  destruct (pool_out _) as [w'|]; [|done]. injection Hw' as ->.
  done.
Qed.

Lemma reshape_shape (x : Tensor.t) (newshape : list N) :
  Tensor.shape (Tensor.reshape x newshape) = newshape
  ∧ Tensor.data (Tensor.reshape x newshape) = Tensor.data x.
Proof. unfold Tensor.reshape. by destruct (Tensor.compute_stride _ _ _). Qed.

(** C10, amended.  On predictions of shape [(n, ...)] with [n] at least 1,
    laid out in storage as a freshly allocated tensor is, whose elements per
    batch entry are a multiple of a positive [Trajectory.state_size()],
    [convert_predictions_to_trajectory] returns the same elements under the
    shape [(n, k, state_size)]; and [forward] returns such a trajectory on a
    raster batch [(n, 4, h, w)] with [n] at least 1 whose pooled image has
    [112 * 112] cells, when [num_poses * num_features_per_pose] is a multiple
    of the state size, whatever the memory layouts of the raster and of the
    output of the convolution are. *)
Theorem convert_predictions_to_trajectory_shape :
  (∀ predictions n rest,
     Tensor.shape predictions = n :: rest →
     Tensor.strides predictions
     = Tensor.contiguous_strides (Tensor.shape predictions) →
     (0 < n)%N → (0 < state_size)%N →
     (Tensor.numel rest `mod` state_size = 0)%N →
     ∃ trajectory,
       convert_predictions_to_trajectory state_size predictions = Ok trajectory
       ∧ Tensor.shape trajectory
         = [n; (Tensor.numel rest `div` state_size)%N; state_size]
       ∧ Tensor.strides trajectory
         = Tensor.contiguous_strides (Tensor.shape trajectory)
       ∧ Tensor.data trajectory = Tensor.data predictions
       ∧ Tensor.numel (Tensor.shape trajectory)
         = Tensor.numel (Tensor.shape predictions))
  ∧ (∀ num_features_per_pose num_poses features raster n h w,
       features !! "raster" = Some raster →
       Tensor.shape raster = [n; 4%N; h; w] →
       (0 < n)%N → ((h `div` 2) * (w `div` 2) = 112 * 112)%N →
       (0 < state_size)%N →
       ((num_poses * num_features_per_pose) `mod` state_size = 0)%N →
       ∃ trajectory,
         forward state_size layer_values fc2_values layer_strides
           (__init__ num_features_per_pose num_poses) features = Ok trajectory
         ∧ Tensor.shape trajectory
           = [n; ((num_poses * num_features_per_pose) `div` state_size)%N;
              state_size]).
Proof.
  split.
  - intros predictions n rest Hshape Hstrides Hn Hs Hmod.
    rewrite (convert_predictions_to_trajectory_Ok _ n rest) by done.
    eexists. split; [done|].
    cbn [Tensor.shape Tensor.data Tensor.strides]. split_and!; try done.
    rewrite Hshape.
    change (Tensor.numel (n :: rest)) with (n * Tensor.numel rest)%N.
    change (Tensor.numel [n; (Tensor.numel rest `div` state_size)%N; state_size])
      with (n * ((Tensor.numel rest `div` state_size) * (state_size * 1)))%N.
    pose proof (N.Div0.div_mod (Tensor.numel rest) state_size) as Hdiv.
    rewrite Hmod in Hdiv. rewrite Hdiv at 2. lia.
  - intros nfpp num_poses features raster n h w Hraster Hshape Hn Hhw Hs Hmod.
    unfold forward. rewrite Hraster.
    assert (2 <= h)%N as Hh.
    { destruct (decide (2 <= h)%N) as [|Hlt]; [done|].
      rewrite (N.div_small h 2) in Hhw by lia. lia. }
    assert (2 <= w)%N as Hw.
    { destruct (decide (2 <= w)%N) as [|Hlt]; [done|].
      rewrite (N.div_small w 2) in Hhw by lia. lia. }
    rewrite (layer_batch raster n h w) by done.
    cbn [mbind result_bind Tensor.size0 Tensor.shape].
    unfold Tensor.reshape2. cbn [Tensor.shape].
    change (Tensor.numel [n; 32%N; (h `div` 2)%N; (w `div` 2)%N])
      with (n * (32 * ((h `div` 2) * ((w `div` 2) * 1))))%N.
    rewrite N.mul_1_r, Hhw.
    assert (Tensor.infer_size (n * (32 * (112 * 112))) n
            = Ok (112 * 112 * 32)%N) as ->.
    { pose proof (infer_size_divides n (32 * (112 * 112)) 1) as Hinfer.
      rewrite N.mul_1_r, N.div_1_r in Hinfer.
      apply Hinfer; [done|done|apply N.mod_1_r]. }
    cbn [mbind result_bind]. unfold fc2.
    destruct (reshape_shape
                (Tensor.mk [n; 32%N; (h `div` 2)%N; (w `div` 2)%N]
                   (layer_strides raster
                      [n; 32%N; (h `div` 2)%N; (w `div` 2)%N])
                   (layer_values (Tensor.data raster)))
                [n; (112 * 112 * 32)%N]) as [-> ->].
    rewrite N.eqb_refl. cbn [mbind result_bind].
    rewrite (convert_predictions_to_trajectory_Ok _ n
               [num_output_features (__init__ nfpp num_poses)]);
      [|done|done|done|done|].
    + eexists. split; [done|]. cbn [Tensor.shape].
      change (Tensor.numel [num_output_features (__init__ nfpp num_poses)])
        with (num_poses * nfpp * 1)%N. by rewrite N.mul_1_r.
    + change (Tensor.numel [num_output_features (__init__ nfpp num_poses)])
        with (num_poses * nfpp * 1)%N. by rewrite N.mul_1_r.
Qed.
End raster_facts.


(** * Further facts *)

Lemma for_each_invariant {A S : Type} (I : S → Prop)
    (body : A → S → result S) (l : list A) :
  (∀ x s s', x ∈ l → I s → body x s = Ok s' → I s') →
  ∀ s s', I s → for_each body l s = Ok s' → I s'.
Proof.
  induction l as [|x l IH]; intros Hbody s s' HI; cbn [for_each].
  - by intros [= <-].
  - destruct (body x s) as [s1|] eqn:Hx; [|done]. cbn [mbind result_bind].
    apply IH; [|by eapply Hbody; [left|..]].
    intros y t t' Hy. apply Hbody. by right.
Qed.

Lemma for_each_Ok_iff {A S : Type} (Q : A → Prop)
    (body : A → S → result S) (l : list A) :
  (∀ x s, x ∈ l → (∃ s', body x s = Ok s') ↔ Q x) →
  ∀ s, (∃ s', for_each body l s = Ok s') ↔ Forall Q l.
Proof.
  induction l as [|x l IH]; intros Hbody s; cbn [for_each].
  - split; [by constructor|by eexists].
  - rewrite Forall_cons_iff, <-(Hbody x s) by left.
    destruct (body x s) as [s1|e] eqn:Hx; cbn [mbind result_bind].
    + rewrite IH by (intros y t Hy; apply Hbody; by right). 
      split; [intros ?; split; [by eexists|done]|by intros [_ ?]].
    + split; [by intros [? ?]|by intros [[? ?] _]].
Qed.

Lemma elem_of_zip_seq {A : Type} (l : list A) (n i : nat) (x : A) :
  (i, x) ∈ zip (seq n (length l)) l ↔ (n ≤ i)%nat ∧ l !! (i - n)%nat = Some x.
Proof.
  revert n. induction l as [|y l IH]; intros n; cbn.
  - rewrite elem_of_nil. naive_solver.
  - rewrite elem_of_cons, IH. split.
    + intros [[= -> ->]|[Hle Hl]].
      * split; [lia|]. by rewrite Nat.sub_diag.
      * split; [lia|]. by replace (i - n)%nat with (S (i - S n)) by lia.
    + intros [Hle Hl]. destruct (decide (i = n)) as [->|Hne].
      * left. rewrite Nat.sub_diag in Hl. cbn in Hl. congruence.
      * right. split; [lia|].
        by replace (i - n)%nat with (S (i - S n)) in Hl by lia.
Qed.

Lemma elem_of_enumerate {A : Type} (l : list A) (i : nat) (x : A) :
  (i, x) ∈ enumerate l ↔ l !! i = Some x.
Proof.
  unfold enumerate. rewrite elem_of_zip_seq, Nat.sub_0_r.
  split; [by intros [_ ?]|]. split; [lia|done].
Qed.

Lemma lookup_bucket_append log_name scenario_name x data l s entries :
  default ∅ (bucket_append log_name scenario_name x data !! l) !! s
  = Some entries →
  (l = log_name ∧ s = scenario_name
   ∧ entries = bucket data log_name scenario_name ++ [x])
  ∨ default ∅ (data !! l) !! s = Some entries.
Proof.
  unfold bucket_append.
  destruct (decide (l = log_name)) as [->|Hl].
  - rewrite lookup_insert_eq. cbn.
    destruct (decide (s = scenario_name)) as [->|Hs].
    + rewrite lookup_insert_eq. intros [= <-]. by left.
    + rewrite lookup_insert_ne by done. by right.
  - rewrite lookup_insert_ne by done. by right.
Qed.

Section provenance.
Variable env : Services.t.
Variable efd : ExperimentFileData.t.
Variable active_index : list nat.

Local Abbreviation all_stored_from := (all_stored_from env efd active_index).

Lemma scan_row_stored_from index files file_index fname df row_data data data' :
  index ∈ active_index →
  ExperimentFileData.metric_aggregator_dataframes efd !! index = Some files →
  files !! file_index = Some (fname, df) →
  row_data ∈ DataFrame.iterrows df →
  all_stored_from data →
  scan_row env index file_index fname (metric_columns_of df) row_data data
  = Ok data' →
  all_stored_from data'.
Proof.
  intros Hactive Hfiles Hfile Hrow Hdata. unfold scan_row, row_str, row_get.
  destruct (row_data !! "num_scenarios") as [[|nan|]|] eqn:Hnum; try done.
  cbn [mbind result_bind np_isnan].
  destruct (PrimFloat.is_nan nan) eqn:Hnan; cbn [negb]; [|by intros [= <-]].
  destruct (row_data !! "planner_name") as [[| |planner]|] eqn:Hplanner;
    try done.
  destruct (row_data !! "scenario") as [[| |scen]|] eqn:Hscen; try done.
  destruct (row_data !! "log_name") as [[| |log]|] eqn:Hlog; try done.
  cbn [mbind result_bind].
  apply for_each_invariant; [|done].
  intros c d d' Hc Hd. unfold scan_metric_column, row_get.
  destruct (row_data !! c) as [[|f|]|] eqn:Hcell; try done;
    cbn [mbind result_bind is_not_None np_round_cell]; [by intros [= <-]|].
  intros [= <-] l s entries Hentries.
  apply lookup_bucket_append in Hentries as [(-> & -> & ->)|Hold];
    [|by apply Hd].
  split; [by destruct (bucket d log scen)|].
  apply Forall_app. split.
  - unfold bucket. destruct (default ∅ (d !! log) !! scen) as [old|] eqn:Hold;
      [|by constructor].
    by apply Hd.
  - apply Forall_singleton.
    apply elem_of_sorted_set, elem_of_difference in Hc as [Hc Hreserved].
    apply elem_of_list_to_set in Hc.
    exists files, df, row_data, nan. cbn.
    unfold entry_of_row. cbn. split_and!; try done. by exists f.
Qed.

Lemma update_aggregation_metric_stored_from self data :
  ScenarioTab.experiment_file_data self = efd →
  ScenarioTab.experiment_file_active_index self = active_index →
  _update_aggregation_metric env self = Ok data →
  all_stored_from data.
Proof.
  intros Hefd Hindex. unfold _update_aggregation_metric.
  apply for_each_invariant; [|by intros l s entries; rewrite lookup_empty].
  intros [index files] d d' Hfiles%elem_of_enumerate Hd.
  unfold scan_experiment. case_bool_decide as Hactive; [|by intros [= <-]].
  revert d d' Hd. apply for_each_invariant.
  intros [file_index [fname df]] d d' Hfile%elem_of_enumerate Hd.
  cbn [scan_file]. revert d d' Hd. apply for_each_invariant.
  intros row_data d d' Hrow Hd Hscan.
  eapply (scan_row_stored_from index files file_index fname df row_data d d');
    [by rewrite <-Hindex|by rewrite <-Hefd|done..].
Qed.
End provenance.

Section rebuild_returns.
Variable env : Services.t.

Lemma scan_metric_column_Ok_iff index file_index fname planner scen log row c data :
  (∃ data', scan_metric_column env index file_index fname planner scen log
              row c data = Ok data')
  ↔ score_cell (row !! c).
Proof.
  unfold scan_metric_column, row_get, score_cell.
  destruct (row !! c) as [[|f|]|]; cbn; split;
    try (by intros [? ?]); try (by eexists); try (by intros [?|[? ?]]).
  - by left.
  - right. by exists f.
Qed.

Lemma scan_row_Ok_iff index file_index fname cols row_data data :
  (∃ data', scan_row env index file_index fname cols row_data data = Ok data')
  ↔ row_well_formed cols row_data.
Proof.
  unfold scan_row, row_well_formed, row_str, row_get.
  destruct (row_data !! "num_scenarios") as [[|nan|]|];
    cbn [mbind result_bind np_isnan];
    try (split; [by intros [? ?]|by intros (? & ? & _)]).
  destruct (PrimFloat.is_nan nan) eqn:Hnan; cbn [negb].
  2:{ split; [|by eexists]. intros _. exists nan. split; [done|].
      intros Hnan'. congruence. }
  destruct (row_data !! "planner_name") as [[| |planner]|];
    cbn [mbind result_bind];
    try (split; [by intros [? ?]
                |intros (? & [= <-] & Hrow);
                 by destruct (Hrow Hnan) as ([? ?] & _)]).
  destruct (row_data !! "scenario") as [[| |scen]|];
    cbn [mbind result_bind];
    try (split; [by intros [? ?]
                |intros (? & [= <-] & Hrow);
                 by destruct (Hrow Hnan) as (_ & [? ?] & _)]).
  destruct (row_data !! "log_name") as [[| |log]|];
    cbn [mbind result_bind];
    try (split; [by intros [? ?]
                |intros (? & [= <-] & Hrow);
                 by destruct (Hrow Hnan) as (_ & _ & [? ?] & _)]).
  rewrite (for_each_Ok_iff (λ c, score_cell (row_data !! c)))
    by (intros; apply scan_metric_column_Ok_iff).
  split.
  - intros Hcols. exists nan. split; [done|]. intros _.
    split_and!; by eauto.
  - intros (? & [= <-] & Hrow). by destruct (Hrow Hnan) as (_ & _ & _ & ?).
Qed.

Lemma Forall_enumerate {A : Type} (P : nat * A → Prop) (l : list A) :
  Forall P (enumerate l) ↔ ∀ i x, l !! i = Some x → P (i, x).
Proof.
  rewrite Forall_forall. split.
  - intros H i x Hx. by apply H, elem_of_enumerate.
  - intros H [i x] Hx%elem_of_enumerate. by apply H.
Qed.

End rebuild_returns.

Lemma for_each_zip_agree {A St : Type} (P : nat → Prop) `{!∀ i, Decision (P i)}
    (body : nat * A → St → result St) :
  (∀ i x y s, ¬ P i → body (i, x) s = body (i, y) s) →
  ∀ (l l' : list A) (ns : list nat) s,
    length l = length l' →
    (∀ k i, ns !! k = Some i → P i → l !! k = l' !! k) →
    for_each body (zip ns l) s = for_each body (zip ns l') s.
Proof.
  intros Hbody. induction l as [|x l IH]; intros [|y l'] [|i ns] s Hlen Hagree;
    try done.
  cbn [zip zip_with for_each].
  assert (body (i, x) s = body (i, y) s) as ->.
  { destruct (decide (P i)) as [Hi|Hi].
    - specialize (Hagree 0%nat i eq_refl Hi). cbn in Hagree. congruence.
    - by apply Hbody. }
  destruct (body (i, y) s); cbn [mbind result_bind]; [|done].
  apply IH; [by injection Hlen|].
  intros k j Hk Hj. by apply (Hagree (S k) j).
Qed.

Lemma for_each_enumerate_agree {A St : Type} (P : nat → Prop)
    `{!∀ i, Decision (P i)} (body : nat * A → St → result St) (l l' : list A) s :
  (∀ i x y s, ¬ P i → body (i, x) s = body (i, y) s) →
  length l = length l' →
  (∀ i, P i → l !! i = l' !! i) →
  for_each body (enumerate l) s = for_each body (enumerate l') s.
Proof.
  intros Hbody Hlen Hagree. unfold enumerate. rewrite <-Hlen.
  apply (for_each_zip_agree P); [done..|].
  intros k i [-> _]%lookup_seq. by apply Hagree.
Qed.

Section inactive_experiments.
Variable env : Services.t.
Import ScenarioTab.

Lemma update_aggregation_metric_active_only self aggregators statistics :
  length aggregators
  = length (ExperimentFileData.metric_aggregator_dataframes
              (experiment_file_data self)) →
  (∀ index, index ∈ experiment_file_active_index self →
     aggregators !! index
     = ExperimentFileData.metric_aggregator_dataframes
         (experiment_file_data self) !! index) →
  _update_aggregation_metric env
    (with_experiment_file_data
       (with_raw_dataframes aggregators statistics (experiment_file_data self))
       self)
  = _update_aggregation_metric env self.
Proof.
  intros Hlen Hagree. unfold _update_aggregation_metric.
  destruct self. tab_simpl. cbn [with_raw_dataframes
    ExperimentFileData.metric_aggregator_dataframes].
  apply (for_each_enumerate_agree (λ index, index ∈ experiment_file_active_index0));
    [|done..].
  intros index x y s Hindex. unfold scan_experiment.
  by rewrite bool_decide_eq_false_2.
Qed.

Lemma aggregate_time_series_data_active_only self aggregators statistics :
  length statistics
  = length (ExperimentFileData.metric_statistics_dataframes
              (experiment_file_data self)) →
  (∀ index, index ∈ experiment_file_active_index self →
     statistics !! index
     = ExperimentFileData.metric_statistics_dataframes
         (experiment_file_data self) !! index) →
  _aggregate_time_series_data env
    (with_experiment_file_data
       (with_raw_dataframes aggregators statistics (experiment_file_data self))
       self)
  = _aggregate_time_series_data env self.
Proof.
  intros Hlen Hagree. unfold _aggregate_time_series_data.
  destruct self. tab_simpl. cbn [with_raw_dataframes
    ExperimentFileData.metric_statistics_dataframes].
  case_decide; [done|].
  apply (for_each_enumerate_agree (λ index, index ∈ experiment_file_active_index0));
    [|done..].
  intros index x y s Hindex. unfold aggregate_experiment.
  tab_simpl. by rewrite bool_decide_eq_false_2.
Qed.

End inactive_experiments.

Lemma for_each_establishes {A St : Type} (K : St → Prop)
    (body : A → St → result St) (l : list A) (x : A) :
  x ∈ l →
  (∀ s s', body x s = Ok s' → K s') →
  (∀ y s s', y ∈ l → K s → body y s = Ok s' → K s') →
  ∀ s s', for_each body l s = Ok s' → K s'.
Proof.
  induction l as [|y l IH]; intros Hx Hbody Hkeep s s'; [by apply elem_of_nil in Hx|].
  cbn [for_each]. destruct (body y s) as [s1|] eqn:Hy; [|done].
  cbn [mbind result_bind].
  apply elem_of_cons in Hx as [->|Hx].
  - apply for_each_invariant; [|by eapply Hbody].
    intros z t t' Hz. apply Hkeep. by right.
  - apply IH; [done..|].
    intros z t t' Hz. apply Hkeep. by right.
Qed.

Lemma elem_of_bucket_bucket_append e data log scen l s x :
  e ∈ bucket data log scen → e ∈ bucket (bucket_append l s x data) log scen.
Proof.
  intros He. destruct (decide ((log, scen) = (l, s))) as [[= -> ->]|Hne].
  - rewrite bucket_bucket_append_eq. set_solver.
  - by rewrite bucket_bucket_append_ne.
Qed.

Section completeness.
Variable env : Services.t.

Lemma scan_metric_column_keeps e log scen
    index file_index fname planner s l row c data data' :
  e ∈ bucket data log scen →
  scan_metric_column env index file_index fname planner s l row c data
  = Ok data' →
  e ∈ bucket data' log scen.
Proof.
  intros He. unfold scan_metric_column.
  destruct (row_get row c) as [score|]; [|done]. cbn [mbind result_bind].
  destruct (is_not_None score); [|by intros [= <-]].
  destruct (np_round_cell env score); [|done]. cbn [mbind result_bind].
  intros [= <-]. by apply elem_of_bucket_bucket_append.
Qed.

Lemma scan_row_keeps e log scen index file_index fname cols row data data' :
  e ∈ bucket data log scen →
  scan_row env index file_index fname cols row data = Ok data' →
  e ∈ bucket data' log scen.
Proof.
  intros He. unfold scan_row.
  destruct (row_get row "num_scenarios") as [num|]; [|done].
  cbn [mbind result_bind].
  destruct (np_isnan num) as [[]|]; [| |done]; cbn [mbind result_bind negb];
    [|by intros [= <-]].
  destruct (row_str row "planner_name"); [|done]. cbn [mbind result_bind].
  destruct (row_str row "scenario"); [|done]. cbn [mbind result_bind].
  destruct (row_str row "log_name"); [|done]. cbn [mbind result_bind].
  apply (for_each_invariant (λ d, e ∈ bucket d log scen)); [|done].
  intros c d d' _. apply scan_metric_column_keeps.
Qed.

Lemma scan_file_keeps e log scen index file data data' :
  e ∈ bucket data log scen →
  scan_file env index file data = Ok data' →
  e ∈ bucket data' log scen.
Proof.
  destruct file as [file_index [fname df]]. cbn [scan_file]. intros He.
  apply (for_each_invariant (λ d, e ∈ bucket d log scen)); [|done].
  intros row d d' _. apply scan_row_keeps.
Qed.

Lemma scan_experiment_keeps e log scen active experiment data data' :
  e ∈ bucket data log scen →
  scan_experiment env active experiment data = Ok data' →
  e ∈ bucket data' log scen.
Proof.
  destruct experiment as [index files]. unfold scan_experiment. intros He.
  case_bool_decide; [|by intros [= <-]].
  apply (for_each_invariant (λ d, e ∈ bucket d log scen)); [|done].
  intros file d d' _. apply scan_file_keeps.
Qed.

Lemma update_aggregation_metric_complete self data log scen e :
  _update_aggregation_metric env self = Ok data →
  stored_from env (ScenarioTab.experiment_file_data self)
    (ScenarioTab.experiment_file_active_index self) log scen e →
  e ∈ bucket data log scen.
Proof.
  intros Hrun (files & df & row & nan & Hactive & Hfiles & Hfile & Hrow & Hnum
               & Hnan & Hlog & Hscen & Hcolumn & Hreserved & Hentry & Hplanner).
  destruct Hentry as (_ & _ & _ & _ & f & Hcell & Hscore).
  revert Hrun. unfold _update_aggregation_metric.
  apply (for_each_establishes (λ d, e ∈ bucket d log scen) _ _
           (ScenarioMetricScoreData.experiment_index e, files)).
  { by apply elem_of_enumerate. }
  2:{ intros experiment d d' _. apply scan_experiment_keeps. }
  intros d d'. unfold scan_experiment. rewrite bool_decide_eq_true_2 by done.
  apply (for_each_establishes (λ d, e ∈ bucket d log scen) _ _
           (ScenarioMetricScoreData.metric_aggregator_file_index e,
            (ScenarioMetricScoreData.metric_aggregator_file_name e, df))).
  { by apply elem_of_enumerate. }
  2:{ intros file t t' _. apply scan_file_keeps. }
  clear d d'. intros d d'. cbn [scan_file].
  apply (for_each_establishes (λ d, e ∈ bucket d log scen) _ _ row);
    [done| |by intros r t t' _; apply scan_row_keeps].
  clear d d'. intros d d'. unfold scan_row, row_str, row_get.
  rewrite Hnum, Hplanner, Hscen, Hlog. cbn [mbind result_bind np_isnan].
  rewrite Hnan. cbn [negb].
  apply (for_each_establishes (λ d, e ∈ bucket d log scen) _ _
           (ScenarioMetricScoreData.metric_statistic_name e)).
  { apply elem_of_sorted_set, elem_of_difference.
    split; [by apply elem_of_list_to_set|done]. }
  2:{ intros c t t' _. apply scan_metric_column_keeps. }
  clear d d'. intros d d'.
  rewrite (scan_metric_column_float _ _ _ _ _ _ _ _ _ f) by done.
  intros [= <-]. rewrite bucket_bucket_append_eq, <-Hscore.
  destruct e. cbn. set_solver.
Qed.

Lemma elem_of_bucket data log scen e :
  e ∈ bucket data log scen
  ↔ ∃ entries, default ∅ (data !! log) !! scen = Some entries ∧ e ∈ entries.
Proof.
  unfold bucket. destruct (default ∅ (data !! log) !! scen) as [entries|]; cbn.
  - naive_solver.
  - rewrite elem_of_nil. naive_solver.
Qed.

End completeness.

Section metric_columns.
Variable env : Services.t.

Lemma metric_columns_of_ext df df' :
  (∀ c, c ∈ DataFrame.columns df' ↔ c ∈ DataFrame.columns df) →
  metric_columns_of df' = metric_columns_of df.
Proof.
  intros Hcolumns. unfold metric_columns_of. f_equal.
  apply set_eq. intros c. rewrite !elem_of_difference, !elem_of_list_to_set.
  by rewrite Hcolumns.
Qed.

End metric_columns.

Section ordered_dict_lookup.
Context {V : Type}.
Implicit Types (d : list (string * V)) (k : string).

Lemma od_get_None k d : od_get k d = None ↔ k ∉ d.*1.
Proof.
  rewrite <-od_mem_true. unfold od_mem. destruct (od_get k d); naive_solver.
Qed.

Lemma od_get_app k d d' :
  od_get k (d ++ d')
  = match od_get k d with Some v => Some v | None => od_get k d' end.
Proof.
  induction d as [|[k' v] d IH]; cbn; [done|].
  by destruct (decide (k' = k)).
Qed.

Lemma od_get_od_alter f k d k' :
  od_get k' (od_alter f k d)
  = if decide (k' = k) then f <$> od_get k d else od_get k' d.
Proof.
  induction d as [|[k0 v] d IH]; cbn; [by case_decide|].
  destruct (decide (k0 = k)) as [->|Hk0]; cbn.
  - destruct (decide (k = k')) as [->|Hne].
    + by rewrite decide_True.
    + by rewrite decide_False.
  - rewrite IH. destruct (decide (k0 = k')) as [->|Hne]; [|done].
    by rewrite decide_False.
Qed.

Lemma od_get_od_setdefault k v d k' :
  od_get k' (od_setdefault k v d)
  = if decide (k' = k) then Some (default v (od_get k d)) else od_get k' d.
Proof.
  unfold od_setdefault, od_mem.
  destruct (od_get k d) as [v0|] eqn:Hk.
  - destruct (decide (k' = k)) as [->|Hne]; [by rewrite Hk|done].
  - rewrite od_get_app. cbn.
    destruct (decide (k' = k)) as [->|Hne].
    + rewrite Hk. by rewrite decide_True.
    + rewrite decide_False by done. by destruct (od_get k' d).
Qed.

Lemma od_alter_NoDup f k d : NoDup d.*1 → NoDup (od_alter f k d).*1.
Proof. by rewrite od_alter_keys. Qed.

Lemma od_setdefault_NoDup k v d : NoDup d.*1 → NoDup (od_setdefault k v d).*1.
Proof.
  intros Hd. unfold od_setdefault. destruct (od_mem k d) eqn:Hmem; [done|].
  rewrite fmap_app. apply NoDup_app. split_and!; [done| |apply NoDup_singleton].
  intros k' Hk' Hk. cbn in Hk. apply list_elem_of_singleton in Hk as ->.
  apply od_mem_true in Hk'. congruence.
Qed.

Lemma od_get_elem_of k d v : NoDup d.*1 → (k, v) ∈ d → od_get k d = Some v.
Proof.
  induction d as [|[k' v'] d IH]; cbn; [by intros _ ?%elem_of_nil|].
  intros [Hk' Hd]%NoDup_cons [[= <- <-]|Hin]%elem_of_cons.
  - by rewrite decide_True.
  - rewrite decide_False; [by apply IH|].
    intros ->. apply Hk'. apply list_elem_of_fmap. by exists (k, v).
Qed.
End ordered_dict_lookup.

Lemma od_get_od_append {A} k (x : A) d k' :
  od_get k' (od_append k x d)
  = if decide (k' = k) then Some (default [] (od_get k d) ++ [x])
    else od_get k' d.
Proof.
  unfold od_append. rewrite od_get_od_alter, !od_get_od_setdefault.
  destruct (decide (k' = k)) as [->|Hne]; [|done].
  by rewrite decide_True.
Qed.

Lemma od_append_NoDup {A} k (x : A) d : NoDup d.*1 → NoDup (od_append k x d).*1.
Proof. intros Hd. by apply od_alter_NoDup, od_setdefault_NoDup. Qed.

(** A loop over the items of a dictionary of lists and over each list is a
    loop over the pairs of a key and a value. *)
Lemma foldl_items {A B : Type} (g : string → B → A → B)
    (data : list (string * list A)) (b : B) :
  foldl (λ acc item, foldl (g item.1) acc item.2) b data
  = foldl (λ acc p, g p.1 acc p.2) b
          (data ≫= λ item, pair item.1 <$> item.2).
Proof.
  revert b. induction data as [|[k l] data IH]; intros b; [done|].
  cbn [foldl mbind list_bind fst snd]. rewrite foldl_app, <-IH. f_equal.
  generalize b. induction l as [|x l IHl]; intros b'; [done|]. cbn. apply IHl.
Qed.

Lemma series_of_items {A : Type} (key : string) (data : list (string * list A)) :
  snd <$> filter (λ p, p.1 = key) (data ≫= λ item, pair item.1 <$> item.2)
  = series_of key data.
Proof.
  unfold series_of. induction data as [|[k l] data IH]; [done|].
  cbn [mbind list_bind fst snd]. rewrite filter_app, fmap_app, IH.
  rewrite (filter_cons (λ item : string * list A, item.1 = key)).
  cbn [fst]. destruct (decide (k = key)) as [->|Hne].
  - cbn [fmap list_fmap concat snd]. f_equal.
    induction l as [|x l IHl]; [done|]. cbn [fmap list_fmap].
    rewrite (filter_cons (λ p : string * A, p.1 = key)). cbn [fst].
    rewrite decide_True by done. cbn [fmap list_fmap snd].
    f_equal. apply IHl.
  - replace (filter (λ p : string * A, p.1 = key) (pair k <$> l))
      with (@nil (string * A)); [done|].
    induction l as [|x l IHl]; [done|]. cbn [fmap list_fmap].
    rewrite (filter_cons (λ p : string * A, p.1 = key)). cbn [fst].
    by rewrite decide_False.
Qed.

(** What a loop that writes one key at each step leaves under a key. *)
Lemma od_get_foldl {V Y : Type} (key : Y → string)
    (upd : string → Y → option V → option V)
    (step : list (string * V) → Y → list (string * V)) :
  (∀ d y m, od_get m (step d y)
            = if decide (key y = m) then upd m y (od_get m d) else od_get m d) →
  ∀ ys acc m,
    od_get m (foldl step acc ys)
    = foldl (λ o y, upd m y o) (od_get m acc) (filter (λ y, key y = m) ys).
Proof.
  intros Hstep. induction ys as [|y ys IH]; intros acc m; [done|].
  cbn [foldl]. rewrite IH, Hstep.
  destruct (decide (key y = m)) as [Heq|Hne].
  - by rewrite filter_cons_True.
  - by rewrite filter_cons_False.
Qed.

Lemma foldl_append_if {A : Type} (keep : A → Prop) `{!∀ x, Decision (keep x)}
    (l : list A) (o : option (list A)) :
  foldl (λ o x, if decide (keep x) then Some (default [] o ++ [x]) else o) o l
  = match o with
    | Some l0 => Some (l0 ++ filter keep l)
    | None => nonempty (filter keep l)
    end.
Proof.
  revert o. induction l as [|x l IH]; intros o; cbn [foldl].
  - destruct o; [by rewrite app_nil_r|done].
  - rewrite IH. destruct (decide (keep x)) as [Hx|Hx].
    + rewrite filter_cons_True by done.
      destruct o; cbn; by rewrite <-?app_assoc.
    + by rewrite filter_cons_False.
Qed.

Section lookups.
Variable env : Services.t.
Import ScenarioTab.

Lemma group_by_metric_NoDup enabled selected :
  NoDup (group_by_metric enabled selected).*1.
Proof.
  unfold group_by_metric.
  apply (foldl_invariant (λ d, NoDup d.*1) (λ _, True));
    [|apply NoDup_nil_2|by apply Forall_forall].
  intros d x Hd _. case_bool_decide; [by apply od_append_NoDup|done].
Qed.

Lemma group_by_metric_lookup enabled selected m :
  od_get m (group_by_metric enabled selected)
  = nonempty
      (filter (λ x, ScenarioMetricScoreData.planner_name x ∈ enabled)
         (filter (λ x, ScenarioMetricScoreData.metric_statistic_name x = m)
                 selected)).
Proof.
  unfold group_by_metric.
  rewrite (od_get_foldl ScenarioMetricScoreData.metric_statistic_name
             (λ _ x o, if decide (ScenarioMetricScoreData.planner_name x ∈ enabled)
                       then Some (default [] o ++ [x]) else o)).
  - cbn [od_get].
    by rewrite (foldl_append_if
                  (λ x, ScenarioMetricScoreData.planner_name x ∈ enabled)).
  - intros d y k. case_bool_decide as Hy.
    + rewrite od_get_od_append.
      destruct (decide (ScenarioMetricScoreData.metric_statistic_name y = k))
        as [<-|Hne].
      * by rewrite !decide_True.
      * by rewrite decide_False by congruence.
    + destruct (decide (ScenarioMetricScoreData.metric_statistic_name y = k));
        [by rewrite decide_False|done].
Qed.

Lemma filter_time_series_NoDup enabled
    (data : list (string * list ScenarioTimeSeriesData.t)) :
  NoDup (filter_time_series enabled data).*1.
Proof.
  unfold filter_time_series.
  apply (foldl_invariant (λ d, NoDup d.*1) (λ _, True));
    [|apply NoDup_nil_2|by apply Forall_forall].
  intros d item Hd _.
  apply (foldl_invariant (λ d, NoDup d.*1) (λ _, True));
    [|done|by apply Forall_forall].
  intros d' x Hd' _. case_bool_decide; [by apply od_append_NoDup|done].
Qed.

Lemma filter_time_series_lookup enabled
    (data : list (string * list ScenarioTimeSeriesData.t)) m :
  od_get m (filter_time_series enabled data)
  = nonempty
      (filter (λ x, ScenarioTimeSeriesData.planner_name x ∈ enabled)
              (series_of m data)).
Proof.
  unfold filter_time_series.
  rewrite (foldl_items
             (λ k filtered x,
                if bool_decide (ScenarioTimeSeriesData.planner_name x ∈ enabled)
                then od_append k x filtered else filtered)).
  rewrite (od_get_foldl fst
             (λ _ p o, if decide (ScenarioTimeSeriesData.planner_name p.2 ∈ enabled)
                       then Some (default [] o ++ [p.2]) else o)).
  - rewrite <-series_of_items. cbn [od_get].
    generalize (filter (λ p : string * ScenarioTimeSeriesData.t, p.1 = m)
                  (data ≫= λ item, pair item.1 <$> item.2)).
    intros l.
    rewrite <-(foldl_append_if
                 (λ x, ScenarioTimeSeriesData.planner_name x ∈ enabled)
                 (l.*2) None).
    by rewrite foldl_fmap.
  - intros d [k x] k'. cbn [fst snd]. case_bool_decide as Hx.
    + rewrite od_get_od_append.
      destruct (decide (k = k')) as [<-|Hne].
      * by rewrite !decide_True.
      * by rewrite decide_False by congruence.
    + destruct (decide (k = k')); [by rewrite decide_False|done].
Qed.
End lookups.

Lemma foldl_add_glyph {A} (g : A → Glyph) (l : list A) (f : Figure.t) :
  foldl (λ figure item, Figure.add_glyph (g item) figure) f l
  = Figure.mk (Figure.title f) (Figure.y_axis_label f) (Figure.x_axis_label f)
      (Figure.x_range f) (Figure.tooltips f) (Figure.sizes f)
      (Figure.renderers f ++ (g <$> l)).
Proof.
  revert f. induction l as [|x l IH]; intros f; cbn [foldl].
  - destruct f. cbn. by rewrite app_nil_r.
  - rewrite IH. cbn. by rewrite <-app_assoc.
Qed.

Section time_series_figures.
Variable env : Services.t.
Import ScenarioTab.

Local Abbreviation time_series_figure self metric_statistic_name first :=
  (Figure.mk metric_statistic_name
     (ScenarioTimeSeriesData.time_series_unit first) (Some "frame") None
     time_series_hover
     (Services.plot_sizes env (window_width self) (window_height self)) []).

Lemma render_time_series_NoDup self data :
  NoDup (_render_time_series env self data).*1.
Proof.
  unfold _render_time_series.
  apply (foldl_invariant (λ d, NoDup d.*1) (λ _, True));
    [|apply NoDup_nil_2|by apply Forall_forall].
  intros d item Hd _.
  apply (foldl_invariant (λ d, NoDup d.*1) (λ _, True));
    [|done|by apply Forall_forall].
  intros d' x Hd' _. unfold render_time_series_data.
  destruct (ScenarioTimeSeriesData.time_series_values x); [done|].
  by apply od_alter_NoDup, od_setdefault_NoDup.
Qed.

Lemma render_time_series_lookup self data m :
  od_get m (_render_time_series env self data)
  = match filter has_values (series_of m data) with
    | [] => None
    | first :: rest =>
        Some (Figure.mk m (ScenarioTimeSeriesData.time_series_unit first)
                (Some "frame") None time_series_hover
                (Services.plot_sizes env (window_width self) (window_height self))
                (time_series_line env self <$> first :: rest))
    end.
Proof.
  transitivity
    (match filter has_values (series_of m data) with
     | [] => None
     | first :: _ =>
         Some (foldl (λ figure d,
                        Figure.add_glyph (time_series_line env self d) figure)
                 (time_series_figure self m first)
                 (filter has_values (series_of m data)))
     end).
  2:{ destruct (filter has_values (series_of m data)); [done|].
      by rewrite foldl_add_glyph. }
  unfold _render_time_series.
  rewrite (foldl_items (render_time_series_data env self)).
  rewrite (od_get_foldl fst
     (λ m p o,
        if decide (has_values p.2)
        then Some (Figure.add_glyph (time_series_line env self p.2)
                     (default (time_series_figure self m p.2) o))
        else o)
     (λ acc p, render_time_series_data env self p.1 acc p.2)).
  - rewrite <-series_of_items. cbn [od_get].
    generalize (filter (λ p : string * ScenarioTimeSeriesData.t, p.1 = m)
                  (data ≫= λ item, pair item.1 <$> item.2)).
    assert (∀ (l : list (string * ScenarioTimeSeriesData.t)) f,
      foldl (λ o (p : string * ScenarioTimeSeriesData.t),
               if decide (has_values p.2)
               then Some (Figure.add_glyph (time_series_line env self p.2)
                            (default (time_series_figure self m p.2) o))
               else o) (Some f) l
      = Some (foldl (λ figure d,
                       Figure.add_glyph (time_series_line env self d) figure)
                f (filter has_values l.*2))) as Hsome.
    { induction l as [|[k d] l IH]; intros f; [done|].
      cbn [foldl fmap list_fmap snd].
      rewrite (filter_cons has_values).
      destruct (decide (has_values d)); cbn [foldl default]; apply IH. }
    intros l. induction l as [|[k d] l IH]; [done|].
    cbn [foldl fmap list_fmap snd]. rewrite (filter_cons has_values).
    destruct (decide (has_values d)); [|apply IH].
    cbn [default]. by rewrite Hsome.
  - intros d [k x] k'. cbn [fst snd]. unfold render_time_series_data, has_values.
    destruct (ScenarioTimeSeriesData.time_series_values x) eqn:Hvalues.
    + destruct (decide (k = k')); [|done].
      rewrite decide_False; [done|]. intros H. by apply H.
    + rewrite od_get_od_alter, od_get_od_setdefault.
      destruct (decide (k = k')) as [<-|Hne].
      * by rewrite !decide_True.
      * rewrite !decide_False by congruence.
        rewrite od_get_od_setdefault. by rewrite decide_False by congruence.
Qed.
End time_series_figures.

Lemma filter_none {A : Type} (P : A → Prop) `{!∀ x, Decision (P x)} (l : list A) :
  Forall (λ x, ¬ P x) l → filter P l = [].
Proof.
  induction 1 as [|x l Hx _ IH]; [done|]. by rewrite filter_cons_False.
Qed.

Lemma series_of_od_get {A : Type} (key : string) (data : list (string * list A)) :
  NoDup data.*1 → series_of key data = default [] (od_get key data).
Proof.
  unfold series_of. induction data as [|[k l] data IH]; [done|].
  cbn [fmap list_fmap fst]. intros [Hk Hdata]%NoDup_cons.
  rewrite (filter_cons (λ item : string * list A, item.1 = key)).
  cbn [od_get fst]. destruct (decide (k = key)) as [->|Hne].
  - cbn [fmap list_fmap concat snd default].
    replace (filter (λ item : string * list A, item.1 = key) data)
      with (@nil (string * list A)); [by rewrite app_nil_r|].
    symmetry. apply filter_none, Forall_forall. intros [k' l'] Hin Heq.
    cbn in Heq. subst k'. apply Hk. apply list_elem_of_fmap. by exists (key, l').
  - by apply IH.
Qed.

Lemma default_nonempty {A : Type} (l : list A) : default [] (nonempty l) = l.
Proof. by destruct l. Qed.

Section time_series_theorems.
Variable env : Services.t.
Import ScenarioTab.


End time_series_theorems.

Section time_series_provenance.
Variable env : Services.t.
Import ScenarioTab.

Lemma select_column_Ok {A : Type} headers column
    (cell_of : MetricStatisticsDataFrame.row → A) data_frame cells :
  select_column headers column cell_of data_frame = Ok cells →
  cells = cell_of <$> data_frame.
Proof. unfold select_column. case_bool_decide; [by intros [= <-]|done]. Qed.

Lemma aggregate_planner_Ok self index scenario_types log_names df planner
    aggregated aggregated' :
  aggregate_planner env self index scenario_types log_names df planner aggregated
  = Ok aggregated' →
  aggregated' = aggregated
  ∨ ∃ first rest values timestamps,
      MetricStatisticsDataFrame.query_scenarios df
        (Some [Select.value (scalar_scenario_name_select self)])
        scenario_types (Some [planner]) log_names = first :: rest
      ∧ chain_from_iterable
          (MetricStatisticsDataFrame.values <$> first :: rest) = Ok values
      ∧ chain_from_iterable
          (MetricStatisticsDataFrame.timestamps <$> first :: rest)
        = Ok timestamps
      ∧ aggregated'
        = od_append (MetricStatisticsDataFrame.metric_statistic_name df)
            (ScenarioTimeSeriesData.mk index planner
               (Services.np_round4 env <$> values) timestamps
               (MetricStatisticsDataFrame.unit first))
            aggregated.
Proof.
  unfold aggregate_planner.
  destruct (MetricStatisticsDataFrame.query_scenarios _ _ _ _ _)
    as [|first rest] eqn:Hrows; [intros [= <-]; by left|].
  destruct (MetricStatisticsDataFrame.time_series_headers df !! 0%nat)
    as [header|]; [|done].
  destruct (MetricStatisticsDataFrame.cell_is_None header first);
    [intros [= <-]; by left|].
  destruct (select_column _ _ MetricStatisticsDataFrame.values _)
    as [cells|] eqn:Hcells; [|done].
  apply select_column_Ok in Hcells as ->. cbn [mbind result_bind].
  destruct (chain_from_iterable _) as [values|] eqn:Hvalues; [|done].
  cbn [mbind result_bind].
  destruct (select_column _ _ MetricStatisticsDataFrame.timestamps _)
    as [cells|] eqn:Hcells; [|done].
  apply select_column_Ok in Hcells as ->. cbn [mbind result_bind].
  destruct (chain_from_iterable (MetricStatisticsDataFrame.timestamps <$> _))
    as [timestamps|] eqn:Htimestamps; [|done].
  cbn [mbind result_bind].
  destruct (select_column _ _ MetricStatisticsDataFrame.unit _)
    as [cells|] eqn:Hcells; [|done].
  apply select_column_Ok in Hcells as ->. cbn [mbind result_bind].
  cbn [fmap list_fmap]. intros [= <-]. right.
  by exists first, rest, values, timestamps.
Qed.

Local Abbreviation aggregated_from := (aggregated_from env).

Lemma aggregate_dataframe_from self index dfs df aggregated aggregated' :
  index ∈ experiment_file_active_index self →
  ExperimentFileData.metric_statistics_dataframes (experiment_file_data self)
    !! index = Some dfs →
  df ∈ dfs →
  aggregated_from self aggregated →
  aggregate_dataframe env self index
    (if decide (Select.value (scalar_scenario_type_select self) = "")
     then None else Some [Select.value (scalar_scenario_type_select self)])
    (if decide (Select.value (scalar_log_name_select self) = "")
     then None else Some [Select.value (scalar_log_name_select self)])
    df aggregated = Ok aggregated' →
  aggregated_from self aggregated'.
Proof.
  intros Hactive Hdfs Hdf [Hnodup Hfrom]. unfold aggregate_dataframe.
  apply for_each_invariant.
  - intros planner agg agg' Hplanner [Hnd Hagg] Hrun.
    apply aggregate_planner_Ok in Hrun
      as [->|(first & rest & values & timestamps & Hrows & Hvalues
              & Htimestamps & ->)]; [done|].
    split; [by apply od_append_NoDup|].
    intros key series. rewrite od_get_od_append.
    destruct (decide (key = MetricStatisticsDataFrame.metric_statistic_name df))
      as [->|Hkey]; [|by apply Hagg].
    intros [= <-]. split; [by exists index, dfs, df|].
    apply Forall_app. split.
    + destruct (od_get _ agg) as [old|] eqn:Hold; [|by constructor].
      by apply (Hagg _ _ Hold).
    + apply Forall_singleton.
      by exists dfs, df, first, rest, values.
  - split; [by apply od_setdefault_NoDup|].
    intros key series. rewrite od_get_od_setdefault.
    destruct (decide (key = MetricStatisticsDataFrame.metric_statistic_name df))
      as [->|Hkey]; [|by apply Hfrom].
    intros [= <-]. split; [by exists index, dfs, df|].
    destruct (od_get _ aggregated) as [old|] eqn:Hold; [|by constructor].
    by apply (Hfrom _ _ Hold).
Qed.

Lemma aggregate_planner_keys self index scenario_types log_names df planner
    aggregated aggregated' key :
  key ∈ aggregated.*1 →
  aggregate_planner env self index scenario_types log_names df planner aggregated
  = Ok aggregated' →
  key ∈ aggregated'.*1.
Proof.
  intros Hkey [->|(? & ? & ? & ? & _ & _ & _ & ->)]%aggregate_planner_Ok;
    [done|].
  apply elem_of_od_append_keys. by right.
Qed.

Lemma aggregate_dataframe_keys self index scenario_types log_names df
    aggregated aggregated' key :
  key ∈ aggregated.*1
  ∨ key = MetricStatisticsDataFrame.metric_statistic_name df →
  aggregate_dataframe env self index scenario_types log_names df aggregated
  = Ok aggregated' →
  key ∈ aggregated'.*1.
Proof.
  intros Hkey. unfold aggregate_dataframe.
  apply (for_each_invariant (λ agg, key ∈ agg.*1)).
  - intros planner agg agg' _. apply aggregate_planner_keys.
  - apply elem_of_od_setdefault_keys. naive_solver.
Qed.

Lemma aggregate_experiment_keys self scenario_types log_names experiment
    aggregated aggregated' key :
  key ∈ aggregated.*1 →
  aggregate_experiment env self scenario_types log_names experiment aggregated
  = Ok aggregated' →
  key ∈ aggregated'.*1.
Proof.
  intros Hkey. destruct experiment as [index dfs]. unfold aggregate_experiment.
  case_bool_decide; [|by intros [= <-]].
  apply (for_each_invariant (λ agg, key ∈ agg.*1)); [|done].
  intros df agg agg' _ Hagg. apply aggregate_dataframe_keys. by left.
Qed.

End time_series_provenance.

Lemma items_values {A : Type} (data : list (string * list A)) :
  snd <$> (data ≫= λ item, pair item.1 <$> item.2) = concat data.*2.
Proof.
  induction data as [|[k l] data IH]; [done|].
  cbn [mbind list_bind fmap list_fmap concat fst snd].
  rewrite fmap_app, IH. f_equal.
  rewrite <-list_fmap_compose. apply list_fmap_id.
Qed.

Section scatter_sources.
Variable env : Services.t.
Import ScenarioTab.

Lemma scatter_data_sources_eq self data :
  scatter_data_sources env self data
  = foldl (scatter_add env self) [] (concat data.*2).
Proof.
  unfold scatter_data_sources.
  rewrite (foldl_items (λ _, scatter_add env self)).
  by rewrite <-items_values, foldl_fmap.
Qed.

Lemma scatter_data_sources_NoDup self data :
  NoDup (scatter_data_sources env self data).*1.
Proof.
  rewrite scatter_data_sources_eq.
  apply (foldl_invariant (λ d, NoDup d.*1) (λ _, True));
    [|apply NoDup_nil_2|by apply Forall_forall].
  intros d x Hd _. unfold scatter_add.
  by apply od_alter_NoDup, od_setdefault_NoDup.
Qed.

Local Abbreviation append_point self x s :=
  (ScenarioMetricScoreDataSource.mk
     (ScenarioMetricScoreDataSource.xs s ++
        [ScenarioMetricScoreData.metric_statistic_name x])
     (ScenarioMetricScoreDataSource.ys s ++ [ScenarioMetricScoreData.score x])
     (ScenarioMetricScoreDataSource.planners s ++
        [ScenarioMetricScoreData.planner_name x])
     (ScenarioMetricScoreDataSource.aggregators s ++
        [ScenarioMetricScoreData.metric_aggregator_file_name x])
     (ScenarioMetricScoreDataSource.experiments s ++
        [Services.get_file_path_last_name env
           (ScenarioMetricScoreData.experiment_index x)])
     (ScenarioMetricScoreDataSource.fill_colors s ++
        [ExperimentFileData.file_path_colors (experiment_file_data self)
           (ScenarioMetricScoreData.experiment_index x)
           (ScenarioMetricScoreData.planner_name x)])
     (ScenarioMetricScoreDataSource.marker s)
     (ScenarioMetricScoreDataSource.legend_label s)).

Lemma foldl_append_point self first points rest :
  foldl (λ o x, Some (append_point self x
                        (default (scatter_source env self [] x) o)))
        (Some (scatter_source env self points first)) rest
  = Some (scatter_source env self (points ++ rest) first).
Proof.
  revert points. induction rest as [|x rest IH]; intros points.
  - by rewrite app_nil_r.
  - cbn [foldl default].
    replace (points ++ x :: rest) with ((points ++ [x]) ++ rest)
      by (by rewrite <-app_assoc).
    rewrite <-IH. unfold scatter_source. cbn. by rewrite !fmap_app.
Qed.

Lemma scatter_data_sources_lookup self data key :
  od_get key (scatter_data_sources env self data)
  = match filter (λ x, scatter_source_index env x = key) (concat data.*2) with
    | [] => None
    | first :: rest => Some (scatter_source env self (first :: rest) first)
    end.
Proof.
  rewrite scatter_data_sources_eq.
  rewrite (od_get_foldl (scatter_source_index env)
    (λ _ x o, Some (append_point self x
                      (default (scatter_source env self [] x) o)))).
  - cbn [od_get].
    destruct (filter _ _) as [|first rest]; [done|].
    cbn [foldl default].
    change (first :: rest) with ([first] ++ rest).
    rewrite <-(foldl_append_point self first [first] rest). done.
  - intros d x k. unfold scatter_add.
    rewrite od_get_od_alter, od_get_od_setdefault.
    fold (scatter_legend_label env x). fold (scatter_source_index env x).
    destruct (decide (scatter_source_index env x = k)) as [<-|Hne].
    + rewrite !decide_True by done. done.
    + rewrite !decide_False by congruence.
      rewrite od_get_od_setdefault. by rewrite decide_False by congruence.
Qed.
End scatter_sources.

Lemma elem_of_ordered_metric_names
    (data : list (string * list ScenarioMetricScoreData.t)) m :
  m ∈ ordered_metric_names data ↔ m ∈ data.*1.
Proof.
  unfold ordered_metric_names. case_bool_decide as Hscore.
  - rewrite (list_remove_app_Permutation "score" _ Hscore).
    by rewrite elem_of_sorted_set, elem_of_list_to_set.
  - by rewrite elem_of_sorted_set, elem_of_list_to_set.
Qed.

Lemma elem_of_concat {A : Type} (x : A) (ls : list (list A)) :
  x ∈ concat ls ↔ ∃ l, x ∈ l ∧ l ∈ ls.
Proof.
  induction ls as [|l ls IH]; cbn [concat].
  - setoid_rewrite elem_of_nil. naive_solver.
  - rewrite elem_of_app, IH. setoid_rewrite elem_of_cons. naive_solver.
Qed.

Lemma nonempty_Some {A : Type} (l k : list A) :
  nonempty l = Some k → l = k ∧ k ≠ [].
Proof. destruct l; [done|]. by intros [= <-]. Qed.

Section score_scatter.
Variable env : Services.t.
Import ScenarioTab.

Lemma render_scenario_metric_score_scatter_eq self figure data :
  _render_scenario_metric_score_scatter env self figure data
  = Figure.mk (Figure.title figure) (Figure.y_axis_label figure)
      (Figure.x_axis_label figure) (Figure.x_range figure)
      (Figure.tooltips figure) (Figure.sizes figure)
      (Figure.renderers figure
         ++ (scatter_glyph <$> (scatter_data_sources env self data).*2)).
Proof.
  unfold _render_scenario_metric_score_scatter.
  rewrite (foldl_add_glyph (λ item : string * ScenarioMetricScoreDataSource.t,
                              scatter_glyph item.2)).
  by rewrite <-list_fmap_compose.
Qed.


Lemma score_figure_points enabled selected chunk x :
  x ∈ concat ((λ metric_name,
                 (metric_name,
                  default [] (od_get metric_name
                                (group_by_metric enabled selected)))) <$> chunk).*2
  ↔ ScenarioMetricScoreData.metric_statistic_name x ∈ chunk
    ∧ ScenarioMetricScoreData.planner_name x ∈ enabled
    ∧ x ∈ selected.
Proof.
  rewrite <-list_fmap_compose, elem_of_concat.
  setoid_rewrite list_elem_of_fmap. split.
  - intros (l & Hx & m & -> & Hm). cbn in Hx.
    rewrite group_by_metric_lookup, default_nonempty in Hx.
    apply list_elem_of_filter in Hx as [Henabled Hx].
    apply list_elem_of_filter in Hx as [<- Hx]. done.
  - intros (Hm & Henabled & Hx). eexists. split; [|by eexists].
    cbn. rewrite group_by_metric_lookup, default_nonempty.
    apply list_elem_of_filter. split; [done|].
    by apply list_elem_of_filter.
Qed.

Lemma score_figure_glyphs self enabled selected names index :
  let figure :=
    (score_figure env self (group_by_metric enabled selected) names index).2 in
  let chunk := take 4 (drop (index * 4) names) in
  Figure.x_range figure = Some chunk
  ∧ Forall (λ g, ∃ points first,
               g = scatter_glyph (scatter_source env self points first)
               ∧ points ≠ []
               ∧ Forall (λ x,
                    ScenarioMetricScoreData.metric_statistic_name x ∈ chunk
                    ∧ ScenarioMetricScoreData.planner_name x ∈ enabled
                    ∧ x ∈ selected) points)
           (Figure.renderers figure)
  ∧ (names = ordered_metric_names (group_by_metric enabled selected) →
     ∀ metric, metric ∈ chunk →
       ∃ marker xs ys planners experiments aggregators fill_colors,
         Scatter marker xs ys planners experiments aggregators fill_colors
           ∈ Figure.renderers figure
         ∧ metric ∈ xs).
Proof.
  intros figure chunk.
  assert (Figure.renderers figure
          = scatter_glyph <$>
              (scatter_data_sources env self
                 ((λ metric_name,
                     (metric_name,
                      default [] (od_get metric_name
                                    (group_by_metric enabled selected))))
                    <$> chunk)).*2) as Hrenderers.
  { subst figure chunk. unfold score_figure. cbn [snd].
    rewrite render_scenario_metric_score_scatter_eq.
    cbn [Figure.renderers _render_scalar_figure app].
    unfold _number_metrics_per_figure. by rewrite slice_chunk. }
  split_and!.
  - apply score_figure_x_range.
  - rewrite Hrenderers. apply Forall_fmap, Forall_fmap, Forall_forall.
    intros [key source] Hsource. cbn.
    apply od_get_elem_of in Hsource; [|apply scatter_data_sources_NoDup].
    rewrite scatter_data_sources_lookup in Hsource.
    destruct (filter _ _) as [|first rest] eqn:Hpoints; [done|].
    injection Hsource as <-. exists (first :: rest), first.
    split_and!; [done..|].
    rewrite <-Hpoints. apply Forall_forall. intros x Hx.
    apply list_elem_of_filter in Hx as [_ Hx]. by apply score_figure_points in Hx.
  - intros Hnames metric Hmetric.
    assert (metric ∈ names) as Hin.
    { subst chunk. by eapply subseteq_drop, subseteq_take. }
    rewrite Hnames in Hin. apply elem_of_ordered_metric_names in Hin.
    destruct (od_get metric (group_by_metric enabled selected)) as [l|] eqn:Hget;
      [|by apply od_get_None in Hget].
    rewrite group_by_metric_lookup in Hget.
    apply nonempty_Some in Hget as [Hl Hne].
    destruct l as [|x l]; [done|].
    assert (x ∈ filter (λ x, ScenarioMetricScoreData.planner_name x ∈ enabled)
                  (filter (λ x, ScenarioMetricScoreData.metric_statistic_name x
                                = metric) selected)) as Hx
      by (rewrite Hl; left).
    apply list_elem_of_filter in Hx as [Henabled Hx].
    apply list_elem_of_filter in Hx as [Hm Hx].
    pose proof (scatter_data_sources_lookup env self
                  ((λ metric_name,
                      (metric_name,
                       default [] (od_get metric_name
                                     (group_by_metric enabled selected))))
                     <$> chunk) (scatter_source_index env x)) as Hlookup.
    destruct (filter _ (concat _)) as [|first rest] eqn:Hpoints.
    { exfalso. eapply (filter_nil_not_elem_of _ _ x); [exact Hpoints|done|].
      apply score_figure_points. by rewrite Hm. }
    apply od_get_Some_elem in Hlookup.
    eexists _, _, _, _, _, _, _. split.
    + rewrite Hrenderers. apply list_elem_of_fmap. eexists. split; [done|].
      apply list_elem_of_fmap. by eexists (_, _).
    + cbn [scatter_source ScenarioMetricScoreDataSource.xs]. rewrite <-Hm.
      apply list_elem_of_fmap. exists x. split; [done|].
      assert (x ∈ first :: rest) as Hin'; [|done].
      rewrite <-Hpoints. apply list_elem_of_filter. split; [done|].
      apply score_figure_points. by rewrite Hm.
Qed.
End score_scatter.

(** ** The handlers, in full *)

Section handler_results.
Variable env : Services.t.
Import ScenarioTab.

Lemma render_scenario_metric_score_guard self :
  Select.value (scalar_log_name_select self) = ""
  ∨ Select.value (scalar_scenario_name_select self) = ""
  ∨ scenario_metric_score_data self = ∅ →
  _render_scenario_metric_score env self = ([], self).
Proof.
  intros Hguard. unfold _render_scenario_metric_score.
  destruct Hguard as [Hg | [Hg | Hg]]; rewrite Hg.
  - rewrite (bool_decide_eq_true_2 ("" = "")) by done. done.
  - rewrite (bool_decide_eq_true_2 ("" = "")) by done. by rewrite orb_true_r.
  - rewrite (bool_decide_eq_true_2 (∅ = ∅)) by done. by rewrite orb_true_r.
Qed.

Lemma render_simulations_data_frame s1 s2 :
  experiment_file_data s1 = experiment_file_data s2 →
  experiment_file_active_index s1 = experiment_file_active_index s2 →
  scalar_scenario_type_select s1 = scalar_scenario_type_select s2 →
  scalar_log_name_select s1 = scalar_log_name_select s2 →
  scalar_scenario_name_select s1 = scalar_scenario_name_select s2 →
  window_width s1 = window_width s2 →
  window_height s1 = window_height s2 →
  simulation_figure_data s1 = simulation_figure_data s2 →
  simulation_figure_data (_render_simulations env s1).2
  = simulation_figure_data (_render_simulations env s2).2.
Proof.
  destruct s1, s2; simpl; intros; subst. unfold _render_simulations. simpl.
  by destruct (filter _ _).
Qed.

(** The tab [_update_scenario_plot] returns, field by field. *)
Lemma update_scenario_plot_exact self aggregated :
  _aggregate_time_series_data env self = Ok aggregated →
  _update_scenario_plot env self
  = Ok (with_next_tick_callbacks
          (next_tick_callbacks self ++ [update_simulation_layouts_cb])
          (with_simulation_plots (_render_simulations env self).1
             (with_simulation_figure_data
                (simulation_figure_data (_render_simulations env self).2)
                (with_time_series_layout
                   (layout (_render_scenario_metric_layout env
                              (_render_time_series env self aggregated)
                              default_time_series_div
                              (Services.plot_sizes env (window_width self)
                                 (window_height self)).1 true))
                   (with_time_series_data aggregated
                      (with_scenario_score_layout
                         (layout (_render_scenario_metric_layout env
                                    (_render_scenario_metric_score env self).1
                                    default_scenario_score_div
                                    (Services.scenario_metric_score_figure_sizes env).1
                                    false))
                         (with_scenario_metric_score_data
                            (scenario_metric_score_data
                               (_render_scenario_metric_score env self).2)
                            self))))))).
Proof.
  intros Hagg. unfold _update_scenario_plot.
  destruct (render_scenario_metric_score_tab env self) as (data & Hsnd & _).
  destruct (_render_scenario_metric_score env self) as [figures s1].
  cbn [fst snd] in *. subst s1.
  rewrite (aggregate_time_series_data_frame env _ self) by (by destruct self).
  rewrite Hagg. cbn [mbind result_bind].
  match goal with
  | |- context [_render_simulations env ?s] =>
      destruct (render_simulations_tab env s) as (sims & Hsims);
      pose proof (render_simulations_frame env s self) as Hplots;
      pose proof (render_simulations_data_frame s self) as Hdata;
      destruct (_render_simulations env s) as [plots s2]
  end.
  cbn [fst snd] in Hsims, Hplots, Hdata. subst s2.
  assert (plots = (_render_simulations env self).1) as ->
    by (apply Hplots; by destruct self).
  rewrite <-Hdata by (by destruct self).
  by destruct self.
Qed.
End handler_results.

Section handler_results2.
Variable env : Services.t.
Import ScenarioTab.

Lemma aggregate_time_series_data_empty_name self :
  Select.value (scalar_scenario_name_select self) = "" →
  _aggregate_time_series_data env self = Ok [].
Proof. intros Hname. unfold _aggregate_time_series_data. by rewrite Hname. Qed.

Lemma update_aggregation_metric_frame s1 s2 :
  experiment_file_data s1 = experiment_file_data s2 →
  experiment_file_active_index s1 = experiment_file_active_index s2 →
  _update_aggregation_metric env s1 = _update_aggregation_metric env s2.
Proof. destruct s1, s2; simpl; intros; by subst. Qed.

(** The handler of the scenario name is the plot update after the planner
    names, on the tab with the window size of the tags. *)
Lemma scenario_name_on_change_unfold attr old new self :
  length (Select.tags (scalar_scenario_name_select self)) ≠ 1%nat →
  ∃ width height,
    _scalar_scenario_name_select_on_change env attr old new self
    = _update_scenario_plot env
        (_update_planner_names (with_window width height self))
    ∧ match Select.tags (scalar_scenario_name_select self) with
      | w :: h :: _ => width = w ∧ height = h
      | _ => width = window_width self ∧ height = window_height self
      end.
Proof.
  intros Htags. unfold _scalar_scenario_name_select_on_change.
  destruct (Select.tags _) as [|w [|h ?]]; [|done|].
  - exists (window_width self), (window_height self). split; [|done].
    cbn [mbind result_bind]. by destruct self.
  - exists w, h. done.
Qed.

(** The handler of the scenario name on an empty name. *)
Lemma scenario_name_on_change_empty_exact attr old new self :
  length (Select.tags (scalar_scenario_name_select self)) ≠ 1%nat →
  Select.value (scalar_scenario_name_select self) = "" →
  ∃ width height checkboxes plots sims,
    _scalar_scenario_name_select_on_change env attr old new self
    = Ok (with_next_tick_callbacks
            (next_tick_callbacks self ++ [update_simulation_layouts_cb])
            (with_simulation_plots plots
               (with_simulation_figure_data sims
                  (with_time_series_layout
                     (layout (column_div default_time_series_div))
                     (with_time_series_data []
                        (with_scenario_score_layout
                           (layout (column_div default_time_series_div))
                           (with_planner_checkbox_group checkboxes
                              (with_window width height self)))))))).
Proof.
  intros Htags Hname.
  destruct (scenario_name_on_change_unfold attr old new self Htags)
    as (width & height & -> & _).
  rewrite (update_scenario_plot_exact env _ []).
  2:{ apply aggregate_time_series_data_empty_name. by destruct self. }
  rewrite render_scenario_metric_score_guard by (right; left; by destruct self).
  rewrite update_planner_names_eq.
  eexists width, height, _, _, _. f_equal.
Qed.
End handler_results2.

Section handler_theorems.
Variable env : Services.t.
Import ScenarioTab.


End handler_theorems.

Section init_theorems.
Variable env : Services.t.
Import ScenarioTab.

Lemma assign_scenario_type_value_empty self :
  assign_scenario_type_value env "" self
  = Ok (with_scalar_scenario_type_select
          (Select.set_value "" (scalar_scenario_type_select self)) self).
Proof.
  unfold assign_scenario_type_value, _scalar_scenario_type_select_on_change.
  case_decide as Hold; [|by rewrite decide_True].
  destruct self as [? ? [] ? ? ? ? ? ? ? ? ? ? ? ? ? ?]. cbn in Hold. by subst.
Qed.

Lemma assign_log_name_value_empty self :
  assign_log_name_value env "" self
  = Ok (with_scalar_log_name_select
          (Select.set_value "" (scalar_log_name_select self)) self).
Proof.
  unfold assign_log_name_value, _scalar_log_name_select_on_change.
  case_decide as Hold; [|by rewrite decide_True].
  destruct self as [? ? ? [] ? ? ? ? ? ? ? ? ? ? ? ? ?]. cbn in Hold. by subst.
Qed.

Lemma init_selection_Ok self :
  Select.value (scalar_scenario_name_select self) = ""
  ∨ length (Select.tags (scalar_scenario_name_select self)) ≠ 1%nat →
  ∃ self',
    _init_selection env self = Ok self'
    ∧ scalar_scenario_type_select self'
      = Select.mk ""
          ("" :: ExperimentFileData.available_scenario_types
                   (experiment_file_data self))
          (Select.tags (scalar_scenario_type_select self))
    ∧ scalar_log_name_select self'
      = Select.mk "" [] (Select.tags (scalar_log_name_select self))
    ∧ scalar_scenario_name_select self'
      = Select.mk "" [] (Select.tags (scalar_scenario_name_select self))
    ∧ available_scenario_names self' = []
    ∧ experiment_file_data self' = experiment_file_data self
    ∧ experiment_file_active_index self' = experiment_file_active_index self
    ∧ scenario_metric_score_data self' = scenario_metric_score_data self
    ∧ let labels :=
        sorted_set (list_to_set
          (SimulationScenarioKey.planner_name <$>
             filter (λ key, SimulationScenarioKey.scenario_type key = ""
                            ∧ SimulationScenarioKey.scenario_name key = "")
                    (ExperimentFileData.simulation_scenario_keys
                       (experiment_file_data self)))) in
      planner_checkbox_group self'
      = CheckboxGroup.mk labels (seq 0 (length labels))
    ∧ simulation_tile_layout self' = simulation_tile_layout self
    ∧ next_tick_callbacks self'
      = next_tick_callbacks self
        ++ (if decide (Select.value (scalar_scenario_name_select self) = "")
            then [] else [update_simulation_layouts_cb]).
Proof.
  intros Hpre.
  destruct self as [efd index [tv to tt] [lv lo lt] [nv no nt] boxes scores
                    series sims names plots score_layout series_layout
                    tile_layout width height queue].
  tab_simpl. cbn [Select.value Select.tags] in Hpre.
  unfold _init_selection.
  rewrite assign_scenario_type_value_empty. cbn [mbind result_bind].
  tab_simpl. cbn [Select.set_value Select.set_options].
  rewrite assign_log_name_value_empty. cbn [mbind result_bind].
  tab_simpl. cbn [Select.set_value Select.set_options].
  unfold assign_scenario_name_value. tab_simpl. cbn [Select.value].
  destruct (decide (nv = "")) as [Hname|Hname].
  - subst nv. cbn [mbind result_bind]. tab_simpl.
    cbn [Select.set_value Select.set_options Select.value Select.options].
    rewrite assign_scenario_type_value_empty. cbn [mbind result_bind].
    rewrite update_planner_names_eq.
    eexists. split; [done|]. tab_simpl.
    cbn [Select.set_value Select.set_options Select.value Select.options
         Select.tags].
    split_and!; try done. by rewrite app_nil_r.
  - destruct Hpre as [?|Htags]; [done|].
    match goal with
    | |- context [_scalar_scenario_name_select_on_change env ?a ?o ?n ?s] =>
        destruct (scenario_name_on_change_empty_exact env a o n s)
          as (width' & height' & checkboxes & plots' & sims' & ->);
          [done|done|]
    end.
    cbn [mbind result_bind]. tab_simpl.
    cbn [Select.set_value Select.set_options Select.value Select.options].
    rewrite assign_scenario_type_value_empty. cbn [mbind result_bind].
    rewrite update_planner_names_eq.
    eexists. split; [done|]. tab_simpl.
    cbn [Select.set_value Select.set_options Select.value Select.options
         Select.tags].
    split_and!; done.
Qed.


End init_theorems.

Section file_paths.
Variable env : Services.t.
Import ScenarioTab.


End file_paths.

Section stale_tiles.
Variable env : Services.t.
Import ScenarioTab.

Lemma update_scenario_plot_Raise self e :
  _aggregate_time_series_data env self = Raise e →
  _update_scenario_plot env self = Raise e.
Proof.
  intros Hagg. unfold _update_scenario_plot.
  destruct (render_scenario_metric_score_tab env self) as (data & Hsnd & _).
  destruct (_render_scenario_metric_score env self) as [figures s1].
  cbn [fst snd] in *. subst s1.
  rewrite (aggregate_time_series_data_frame env _ self) by (by destruct self).
  by rewrite Hagg.
Qed.

Lemma update_scenario_plot_inv self self' :
  _update_scenario_plot env self = Ok self' →
  ∃ aggregated, _aggregate_time_series_data env self = Ok aggregated.
Proof.
  destruct (_aggregate_time_series_data env self) as [aggregated|e] eqn:Hagg.
  - by exists aggregated.
  - by rewrite (update_scenario_plot_Raise self e).
Qed.

Lemma click_simulation_tile_layout self :
  simulation_tile_layout (_click_planner_checkbox_group env self)
  = layout
      (match SimulationFigureData.plot <$>
               filter (λ data, SimulationFigureData.planner_name data
                               ∈ enable_planner_names self)
                      (simulation_figure_data self) with
       | [] => column_div default_simulation_div
       | figure :: figures =>
           gridplot (figure :: figures)
             (Services.get_plot_cols env
                (Services.simulation_figure_sizes env (window_width self)
                   (window_height self)).1)
             None false
       end).
Proof.
  unfold _click_planner_checkbox_group.
  destruct (render_scenario_metric_score_tab env self) as (data & Hsnd & _).
  destruct (_render_scenario_metric_score env self) as [figures s1].
  cbn [fst snd] in *. subst s1. destruct self. tab_simpl.
  unfold enable_planner_names. tab_simpl.
  by destruct (SimulationFigureData.plot <$> _).
Qed.

End stale_tiles.

Section layouts.
Variable env : Services.t.
Import ScenarioTab.

Lemma click_scenario_score_layout self :
  scenario_score_layout (_click_planner_checkbox_group env self)
  = layout (_render_scenario_metric_layout env
              (_render_scenario_metric_score env self).1
              default_scenario_score_div
              (Services.scenario_metric_score_figure_sizes env).1 false).
Proof.
  unfold _click_planner_checkbox_group.
  destruct (render_scenario_metric_score_tab env self) as (data & Hsnd & _).
  destruct (_render_scenario_metric_score env self) as [figures s1].
  cbn [fst snd] in *. subst s1. by destruct self.
Qed.


End layouts.

Lemma touch_touch data log_name scenario_name :
  touch (touch data log_name scenario_name) log_name scenario_name
  = touch data log_name scenario_name.
Proof.
  apply (touch_id _ _ _
           (<[scenario_name := bucket data log_name scenario_name]>
              (default ∅ (data !! log_name)))
           (bucket data log_name scenario_name)).
  - unfold touch. by rewrite lookup_insert_eq.
  - by rewrite lookup_insert_eq.
Qed.

Lemma touch_ne_empty data log_name scenario_name :
  touch data log_name scenario_name ≠ ∅.
Proof. unfold touch. apply insert_non_empty. Qed.

Section click_twice.
Variable env : Services.t.
Import ScenarioTab.

(** The tab [_click_planner_checkbox_group] returns, field by field. *)
Lemma click_planner_checkbox_group_exact self :
  _click_planner_checkbox_group env self
  = with_simulation_tile_layout
      (layout
         (match SimulationFigureData.plot <$>
                  filter (λ data, SimulationFigureData.planner_name data
                                  ∈ enable_planner_names self)
                         (simulation_figure_data self) with
          | [] => column_div default_simulation_div
          | figure :: figures =>
              gridplot (figure :: figures)
                (Services.get_plot_cols env
                   (Services.simulation_figure_sizes env (window_width self)
                      (window_height self)).1)
                None false
          end))
      (with_time_series_layout
         (layout (_render_scenario_metric_layout env
                    (_render_time_series env self
                       (filter_time_series (enable_planner_names self)
                          (time_series_data self)))
                    default_time_series_div
                    (Services.plot_sizes env (window_width self)
                       (window_height self)).1 true))
         (with_scenario_score_layout
            (layout (_render_scenario_metric_layout env
                       (_render_scenario_metric_score env self).1
                       default_scenario_score_div
                       (Services.scenario_metric_score_figure_sizes env).1
                       false))
            (with_scenario_metric_score_data
               (scenario_metric_score_data
                  (_render_scenario_metric_score env self).2)
               self))).
Proof.
  unfold _click_planner_checkbox_group.
  destruct (render_scenario_metric_score_tab env self) as (data & Hsnd & _).
  destruct (_render_scenario_metric_score env self) as [figures s1].
  cbn [fst snd] in *. subst s1. destruct self. tab_simpl.
  unfold enable_planner_names. tab_simpl.
  by destruct (SimulationFigureData.plot <$> _).
Qed.

Lemma render_scenario_metric_score_again self s :
  experiment_file_data s = experiment_file_data self →
  scalar_log_name_select s = scalar_log_name_select self →
  scalar_scenario_name_select s = scalar_scenario_name_select self →
  planner_checkbox_group s = planner_checkbox_group self →
  scenario_metric_score_data s
  = scenario_metric_score_data (_render_scenario_metric_score env self).2 →
  (_render_scenario_metric_score env s).1
  = (_render_scenario_metric_score env self).1
  ∧ scenario_metric_score_data (_render_scenario_metric_score env s).2
    = scenario_metric_score_data s.
Proof.
  intros Hefd Hlog Hname Hboxes Hdata. revert Hdata.
  unfold _render_scenario_metric_score, enable_planner_names.
  rewrite Hlog, Hname, Hboxes.
  destruct (bool_decide (Select.value (scalar_log_name_select self) = "")
            || bool_decide (Select.value (scalar_scenario_name_select self) = "")
            || bool_decide (scenario_metric_score_data self = ∅)) eqn:Hguard;
    cbn [fst snd].
  - intros Hdata. rewrite Hdata, Hguard. cbn [fst snd]. by split.
  - intros Hdata.
    assert (scenario_metric_score_data s
            = touch (scenario_metric_score_data self)
                (Select.value (scalar_log_name_select self))
                (Select.value (scalar_scenario_name_select self))) as Hs.
    { rewrite Hdata. by destruct self. }
    apply orb_false_iff in Hguard as [[Hg1 Hg2]%orb_false_iff Hg3].
    rewrite Hg1, Hg2, (bool_decide_eq_false_2 (scenario_metric_score_data s = ∅))
      by (rewrite Hs; apply touch_ne_empty).
    cbn [orb fst snd]. rewrite Hs, bucket_touch, touch_touch. split.
    + apply list_fmap_ext. intros _ index _. unfold score_figure.
      f_equal. unfold _render_scenario_metric_score_scatter. f_equal.
      unfold scatter_data_sources, scatter_add. by rewrite Hefd.
    + destruct s. by tab_simpl.
Qed.

End click_twice.

Section plot_frame.
Variable env : Services.t.
Import ScenarioTab.


End plot_frame.

(** ** The raster model: when the conversions fail *)

Lemma infer_size_Ok numel newsize d :
  Tensor.infer_size numel newsize = Ok d →
  (0 < newsize)%N ∧ (numel = d * newsize)%N.
Proof.
  unfold Tensor.infer_size. intros H.
  destruct ((numel =? newsize)%N || ((0 <? newsize)%N && (numel `mod` newsize =? 0)%N))
    eqn:Hcond; [|done].
  destruct (newsize =? 0)%N eqn:Hzero; [done|].
  apply N.eqb_neq in Hzero. injection H as <-.
  split; [lia|].
  apply orb_true_iff in Hcond as [Heq%N.eqb_eq|[_ Hmod%N.eqb_eq]%andb_true_iff].
  - subst. rewrite N.div_same by done. lia.
  - pose proof (N.Div0.div_mod numel newsize) as Hdiv. rewrite Hmod in Hdiv. lia.
Qed.

Section raster_failures.
Variable state_size : N.

Lemma convert_predictions_to_trajectory_Raise predictions n rest :
  Tensor.shape predictions = n :: rest →
  n = 0%N ∨ state_size = 0%N ∨ (Tensor.numel rest `mod` state_size)%N ≠ 0%N →
  convert_predictions_to_trajectory state_size predictions = Raise RuntimeError.
Proof.
  unfold convert_predictions_to_trajectory, Tensor.size0, Tensor.view3.
  intros -> Hbad. cbn [mbind result_bind].
  change (Tensor.numel (n :: rest)) with (n * Tensor.numel rest)%N.
  destruct (Tensor.infer_size _ _) as [d|e] eqn:Hinfer.
  - apply infer_size_Ok in Hinfer as [Hpos Heq]. exfalso.
    assert (0 < n)%N by lia. assert (0 < state_size)%N by lia.
    destruct Hbad as [?|[?|Hmod]]; [lia|lia|]. apply Hmod.
    assert (Tensor.numel rest = d * state_size)%N as -> by nia.
    apply N.Div0.mod_mul.
  - unfold Tensor.infer_size in Hinfer.
    destruct (_ || _); [|by injection Hinfer as <-].
    destruct (_ =? _)%N; [by injection Hinfer as <-|done].
Qed.

End raster_failures.

Section forward_failures.
Variable state_size : N.
Variable layer_values fc2_values : list float → list float.
Variable layer_strides : Tensor.t → list N → list N.

Lemma spatial_out_Ok (size out : N) :
  conv_out size ≫= pool_out = Ok out → (2 <= size)%N ∧ out = (size `div` 2)%N.
Proof.
  intros H. assert (2 <= size)%N as Hsize.
  { unfold conv_out, pool_out in H.
    destruct (5 <=? size + 2 * 2)%N eqn:Hconv; [|done].
    cbn [mbind result_bind] in H. rewrite N.div_1_r in H.
    destruct (2 <=? size + 2 * 2 - 5 + 1)%N eqn:Hpool; [|done].
    apply N.leb_le in Hconv, Hpool. lia. }
  split; [done|]. rewrite spatial_out in H by done. by injection H.
Qed.

End forward_failures.

(** * The model on the small experiment *)

Example sample_rebuild :
  (λ data, ScenarioMetricScoreData.metric_statistic_name
             <$> bucket data "log_a" "scenario_1")
    <$> _update_aggregation_metric sample_services sample_tab
  = Ok ["progress"; "score"; "comfort"; "progress"; "score"].
Proof. vm_compute. reflexivity. Qed.

Example sample_time_series :
  _aggregate_time_series_data sample_services sample_tab
  = Ok [("ego_speed",
         [ScenarioTimeSeriesData.mk 0 "planner_a" [1; 2]%float [0; 100]%Z
            (Some "m/s")])].
Proof. vm_compute. reflexivity. Qed.

Example sample_planner_names :
  ScenarioTab.planner_checkbox_group (_update_planner_names sample_tab)
  = CheckboxGroup.mk ["planner_a"; "planner_b"] [0; 1]%nat.
Proof. vm_compute. reflexivity. Qed.

Example sample_log_name_change :
  (λ self', (Select.value (ScenarioTab.scalar_scenario_name_select self'),
             Select.options (ScenarioTab.scalar_scenario_name_select self'),
             ScenarioTab.next_tick_callbacks self'))
    <$> assign_log_name_value sample_services "log_b" sample_tab
  = Ok ("", [""; "scenario_2"], [update_simulation_layouts_cb]).
Proof. vm_compute. reflexivity. Qed.

Example sample_convert :
  convert_predictions_to_trajectory 3 (Tensor.mk [2; 6]%N [6; 1]%N (zeros 12))
  = Ok (Tensor.mk [2; 2; 3]%N [6; 3; 1]%N (zeros 12)).
Proof. vm_compute. reflexivity. Qed.

Example sample_view_of_a_slice :
  convert_predictions_to_trajectory 3 (Tensor.mk [2; 6]%N [12; 1]%N (zeros 12))
  = Ok (Tensor.mk [2; 2; 3]%N [12; 3; 1]%N (zeros 12)).
Proof. vm_compute. reflexivity. Qed.

(** * The statements on the small experiment *)

(** C1 on the first row of the sample table: [comfort] is [None]. *)
Lemma update_aggregation_metric_skips_null_scores_witness :
  ∃ data' new,
    scan_row sample_services 0 0 "aggregator.parquet"
      ["comfort"; "progress"; "score"] sample_scenario_row ∅ = Ok data'
    ∧ bucket data' "log_a" "scenario_1"
      = bucket ∅ "log_a" "scenario_1" ++ new
    ∧ (∀ l s, (l, s) ≠ ("log_a", "scenario_1") →
              bucket data' l s = bucket ∅ l s)
    ∧ ScenarioMetricScoreData.metric_statistic_name <$> new
      = filter (λ c, is_not_None (default CNone (sample_scenario_row !! c)) = true)
               ["comfort"; "progress"; "score"]
    ∧ Forall (entry_of_row sample_services 0 0 "aggregator.parquet"
                "planner_b" sample_scenario_row) new.
Proof.
  apply (update_aggregation_metric_skips_null_scores sample_services 0 0
           "aggregator.parquet" ["comfort"; "progress"; "score"]
           sample_scenario_row nan "planner_b" "scenario_1" "log_a" ∅);
    try (vm_compute; reflexivity).
  apply Forall_cons_2.
  { cbv beta delta [score_cell]. left. vm_compute. reflexivity. }
  apply Forall_cons_2.
  { cbv beta delta [score_cell]. right. exists 1%float. vm_compute. reflexivity. }
  apply Forall_cons_2.
  { cbv beta delta [score_cell]. right. exists 0.5%float. vm_compute. reflexivity. }
  apply Forall_nil_2.
Defined.

(** C2 on the summary row of the sample table. *)
Lemma update_aggregation_metric_skips_summary_rows_witness :
  is_summary_row sample_summary_row = true
  ∧ scan_row sample_services 0 0 "aggregator.parquet"
      ["comfort"; "progress"; "score"] sample_summary_row ∅ = Ok ∅.
Proof.
  split; [vm_compute; reflexivity|].
  apply (proj1 (update_aggregation_metric_skips_summary_rows sample_services)).
  vm_compute. reflexivity.
Defined.

(** C3, amended, on a change of the scenario type of the sample tab. *)
Lemma selection_cascade_clears_next_selector_witness :
  ∃ self',
    _scalar_scenario_type_select_on_change sample_services
      "value" "following" "merging" sample_tab = Ok self'
    ∧ Select.value (ScenarioTab.scalar_log_name_select self') = ""
    ∧ ScenarioTab.scalar_scenario_name_select self'
      = ScenarioTab.scalar_scenario_name_select sample_tab.
Proof.
  destruct (proj1 (selection_cascade_clears_next_selector sample_services
                     "value" "following" "merging" sample_tab
                     ltac:(discriminate)))
    as (self' & Hrun & Hlog & _ & Hname & _).
  exists self'. split; [exact Hrun|]. split; [exact Hlog|exact Hname].
Defined.

(** C3, as stated, fails: after the scenario type changes from
    ["following"] to ["merging"], the log name is unset and the scenario
    name is still ["scenario_1"]. *)
Lemma scenario_type_change_keeps_scenario_name :
  (λ self', (Select.value (ScenarioTab.scalar_log_name_select self'),
             Select.value (ScenarioTab.scalar_scenario_name_select self')))
    <$> assign_scenario_type_value sample_services "merging" sample_tab
  = Ok ("", "scenario_1").
Proof. vm_compute. reflexivity. Qed.

(** C4 on the sample tab. *)
Lemma scenario_name_change_enables_all_planners_witness :
  ∃ self',
    _scalar_scenario_name_select_on_change sample_services
      "value" "" "scenario_1" sample_tab = Ok self'
    ∧ CheckboxGroup.active (ScenarioTab.planner_checkbox_group self')
      = seq 0 (length (CheckboxGroup.labels
                         (ScenarioTab.planner_checkbox_group self')))
    ∧ enable_planner_names self'
      = CheckboxGroup.labels (ScenarioTab.planner_checkbox_group self').
Proof.
  destruct (scenario_name_change_enables_all_planners sample_services
              "value" "" "scenario_1" sample_tab
              [("ego_speed",
                [ScenarioTimeSeriesData.mk 0 "planner_a" [1; 2]%float
                   [0; 100]%Z (Some "m/s")])])
    as (self' & Hrun & Hactive & Henabled & _).
  - vm_compute. discriminate.
  - vm_compute. reflexivity.
  - exists self'. split; [exact Hrun|]. split; [exact Hactive|exact Henabled].
Defined.

(** C5 on nine metrics with the final score among them. *)
Lemma render_scenario_metric_score_orders_metric_names_witness :
  ordered_metric_names (group_by_metric ["planner_a"] sample_nine_scores)
  = ["collisions"; "comfort"; "direction"; "drivable_area"; "lane_change";
     "progress"; "speed_limit"; "time_to_collision"; "score"].
Proof.
  pose proof (render_scenario_metric_score_orders_metric_names
                ["planner_a"] sample_nine_scores) as H.
  cbv zeta in H. destruct H as (_ & _ & _ & _ & _ & H).
  rewrite H.
  - vm_compute. reflexivity.
  - compute_done.
Defined.

(** C6 on nine metrics. *)
Lemma render_scenario_metric_score_chunks_witness :
  length <$> ((λ figure : string * Figure.t,
                 default [] (Figure.x_range figure.2))
                <$> (_render_scenario_metric_score sample_services
                       sample_tab_nine_metrics).1)
  = [4; 4; 1]%nat.
Proof.
  pose proof (render_scenario_metric_score_chunks sample_services
                sample_tab_nine_metrics) as H.
  cbv zeta in H. destruct H as (_ & _ & _ & _ & _ & H).
  - vm_compute. discriminate.
  - vm_compute. discriminate.
  - compute_done.
  - apply H. vm_compute. reflexivity.
Defined.

(** C7 on the sample tab with no scenario chosen. *)
Lemma aggregate_time_series_data_without_scenario_name_witness :
  _aggregate_time_series_data sample_services sample_tab_no_scenario = Ok [].
Proof.
  apply aggregate_time_series_data_without_scenario_name.
  vm_compute. reflexivity.
Defined.

(** C8, amended, on the sample tab, whose selected bucket exists. *)
Lemma click_planner_checkbox_group_refilters_witness :
  ScenarioTab.scenario_metric_score_data
    (_click_planner_checkbox_group sample_services sample_tab)
  = ScenarioTab.scenario_metric_score_data sample_tab.
Proof.
  pose proof (click_planner_checkbox_group_refilters sample_services
                sample_tab) as H.
  cbv zeta in H. destruct H as (_ & _ & _ & _ & H & _).
  apply (H (default ∅ (sample_scores !! "log_a"))
           (bucket sample_scores "log_a" "scenario_1"));
    vm_compute; reflexivity.
Defined.

(** C8, as stated, fails: with scores stored for [log_a] only and
    [scenario_2] of [log_b] selected, the handler leaves an empty bucket for
    them in [_scenario_metric_score_data]. *)
Lemma click_planner_checkbox_group_creates_bucket :
  ScenarioTab.scenario_metric_score_data sample_tab_other_log !! "log_b" = None
  ∧ ScenarioTab.scenario_metric_score_data
      (_click_planner_checkbox_group sample_services sample_tab_other_log)
    !! "log_b"
    = Some {[ "scenario_2" := [] ]}.
Proof. split; vm_compute; reflexivity. Qed.

(** C9 on the sample tab. *)
Lemma update_scenario_plot_defers_simulation_layout_witness :
  ∃ self',
    _update_scenario_plot sample_services sample_tab = Ok self'
    ∧ ScenarioTab.simulation_tile_layout self'
      = ScenarioTab.simulation_tile_layout sample_tab
    ∧ ScenarioTab.next_tick_callbacks self'
      = ScenarioTab.next_tick_callbacks sample_tab
        ++ [update_simulation_layouts_cb]
    ∧ ScenarioTab.simulation_tile_layout (next_tick self')
      = layout (ScenarioTab.simulation_plots self').
Proof.
  destruct (update_scenario_plot_defers_simulation_layout sample_services
              sample_tab
              [("ego_speed",
                [ScenarioTimeSeriesData.mk 0 "planner_a" [1; 2]%float
                   [0; 100]%Z (Some "m/s")])])
    as (self' & Hrun & _ & _ & Htile & _ & Hqueue & Htick & _).
  - vm_compute. reflexivity.
  - exists self'. split; [exact Hrun|]. split; [exact Htile|].
    split; [exact Hqueue|exact Htick].
Defined.

(** C10, amended, on a batch of one raster and two poses of three features. *)
Lemma convert_predictions_to_trajectory_shape_witness :
  ∃ trajectory,
    forward 3 sample_layer_values (sample_fc2_values 6) sample_layer_strides
      (__init__ 3 2) sample_features = Ok trajectory
    ∧ Tensor.shape trajectory = [1; (2 * 3) `div` 3; 3]%N.
Proof.
  apply (proj2 (convert_predictions_to_trajectory_shape 3 sample_layer_values
                  (sample_fc2_values 6) sample_layer_strides)
           3%N 2%N sample_features
           (Tensor.mk [1; 4; 224; 224]%N [200704; 50176; 224; 1]%N
              (zeros 200704)) 1%N 224%N 224%N);
    reflexivity.
Defined.

(** C10, as stated, fails: an empty batch cannot be viewed as
    [(0, -1, 3)]; a batch of two transposed matrices, of shape [(2, 3, 4)]
    with strides [(12, 1, 3)], holds twelve elements per entry and has no
    view of shape [(2, 4, 3)]; and a model built with two features per pose
    makes predictions that do not split into states of size three. *)
Lemma convert_fails_on_empty_batch_and_forward_on_other_pose_width :
  convert_predictions_to_trajectory 3 (Tensor.mk [0; 6]%N [6; 1]%N [])
  = Raise RuntimeError
  ∧ convert_predictions_to_trajectory 3
      (Tensor.mk [2; 3; 4]%N [12; 1; 3]%N (zeros 24))
    = Raise RuntimeError
  ∧ forward 3 sample_layer_values (sample_fc2_values 2) sample_layer_strides
      (__init__ 2 1) sample_features
    = Raise RuntimeError.
Proof. split_and!; vm_compute; reflexivity. Qed.

(** * The further statements on the small experiment *)









